(** * dt-cloudflare-images: media serving and query engine

    A shallow embedding of the delivery path (format sniffing, fit modes,
    signed URLs) and of the V2 listing path (keyset pagination, metadata
    filters, signing-key maintenance) of the Go sources, followed by the
    properties the specification states about them.

    Go strings are byte strings and are embedded as [string]; [[]byte]
    values are [list byte]; Go [int] and [int64] are [Z].  SQLite tables
    are finite maps from their primary key to the remaining columns. *)

From Stdlib Require Import ZArith List String Ascii Lia Permutation.
From Stdlib.Strings Require Import Byte.
From stdpp Require Import base option list sorting gmap strings.
Import ListNotations.

Local Open Scope string_scope.
Local Open Scope list_scope.

(** ** Outcomes of fallible Go calls

    [Ok v] is a nil error, [Err msg] a non-nil error, [Panic] a run-time
    panic (index out of range). *)
Inductive result (A : Type) : Type :=
  | Ok (v : A)
  | Err (msg : string)
  | Panic.
Arguments Ok {A} v.
Arguments Err {A} msg.
Arguments Panic {A}.

Definition bytes_of (s : string) : list byte := list_byte_of_string s.

Definition byte_to_Z (b : byte) : Z := Z.of_N (Byte.to_N b).

Definition byte_of_Z (z : Z) : byte :=
  match Byte.of_N (Z.to_N (z mod 256)) with
  | Some b => b
  | None => x00
  end.

Definition char_code (c : ascii) : Z := Z.of_N (N_of_ascii c).

(** Byte-wise equality of two byte slices. *)
Fixpoint bytes_eqb (a b : list byte) : bool :=
  match a, b with
  | [], [] => true
  | x :: a', y :: b' => Byte.eqb x y && bytes_eqb a' b'
  | _, _ => false
  end.

(** Arithmetic on Go's 64-bit [int] wraps around: [wrap_int z] is what an
    [int] holds after an operation whose exact result is [z]. *)
Definition wrap_int (z : Z) : Z := ((z + 2^63) mod 2^64 - 2^63)%Z.

(** ** Package strings *)
Module GoStrings.

(** [strings.HasPrefix]. *)
Definition HasPrefix (s pre : string) : bool := String.prefix pre s.

(** [strings.TrimPrefix]. *)
Definition TrimPrefix (s pre : string) : string :=
  if HasPrefix s pre
  then String.substring (String.length pre) (String.length s - String.length pre) s
  else s.

(** [strings.HasSuffix]. *)
Definition HasSuffix (s suf : string) : bool :=
  (String.length suf <=? String.length s)%nat
  && String.eqb (String.substring (String.length s - String.length suf)
                                  (String.length suf) s) suf.

(** [strings.Index s sep] for a one-byte separator: the offset of the
    first occurrence, or [None] where Go returns -1. *)
Fixpoint IndexByte (s : string) (c : ascii) : option nat :=
  match s with
  | EmptyString => None
  | String a r =>
      if Ascii.eqb a c then Some O
      else match IndexByte r c with
           | Some i => Some (S i)
           | None => None
           end
  end.

(** [bytes.Contains] / [strings.Contains]: [sub] occurs in [s]. *)
Fixpoint Contains (s sub : string) : bool :=
  String.prefix sub s
  || match s with
     | EmptyString => false
     | String _ r => Contains r sub
     end.

(** [strings.SplitN s sep 2] for a one-byte separator: cut at the first
    separator, or the whole string alone when there is none. *)
Definition SplitN2 (s : string) (sep : ascii) : list string :=
  match IndexByte s sep with
  | None => [s]
  | Some m =>
      [String.substring 0 m s;
       String.substring (S m) (String.length s - S m) s]
  end.

Definition lower (c : ascii) : ascii :=
  let n := char_code c in
  if ((65 <=? n) && (n <=? 90))%Z then ascii_of_N (Z.to_N (n + 32)) else c.

(** [strings.EqualFold v "desc"].  Go folds by Unicode simple case
    folding; of the four letters only [s] has a fold outside ASCII,
    U+017F (bytes C5 BF), every other byte has to match up to ASCII
    case. *)
Definition EqualFold_desc (v : string) : bool :=
  match v with
  | String d (String e r) =>
      Ascii.eqb (lower d) "d" && Ascii.eqb (lower e) "e"
      && match r with
         | String s (String c EmptyString) =>
             Ascii.eqb (lower s) "s" && Ascii.eqb (lower c) "c"
         | String s1 (String s2 (String c EmptyString)) =>
             (char_code s1 =? 197)%Z && (char_code s2 =? 191)%Z
             && Ascii.eqb (lower c) "c"
         | _ => false
         end
  | _ => false
  end.

(** [strings.TrimRight s "/"]. *)
Fixpoint TrimRight_slash (s : string) : string :=
  match s with
  | EmptyString => EmptyString
  | String a r =>
      match TrimRight_slash r with
      | EmptyString => if Ascii.eqb a "/" then EmptyString else String a EmptyString
      | r' => String a r'
      end
  end.

End GoStrings.

(** ** Package strconv *)
Module Strconv.

Inductive NumError := ErrSyntax | ErrRange.

Definition digit_of (c : ascii) : option Z :=
  let n := char_code c in
  if ((48 <=? n) && (n <=? 57))%Z then Some (n - 48)%Z else None.

(** The digit loop of [ParseUint(s, 10, 64)]; [n] is the uint64
    accumulator.  Letters give a digit value of at least ten and fail
    the [d >= base] test like every other non-digit. *)
Fixpoint uint_loop (s : string) (n : Z) : NumError + Z :=
  match s with
  | EmptyString => inr n
  | String c r =>
      match digit_of c with
      | None => inl ErrSyntax
      | Some d =>
          if (n >=? (2^64 - 1) / 10 + 1)%Z then inl ErrRange
          else
            let n10 := (n * 10)%Z in
            let n1 := ((n10 + d) mod 2^64)%Z in
            if ((n1 <? n10) || (n1 >? 2^64 - 1))%Z then inl ErrRange
            else uint_loop r n1
      end
  end.

Definition ParseUint (s : string) : NumError + Z :=
  match s with
  | EmptyString => inl ErrSyntax
  | _ => uint_loop s 0%Z
  end.

(** [strconv.ParseInt(s, 10, 64)]. *)
Definition ParseInt (s : string) : NumError + Z :=
  match s with
  | EmptyString => inl ErrSyntax
  | String c r =>
      let neg := Ascii.eqb c "-" in
      let s' := if Ascii.eqb c "+" || neg then r else s in
      match ParseUint s' with
      | inl e => inl e
      | inr un =>
          if (negb neg && (un >=? 2^63))%Z then inl ErrRange
          else if (neg && (un >? 2^63))%Z then inl ErrRange
          else inr (if neg then (- un)%Z else un)
      end
  end.

(** [strconv.Atoi] on a 64-bit platform: its short-string fast path and
    its [ParseInt(s, 10, 0)] fallback accept the same texts with the
    same values. *)
Definition Atoi (s : string) : NumError + Z := ParseInt s.

End Strconv.

(** ** Package encoding/hex *)
Module Hex.

Definition hextable : list ascii := list_ascii_of_string "0123456789abcdef".

Definition hexdigit (n : Z) : ascii := nth (Z.to_nat n) hextable "0"%char.

(** [hex.EncodeToString]. *)
Fixpoint EncodeToString (b : list byte) : string :=
  match b with
  | [] => EmptyString
  | x :: r =>
      String (hexdigit (byte_to_Z x / 16))
             (String (hexdigit (byte_to_Z x mod 16)) (EncodeToString r))
  end.

(** The reverse table: both letter cases decode. *)
Definition fromHexChar (c : ascii) : option Z :=
  let n := char_code c in
  if ((48 <=? n) && (n <=? 57))%Z then Some (n - 48)%Z
  else if ((97 <=? n) && (n <=? 102))%Z then Some (n - 97 + 10)%Z
  else if ((65 <=? n) && (n <=? 70))%Z then Some (n - 65 + 10)%Z
  else None.

(** [hex.DecodeString]: [None] is either error (an invalid byte or an
    odd length). *)
Fixpoint DecodeString (s : string) : option (list byte) :=
  match s with
  | EmptyString => Some []
  | String _ EmptyString => None
  | String p (String q r) =>
      match fromHexChar p, fromHexChar q with
      | Some a, Some b =>
          match DecodeString r with
          | Some t => Some (byte_of_Z (a * 16 + b) :: t)
          | None => None
          end
      | _, _ => None
      end
  end.

End Hex.

(** ** Package crypto/sha256 (FIPS 180-4) *)
Module Sha256.

Definition w32 (x : Z) : Z := (x mod 2^32)%Z.

Definition rotr (n x : Z) : Z :=
  Z.lor (Z.shiftr x n) (w32 (Z.shiftl x (32 - n))).

Definition Ch (x y z : Z) : Z :=
  Z.lxor (Z.land x y) (Z.land (Z.lxor x (2^32 - 1)) z).

Definition Maj (x y z : Z) : Z :=
  Z.lxor (Z.lxor (Z.land x y) (Z.land x z)) (Z.land y z).

Definition bsig0 (x : Z) : Z := Z.lxor (Z.lxor (rotr 2 x) (rotr 13 x)) (rotr 22 x).
Definition bsig1 (x : Z) : Z := Z.lxor (Z.lxor (rotr 6 x) (rotr 11 x)) (rotr 25 x).
Definition ssig0 (x : Z) : Z := Z.lxor (Z.lxor (rotr 7 x) (rotr 18 x)) (Z.shiftr x 3).
Definition ssig1 (x : Z) : Z := Z.lxor (Z.lxor (rotr 17 x) (rotr 19 x)) (Z.shiftr x 10).

(** The first 64 primes. *)
Definition primes : list Z := [
  2; 3; 5; 7; 11; 13; 17; 19; 23; 29; 31; 37; 41; 43; 47; 53; 59; 61; 67; 71;
  73; 79; 83; 89; 97; 101; 103; 107; 109; 113; 127; 131; 137; 139; 149; 151;
  157; 163; 167; 173; 179; 181; 191; 193; 197; 199; 211; 223; 227; 229; 233;
  239; 241; 251; 257; 263; 269; 271; 277; 281; 283; 293; 307; 311 ]%Z.

(** Integer cube root by bisection: [lo^3 <= n < hi^3] throughout. *)
Fixpoint cbrt_between (fuel : nat) (lo hi n : Z) : Z :=
  match fuel with
  | O => lo
  | S fuel' =>
      let mid := ((lo + hi) / 2)%Z in
      if (mid * mid * mid <=? n)%Z then cbrt_between fuel' mid hi n
      else cbrt_between fuel' lo mid n
  end.

(** The round constants [_K]: the first 32 fractional bits of the cube
    roots of the primes. *)
Definition _K : list Z :=
  Eval vm_compute in map (fun p => w32 (cbrt_between 40 0 (2^35) (p * 2^96))) primes.

Record digest := Digest {
  h0 : Z; h1 : Z; h2 : Z; h3 : Z; h4 : Z; h5 : Z; h6 : Z; h7 : Z }.

(** The initial hash value: the first 32 fractional bits of the square
    roots of the first eight primes. *)
Definition iv (p : Z) : Z := w32 (Z.sqrt (p * 2^64)).

Definition init : digest :=
  Eval vm_compute in Digest (iv 2) (iv 3) (iv 5) (iv 7) (iv 11) (iv 13) (iv 17) (iv 19).

(** The big-endian 32-bit words of a byte sequence. *)
Fixpoint be_words (p : list Z) : list Z :=
  match p with
  | a :: b :: c :: d :: r =>
      Z.lor (Z.lor (Z.lor (Z.shiftl a 24) (Z.shiftl b 16)) (Z.shiftl c 8)) d
      :: be_words r
  | _ => []
  end.

(** Message schedule; [w] holds the words computed so far, newest
    first, and [n] more are appended. *)
Fixpoint schedule (n : nat) (w : list Z) : list Z :=
  match n with
  | O => w
  | S n' =>
      schedule n'
        (w32 (ssig1 (nth 1 w 0%Z) + nth 6 w 0%Z + ssig0 (nth 14 w 0%Z) + nth 15 w 0%Z)
         :: w)
  end.

Definition round (s : digest) (kw : Z * Z) : digest :=
  let '(k, w) := kw in
  let t1 := (h7 s + bsig1 (h4 s) + Ch (h4 s) (h5 s) (h6 s) + k + w)%Z in
  let t2 := (bsig0 (h0 s) + Maj (h0 s) (h1 s) (h2 s))%Z in
  Digest (w32 (t1 + t2)) (h0 s) (h1 s) (h2 s)
         (w32 (h3 s + t1)) (h4 s) (h5 s) (h6 s).

Definition block (s : digest) (p : list Z) : digest :=
  let w := rev (schedule 48 (rev (be_words p))) in
  let r := fold_left round (combine _K w) s in
  Digest (w32 (h0 s + h0 r)) (w32 (h1 s + h1 r)) (w32 (h2 s + h2 r))
         (w32 (h3 s + h3 r)) (w32 (h4 s + h4 r)) (w32 (h5 s + h5 r))
         (w32 (h6 s + h6 r)) (w32 (h7 s + h7 r)).

(** One 64-byte block per step; [n] bounds the number of blocks. *)
Fixpoint blocks (n : nat) (s : digest) (p : list Z) : digest :=
  match n with
  | O => s
  | S n' =>
      match p with
      | [] => s
      | _ => blocks n' (block s (firstn 64 p)) (skipn 64 p)
      end
  end.

Definition be_bytes (n : nat) (x : Z) : list Z :=
  map (fun i => (Z.shiftr x (8 * Z.of_nat i) mod 256)%Z) (rev (seq 0 n)).

(** Padding: 0x80, zeros up to 56 mod 64, the bit length on 64 bits. *)
Definition pad (msg : list Z) : list Z :=
  let len := Z.of_nat (List.length msg) in
  msg ++ [0x80%Z] ++ repeat 0%Z (Z.to_nat ((55 - len) mod 64))
      ++ be_bytes 8 ((len * 8) mod 2^64)%Z.

Definition digest_bytes (d : digest) : list byte :=
  map byte_of_Z
      (be_bytes 4 (h0 d) ++ be_bytes 4 (h1 d) ++ be_bytes 4 (h2 d)
       ++ be_bytes 4 (h3 d) ++ be_bytes 4 (h4 d) ++ be_bytes 4 (h5 d)
       ++ be_bytes 4 (h6 d) ++ be_bytes 4 (h7 d)).

(** [sha256.Sum256]. *)
Definition Sum256 (data : list byte) : list byte :=
  let p := pad (map byte_to_Z data) in
  digest_bytes (blocks (List.length p) init p).

End Sha256.

(** ** Package crypto/hmac, instantiated at SHA-256 (RFC 2104) *)
Module Hmac.

Definition xor_with (c : Z) (k : list byte) : list byte :=
  map (fun b => byte_of_Z (Z.lxor (byte_to_Z b) c)) k.

(** [mac := hmac.New(sha256.New, key); mac.Write(msg); mac.Sum(nil)]. *)
Definition Sum (key msg : list byte) : list byte :=
  let k := if (64 <? List.length key)%nat then Sha256.Sum256 key else key in
  let k := k ++ repeat x00 (64 - List.length k) in
  Sha256.Sum256 (xor_with 0x5c k ++ Sha256.Sum256 (xor_with 0x36 k ++ msg)).

(** [hmac.Equal], i.e. [subtle.ConstantTimeCompare(a, b) == 1]: equal
    lengths and no differing byte. *)
Definition Equal (a b : list byte) : bool :=
  (List.length a =? List.length b)%nat && bytes_eqb a b.

End Hmac.

(** ** Packages outside the repository

    The Go standard library's time and JSON codecs and the raster
    packages ([image], [image/jpeg], [image/png], [image/gif] and
    [disintegration/imaging], always called with the Lanczos filter) are
    interfaces of the development.  The float64 arithmetic by which
    [fitContain] rounds its target size is [contain_size]. *)
Class TimeLib := {
  Time : Type;
  (** [t, _ := time.Parse(time.RFC3339, s)]: the zero time on failure. *)
  time_Parse : string -> Time;
  (** [t.UTC().Format(time.RFC3339)]. *)
  time_Format : Time -> string;
  (** [t.UTC().Format(time.RFC3339Nano)]. *)
  time_FormatNano : Time -> string;
}.

Class JsonLib := {
  (** A decoded [map[string]interface{}]. *)
  Meta : Type;
  (** [json.Unmarshal] into a nil map: [Err] on malformed text, [Ok None]
      when the map stays nil (the text [null]). *)
  json_Unmarshal : string -> result (option Meta);
  (** [json.Marshal] of a map, nil or not. *)
  json_Marshal : option Meta -> result string;
}.

Class ImagingLib := {
  Img : Type;
  (** [img.Bounds().Dx()] and [img.Bounds().Dy()]. *)
  Dx : Img -> Z;
  Dy : Img -> Z;
  image_Decode : list byte -> result Img;
  imaging_Fit : Img -> Z -> Z -> Img;
  imaging_Resize : Img -> Z -> Z -> Img;
  imaging_Fill : Img -> Z -> Z -> Img;
  imaging_CropCenter : Img -> Z -> Z -> Img;
  imaging_PasteCenter : Img -> Img -> Img;
  imaging_New_white : Z -> Z -> Img;
  jpeg_Encode : Img -> Z -> result (list byte);
  png_Encode : Img -> result (list byte);
  gif_Encode : Img -> result (list byte);
  (** [contain_size origW origH targetW targetH] is the pair
      [(int(float64(origW)*scale + 0.5), int(float64(origH)*scale + 0.5))]
      for [scale] the smaller of the two float64 ratios. *)
  contain_size : Z -> Z -> Z -> Z -> Z * Z;
}.

(** ** Package model *)
Module Model.

Record VariantOptions := {
  Fit : string;
  Width : Z;
  Height : Z;
  Metadata : string;
}.

Record Variant := {
  variant_ID : string;
  variant_AccountID : string;
  Options : VariantOptions;
  NeverRequireSignedURLs : bool;
}.

Record SigningKey `{TimeLib} := {
  Name : string;
  Value : string;
  key_AccountID : string;
  CreatedAt : Time;
}.

Record Image `{TimeLib} `{JsonLib} := {
  ID : string;
  AccountID : string;
  Filename : string;
  Creator : string;
  image_Meta : option Meta;
  RequireSignedURLs : bool;
  Uploaded : Time;
  Variants : list string;
  Draft : bool;
}.

End Model.

(** ** Package imageproc *)
Module Imageproc.
Import Model.

(** [data[off : off+len(sig)]] exists and equals [sig]. *)
Definition bytes_at (data : list byte) (off : nat) (sig : list byte) : bool :=
  bytes_eqb (take (List.length sig) (drop off data)) sig.

(** [DetectFormat]: the image format of the raw bytes, or the empty
    string when unknown. *)
Definition DetectFormat (data : list byte) : string :=
  if (3 <=? List.length data)%nat && bytes_at data 0 [xff; xd8; xff]
  then "jpeg"
  else if (8 <=? List.length data)%nat
          && bytes_at data 0 [x89; x50; x4e; x47; x0d; x0a; x1a; x0a]
  then "png"
  else if (6 <=? List.length data)%nat && bytes_at data 0 (bytes_of "GIF")
  then "gif"
  else if (12 <=? List.length data)%nat
          && bytes_at data 0 (bytes_of "RIFF") && bytes_at data 8 (bytes_of "WEBP")
  then "webp"
  else "".

(** [IsSVG]: SVG markers within the first 512 bytes. *)
Definition IsSVG (data : list byte) : bool :=
  if (List.length data =? 0)%nat then false
  else
    let limit := if (List.length data <? 512)%nat then List.length data else 512%nat in
    let header := string_of_list_byte (take limit data) in
    GoStrings.Contains header "<svg"
    || (GoStrings.Contains header "<?xml" && GoStrings.Contains header "<svg").

(** An [io.Reader] is what [io.ReadAll] returns on it. *)
Definition Reader := result (list byte).

Section WithImaging.
Context `{ImagingLib}.

(** [fitScaleDown]: only shrinks, never enlarges. *)
Definition fitScaleDown (img : Img) (origW origH targetW targetH : Z) : Img :=
  if ((origW <=? targetW) && (origH <=? targetH))%Z then img
  else imaging_Fit img targetW targetH.

(** [fitContain]: may enlarge; each side is at least one pixel. *)
Definition fitContain (img : Img) (targetW targetH : Z) : Img :=
  let origW := Dx img in
  let origH := Dy img in
  let '(newW, newH) := contain_size origW origH targetW targetH in
  let newW := if (newW <? 1)%Z then 1%Z else newW in
  let newH := if (newH <? 1)%Z then 1%Z else newH in
  imaging_Resize img newW newH.

Definition fitCover (img : Img) (targetW targetH : Z) : Img :=
  imaging_Fill img targetW targetH.

Definition fitCrop (img : Img) (targetW targetH : Z) : Img :=
  imaging_CropCenter img targetW targetH.

Definition fitPad (img : Img) (targetW targetH : Z) : Img :=
  let fitted := imaging_Fit img targetW targetH in
  imaging_PasteCenter (imaging_New_white targetW targetH) fitted.

(** [applyFit]: the fit mode of the variant applied to the image. *)
Definition applyFit (img : Img) (opts : VariantOptions) : Img :=
  let origW := Dx img in
  let origH := Dy img in
  let targetW := Width opts in
  let targetH := Height opts in
  let targetW := if (targetW =? 0)%Z then origW else targetW in
  let targetH := if (targetH =? 0)%Z then origH else targetH in
  if String.eqb (Fit opts) "scale-down" then fitScaleDown img origW origH targetW targetH
  else if String.eqb (Fit opts) "contain" then fitContain img targetW targetH
  else if String.eqb (Fit opts) "cover" then fitCover img targetW targetH
  else if String.eqb (Fit opts) "crop" then fitCrop img targetW targetH
  else if String.eqb (Fit opts) "pad" then fitPad img targetW targetH
  else fitScaleDown img origW origH targetW targetH.

(** [encodeImage]. *)
Definition encodeImage (img : Img) (format : string) : result (list byte) :=
  if String.eqb format "jpeg" then jpeg_Encode img 85
  else if String.eqb format "png" then png_Encode img
  else if String.eqb format "gif" then gif_Encode img
  else Err ("unsupported output format: " +:+ format).

(** [Transform]: the processed bytes and the output format. *)
Definition Transform (src : Reader) (opts : VariantOptions)
  : result (list byte * string) :=
  match src with
  | Panic => Panic
  | Err e => Err ("reading source: " +:+ e)
  | Ok data =>
      if IsSVG data then Ok (data, "svg")
      else
        let format := DetectFormat data in
        if String.eqb format "gif" then Ok (data, "gif")
        else if String.eqb format "" then
          Err "unsupported or unrecognized image format"
        else
          match image_Decode data with
          | Panic => Panic
          | Err e => Err ("decoding image: " +:+ e)
          | Ok img =>
              let img := applyFit img opts in
              match encodeImage img format with
              | Panic => Panic
              | Err e => Err ("encoding image: " +:+ e)
              | Ok out => Ok (out, format)
              end
          end
  end.

End WithImaging.

End Imageproc.

(** ** Package database: the SQLite store *)
Module Database.
Import Model.

(** The columns of [images] outside its primary key that the queries
    read. *)
Record ImageRow := {
  filename : string;
  creator : string;
  meta : string;
  require_signed_urls : Z;
  uploaded : string;
}.

Record VariantRow := {
  fit : string;
  width : Z;
  height : Z;
  metadata : string;
  never_require_signed_urls : Z;
}.

Record KeyRow := {
  value : string;
  created_at : string;
}.

(** The tables, each keyed by its PRIMARY KEY: [(account_id, id)],
    [(account_id, id)], [(account_id, name)] and
    [(account_id, image_id, key)]. *)
Record SQLiteDB := {
  images : gmap (string * string) ImageRow;
  variants : gmap (string * string) VariantRow;
  signing_keys : gmap (string * string) KeyRow;
  image_metadata : gmap (string * string * string) string;
}.

(** *** SQL on TEXT values (BINARY collation: byte order)

    The ids and metadata values are TEXT columns.  [uploaded] is declared
    DATETIME; what it holds, and what a cursor carries back, is an
    RFC 3339 rendering, which SQLite stores and compares as text. *)
Definition text_gt (a b : string) : bool :=
  match String.compare a b with Gt => true | _ => false end.

Definition text_lt (a b : string) : bool :=
  match String.compare a b with Lt => true | _ => false end.

Definition text_eq (a b : string) : bool := String.eqb a b.

(** The sort direction spliced into ORDER BY. *)
Inductive Order := ASC | DESC.

(** Comparison of two [(uploaded, id)] sort keys. *)
Definition key_compare (k1 k2 : string * string) : comparison :=
  match String.compare k1.1 k2.1 with
  | Eq => String.compare k1.2 k2.2
  | c => c
  end.

Definition key_leb (o : Order) (k1 k2 : string * string) : bool :=
  match o with
  | ASC => match key_compare k1 k2 with Gt => false | _ => true end
  | DESC => match key_compare k2 k1 with Gt => false | _ => true end
  end.

(** [LIMIT ?]: a negative limit is no limit. *)
Definition sql_limit {A} (n : Z) (l : list A) : list A :=
  if (n <? 0)%Z then l else take (Z.to_nat n) l.

(** A row of [images] with its key. *)
Abbreviation Row := ((string * string) * ImageRow)%type.

Definition row_account (r : Row) : string := r.1.1.
Definition row_id (r : Row) : string := r.1.2.
Definition row_key (r : Row) : string * string := (uploaded r.2, row_id r).

Definition row_le (o : Order) : relation Row :=
  fun x y => Is_true (key_leb o (row_key x) (row_key y)).

#[global] Instance row_le_dec o x y : Decision (row_le o x y).
Proof. unfold row_le. apply _. Defined.

(** [SELECT ... FROM images WHERE w ORDER BY uploaded o, id o]. *)
Definition ordered_images (s : SQLiteDB) (w : Row -> bool) (o : Order) : list Row :=
  merge_sort (row_le o) (filter (fun r => Is_true (w r)) (map_to_list (images s))).

(** The same query with [LIMIT n]. *)
Definition select_images (s : SQLiteDB) (w : Row -> bool) (o : Order) (n : Z)
  : list Row :=
  sql_limit n (ordered_images s w o).

(** The keyset predicate after a cursor:
    [uploaded > ? OR (uploaded = ? AND id > ?)], with [<] when
    descending. *)
Definition after_cursor (o : Order) (cursorUploaded cursorID : string) (r : Row) : bool :=
  match o with
  | ASC => text_gt (uploaded r.2) cursorUploaded
           || (text_eq (uploaded r.2) cursorUploaded && text_gt (row_id r) cursorID)
  | DESC => text_lt (uploaded r.2) cursorUploaded
            || (text_eq (uploaded r.2) cursorUploaded && text_lt (row_id r) cursorID)
  end.

(** The comparison operator a filter's [op] selects; anything
    unrecognised compares for equality. *)
Definition opSQL (op : string) (a b : string) : bool :=
  if String.eqb op "eq" then text_eq a b
  else if String.eqb op "ne" then negb (text_eq a b)
  else if String.eqb op "lt" then text_lt a b
  else if String.eqb op "gt" then text_gt a b
  else if String.eqb op "le" || String.eqb op "lte" then negb (text_gt a b)
  else if String.eqb op "ge" || String.eqb op "gte" then negb (text_lt a b)
  else text_eq a b.

(** [INNER JOIN image_metadata m ON i.account_id = m.account_id AND
    i.id = m.image_id WHERE m.key = ? AND m.value op ?]: the primary key
    of [image_metadata] leaves at most one joined row per image. *)
Definition joins_metadata (s : SQLiteDB) (key op valStr : string) (r : Row) : bool :=
  match image_metadata s !! (row_account r, row_id r, key) with
  | Some v => opSQL op v valStr
  | None => false
  end.

Section WithLibs.
Context `{TimeLib} `{JsonLib}.

(** The image [scanImage] fills in from a row, given its decoded
    metadata. *)
Definition image_of_row (r : Row) (m : option Meta) : Image := {|
  ID := row_id r;
  AccountID := row_account r;
  Filename := filename r.2;
  Creator := creator r.2;
  image_Meta := m;
  RequireSignedURLs := negb (require_signed_urls r.2 =? 0)%Z;
  Uploaded := time_Parse (uploaded r.2);
  Variants := [];
  Draft := false;
|}.

(** [scanImage]. *)
Definition scanImage (r : Row) : result Image :=
  let metaStr := meta r.2 in
  if negb (String.eqb metaStr "") && negb (String.eqb metaStr "{}") then
    match json_Unmarshal metaStr with
    | Ok m => Ok (image_of_row r m)
    | Err e => Err ("unmarshal image metadata: " +:+ e)
    | Panic => Panic
    end
  else Ok (image_of_row r None).

(** [scanImages]: the first failing row aborts the scan. *)
Fixpoint scanImages (rows : list Row) : result (list Image) :=
  match rows with
  | [] => Ok []
  | r :: rest =>
      match scanImage r with
      | Ok img =>
          match scanImages rest with
          | Ok imgs => Ok (img :: imgs)
          | Err e => Err e
          | Panic => Panic
          end
      | Err e => Err e
      | Panic => Panic
      end
  end.

(** The tail both listings share: scan the rows, and hand out a
    cursor made of the last image when the page is full. *)
Definition page_of_rows (rows : list Row) (perPage : Z) : result (list Image * string) :=
  match scanImages rows with
  | Err e => Err e
  | Panic => Panic
  | Ok images =>
      if (Z.of_nat (List.length images) =? perPage)%Z then
        match last images with
        | None => Panic
        | Some l => Ok (images, time_FormatNano (Uploaded l) +:+ "|" +:+ ID l)
        end
      else Ok (images, "")
  end.

(** [boolToInt]. *)
Definition boolToInt (b : bool) : Z := if b then 1%Z else 0%Z.

(** [CreateImage]: the INSERT fails on an existing [(account_id, id)]. *)
Definition CreateImage (s : SQLiteDB) (img : Image) : result SQLiteDB :=
  match json_Marshal (image_Meta img) with
  | Ok metaJSON =>
      match images s !! (AccountID img, ID img) with
      | Some _ => Err "insert image: UNIQUE constraint failed: images.account_id, images.id"
      | None =>
          Ok {| images :=
                  <[(AccountID img, ID img) :=
                      {| filename := Filename img;
                         creator := Creator img;
                         meta := metaJSON;
                         require_signed_urls := boolToInt (RequireSignedURLs img);
                         uploaded := time_Format (Uploaded img) |}]>
                    (images s);
                variants := variants s;
                signing_keys := signing_keys s;
                image_metadata := image_metadata s |}
      end
  | Err e => Err ("marshal meta: " +:+ e)
  | Panic => Panic
  end.

(** [UpdateImage]: filename, metadata and the signed-URL flag of an
    existing row; the upload time stays. *)
Definition UpdateImage (s : SQLiteDB) (img : Image) : result SQLiteDB :=
  match json_Marshal (image_Meta img) with
  | Ok metaJSON =>
      match images s !! (AccountID img, ID img) with
      | Some row =>
          Ok {| images :=
                  <[(AccountID img, ID img) :=
                      {| filename := Filename img;
                         creator := creator row;
                         meta := metaJSON;
                         require_signed_urls := boolToInt (RequireSignedURLs img);
                         uploaded := uploaded row |}]>
                    (images s);
                variants := variants s;
                signing_keys := signing_keys s;
                image_metadata := image_metadata s |}
      | None => Err "image not found"
      end
  | Err e => Err ("marshal meta: " +:+ e)
  | Panic => Panic
  end.

(** [DeleteImage]. *)
Definition DeleteImage (s : SQLiteDB) (accountID imageID : string) : result SQLiteDB :=
  match images s !! (accountID, imageID) with
  | Some _ =>
      Ok {| images := delete (accountID, imageID) (images s);
            variants := variants s;
            signing_keys := signing_keys s;
            image_metadata := image_metadata s |}
  | None => Err "image not found"
  end.

(** [GetImage]. *)
Definition GetImage (s : SQLiteDB) (accountID imageID : string) : result Image :=
  match images s !! (accountID, imageID) with
  | Some r => scanImage ((accountID, imageID), r)
  | None => Err "scan image: sql: no rows in result set"
  end.

(** [GetVariant]. *)
Definition GetVariant (s : SQLiteDB) (accountID variantID : string) : result Variant :=
  match variants s !! (accountID, variantID) with
  | Some v =>
      Ok {| variant_ID := variantID;
            variant_AccountID := accountID;
            Options := {| Fit := fit v; Width := width v; Height := height v;
                          Metadata := metadata v |};
            NeverRequireSignedURLs := negb (never_require_signed_urls v =? 0)%Z |}
  | None => Err "get variant: sql: no rows in result set"
  end.

(** [ListVariants]: ORDER BY id ASC. *)
Definition ListVariants (s : SQLiteDB) (accountID : string) : result (list Variant) :=
  let rows :=
    merge_sort (fun x y : (string * string) * VariantRow =>
                  Is_true (negb (text_gt x.1.2 y.1.2)))
      (filter (fun r : (string * string) * VariantRow =>
                 Is_true (text_eq r.1.1 accountID))
              (map_to_list (variants s))) in
  Ok (map (fun r : (string * string) * VariantRow =>
             {| variant_ID := r.1.2;
                variant_AccountID := r.1.1;
                Options := {| Fit := fit r.2; Width := width r.2;
                              Height := height r.2; Metadata := metadata r.2 |};
                NeverRequireSignedURLs :=
                  negb (never_require_signed_urls r.2 =? 0)%Z |}) rows).

(** [CreateSigningKey]: the INSERT fails on an existing
    [(account_id, name)]. *)
Definition CreateSigningKey (s : SQLiteDB) (key : SigningKey) : result SQLiteDB :=
  match signing_keys s !! (key_AccountID key, Name key) with
  | Some _ =>
      Err "insert signing key: UNIQUE constraint failed: signing_keys.account_id, signing_keys.name"
  | None =>
      Ok {| images := images s;
            variants := variants s;
            signing_keys :=
              <[(key_AccountID key, Name key) :=
                  {| value := Value key; created_at := time_Format (CreatedAt key) |}]>
                (signing_keys s);
            image_metadata := image_metadata s |}
  end.

(** [ListSigningKeys]: ORDER BY name ASC. *)
Definition ListSigningKeys (s : SQLiteDB) (accountID : string) : result (list SigningKey) :=
  let rows :=
    merge_sort (fun x y : (string * string) * KeyRow =>
                  Is_true (negb (text_gt x.1.2 y.1.2)))
      (filter (fun r : (string * string) * KeyRow =>
                 Is_true (text_eq r.1.1 accountID))
              (map_to_list (signing_keys s))) in
  Ok (map (fun r : (string * string) * KeyRow =>
             {| Name := r.1.2;
                Value := value r.2;
                key_AccountID := r.1.1;
                CreatedAt := time_Parse (created_at r.2) |}) rows).

(** [DeleteSigningKey]: no affected row is an error. *)
Definition DeleteSigningKey (s : SQLiteDB) (accountID name : string) : result SQLiteDB :=
  match signing_keys s !! (accountID, name) with
  | Some _ =>
      Ok {| images := images s;
            variants := variants s;
            signing_keys := delete (accountID, name) (signing_keys s);
            image_metadata := image_metadata s |}
  | None => Err "signing key not found"
  end.

(** [ListImagesV2]: cursor-based pagination. *)
Definition ListImagesV2 (s : SQLiteDB) (accountID cursor : string) (perPage : Z)
           (sortOrder : string) : result (list Image * string) :=
  let order := if GoStrings.EqualFold_desc sortOrder then DESC else ASC in
  if String.eqb cursor "" then
    page_of_rows
      (select_images s (fun r => text_eq (row_account r) accountID) order perPage)
      perPage
  else
    match GoStrings.SplitN2 cursor "|" with
    | [cursorUploaded; cursorID] =>
        page_of_rows
          (select_images s
             (fun r => text_eq (row_account r) accountID
                       && after_cursor order cursorUploaded cursorID r)
             order perPage)
          perPage
    | _ => Err "invalid cursor"
    end.

(** [ListImagesWithFilter]: the same scan over the images joined with
    one metadata predicate. *)
Definition ListImagesWithFilter (s : SQLiteDB) (accountID cursor : string)
           (perPage : Z) (sortOrder key op value : string)
  : result (list Image * string) :=
  let order := if GoStrings.EqualFold_desc sortOrder then DESC else ASC in
  let valStr := value in
  let base r := text_eq (row_account r) accountID && joins_metadata s key op valStr r in
  if String.eqb cursor "" then
    page_of_rows (select_images s base order perPage) perPage
  else
    match GoStrings.SplitN2 cursor "|" with
    | [cursorUploaded; cursorID] =>
        page_of_rows
          (select_images s
             (fun r => base r && after_cursor order cursorUploaded cursorID r)
             order perPage)
          perPage
    | _ => Err "invalid cursor"
    end.

(** [CountImages]. *)
Definition CountImages (s : SQLiteDB) (accountID : string) : result Z :=
  Ok (Z.of_nat (List.length
        (filter (fun r : Row => Is_true (text_eq (row_account r) accountID))
                (map_to_list (images s))))).

(** The columns [CreateVariant] and [UpdateVariant] write for a variant. *)
Definition row_of_variant (v : Variant) : VariantRow :=
  {| fit := Fit (Options v);
     width := Width (Options v);
     height := Height (Options v);
     metadata := Metadata (Options v);
     never_require_signed_urls := boolToInt (NeverRequireSignedURLs v) |}.

(** [CreateVariant]: the INSERT fails on an existing [(account_id, id)],
    with the driver's message for the violated constraint. *)
Definition CreateVariant (s : SQLiteDB) (v : Variant) : result SQLiteDB :=
  match variants s !! (variant_AccountID v, variant_ID v) with
  | Some _ =>
      Err "insert variant: constraint failed: UNIQUE constraint failed: variants.account_id, variants.id (1555)"
  | None =>
      Ok {| images := images s;
            variants := <[(variant_AccountID v, variant_ID v) := row_of_variant v]> (variants s);
            signing_keys := signing_keys s;
            image_metadata := image_metadata s |}
  end.

(** [UpdateVariant]: every option column of an existing row; no affected
    row is an error. *)
Definition UpdateVariant (s : SQLiteDB) (v : Variant) : result SQLiteDB :=
  match variants s !! (variant_AccountID v, variant_ID v) with
  | Some _ =>
      Ok {| images := images s;
            variants := <[(variant_AccountID v, variant_ID v) := row_of_variant v]> (variants s);
            signing_keys := signing_keys s;
            image_metadata := image_metadata s |}
  | None => Err "variant not found"
  end.

(** [DeleteVariant]. *)
Definition DeleteVariant (s : SQLiteDB) (accountID variantID : string) : result SQLiteDB :=
  match variants s !! (accountID, variantID) with
  | Some _ =>
      Ok {| images := images s;
            variants := delete (accountID, variantID) (variants s);
            signing_keys := signing_keys s;
            image_metadata := image_metadata s |}
  | None => Err "variant not found"
  end.

(** [CountVariants]. *)
Definition CountVariants (s : SQLiteDB) (accountID : string) : result Z :=
  Ok (Z.of_nat (List.length
        (filter (fun r : (string * string) * VariantRow =>
                   Is_true (text_eq r.1.1 accountID))
                (map_to_list (variants s))))).

(** [SetImageMetadata]; [meta] holds, for each key of the Go map, the
    text [fmt.Sprintf("%v", v)] renders its value to.  In one
    transaction the rows of the image are deleted and one row per key is
    inserted; the keys of a map are distinct, so no insert can meet
    another. *)
Definition SetImageMetadata (s : SQLiteDB) (accountID imageID : string)
           (meta : gmap string string) : result SQLiteDB :=
  Ok {| images := images s;
        variants := variants s;
        signing_keys := signing_keys s;
        image_metadata :=
          kmap (pair (accountID, imageID)) meta
          ∪ filter (fun kv : (string * string * string) * string =>
                      kv.1.1 <> (accountID, imageID))
                   (image_metadata s) |}.

(** [OFFSET ?]: a negative offset is no offset. *)
Definition sql_offset {A} (n : Z) (l : list A) : list A :=
  if (n <? 0)%Z then l else drop (Z.to_nat n) l.

(** [rows] is a result of
    [SELECT ... FROM images WHERE account_id = ? ORDER BY uploaded ASC]:
    the rows of the account by ascending upload time.  In what order rows
    of equal upload time come is the engine's choice. *)
Definition ordered_by_uploaded (s : SQLiteDB) (accountID : string) (rows : list Row) : Prop :=
  rows ≡ₚ filter (fun r : Row => Is_true (text_eq (row_account r) accountID))
                 (map_to_list (images s))
  /\ StronglySorted
       (fun x y : Row => Is_true (negb (text_gt (uploaded x.2) (uploaded y.2)))) rows.

(** [ListImages]: offset pagination; [rows] is the result of the ordered
    query before LIMIT and OFFSET cut it. *)
Definition ListImages (s : SQLiteDB) (rows : list Row) (accountID : string)
           (page perPage : Z) : result (list Image * Z) :=
  match CountImages s accountID with
  | Ok total =>
      let offset := wrap_int ((page - 1) * perPage) in
      match scanImages (sql_limit perPage (sql_offset offset rows)) with
      | Ok images => Ok (images, total)
      | Err e => Err e
      | Panic => Panic
      end
  | Err e => Err ("count images: " +:+ e)
  | Panic => Panic
  end.

End WithLibs.

End Database.

(** ** Package storage: the blob store interface *)
Module Storage.

Record Storage := {
  (** [Retrieve(accountID, imageID)]: a reader on the stored original. *)
  Retrieve : string -> string -> result Imageproc.Reader;
}.

End Storage.

(** ** Package config *)
Module Config.

Record Config := {
  ListenAddr : string;
  DBPath : string;
  StoragePath : string;
  ImageAllowance : Z;
  AuthToken : string;
  BaseURL : string;
  EnforceSignedURLs : bool;
}.

(** [os.Getenv]: the value of a variable, empty when it is not set. *)
Definition Env : Type := string -> string.

(** [getEnv]. *)
Definition getEnv (env : Env) (key defaultValue : string) : string :=
  let v := env key in
  if negb (String.eqb v "") then v else defaultValue.

(** The loop of [getEnvInt] over the text.  It ranges over runes; a
    decimal digit is a rune of one byte and every byte of any other rune
    lies outside [0-9], so that going byte by byte meets a non-digit
    exactly when the loop does. *)
Fixpoint getEnvInt_loop (v : string) (result defaultValue : Z) : Z :=
  match v with
  | EmptyString => result
  | String c r =>
      if ((char_code c <? 48) || (char_code c >? 57))%Z then defaultValue
      else getEnvInt_loop r (wrap_int (result * 10 + (char_code c - 48))) defaultValue
  end.

(** [getEnvInt]. *)
Definition getEnvInt (env : Env) (key : string) (defaultValue : Z) : Z :=
  let v := env key in
  if String.eqb v "" then defaultValue
  else getEnvInt_loop v 0 defaultValue.

(** [Load]. *)
Definition Load (env : Env) : Config := {|
  ListenAddr := getEnv env "DT_LISTEN_ADDR" ":8080";
  DBPath := getEnv env "DT_DB_PATH" "/data/db/images.db";
  StoragePath := getEnv env "DT_STORAGE_PATH" "/data/images";
  ImageAllowance := getEnvInt env "DT_IMAGE_ALLOWANCE" 100000;
  AuthToken := getEnv env "DT_AUTH_TOKEN" "";
  BaseURL := getEnv env "DT_BASE_URL" "http://localhost:8080";
  EnforceSignedURLs := String.eqb (getEnv env "DT_ENFORCE_SIGNED_URLS" "") "true";
|}.

End Config.

(** ** Package handler *)
Module Handler.
Import Model.

(** [url.Values]. *)
Definition Values : Type := gmap string (list string).

(** [url.Values.Get]: the first value of the key, or the empty string. *)
Definition Get (q : Values) (key : string) : string :=
  match q !! key with
  | Some (v :: _) => v
  | _ => ""
  end.

(** What the handlers read of an [*http.Request]: the chi URL
    parameters, the parsed query and the account id the middleware put
    in the context. *)
Record Request := {
  URLParam : string -> string;
  Query : Values;
  ContextAccountID : string;
}.

Record metadataFilter := {
  Key : string;
  Op : string;
  filter_Value : string;
}.

(** [rest[i:j]]. *)
Definition slice (s : string) (i j : nat) : string := String.substring i (j - i) s.

(** [parseMetadataFilters], over the entries of [r.URL.Query()] in the
    order the [range] loop visits them. *)
Fixpoint parseMetadataFilters_from (entries : list (string * list string))
         (filters : list metadataFilter) : result (list metadataFilter) :=
  match entries with
  | [] => Ok filters
  | (param, values) :: more =>
      if negb (GoStrings.HasPrefix param "metadata[") then
        parseMetadataFilters_from more filters
      else
        let rest := GoStrings.TrimPrefix param "metadata[" in
        match GoStrings.IndexByte rest "]" with
        | None => parseMetadataFilters_from more filters
        | Some closeBracket =>
            let key := slice rest 0 closeBracket in
            let rest := slice rest (closeBracket + 1) (String.length rest) in
            if negb (GoStrings.HasPrefix rest "[") || negb (GoStrings.HasSuffix rest "]") then
              parseMetadataFilters_from more filters
            else
              let op := slice rest 1 (String.length rest - 1) in
              if String.eqb op "eq" || String.eqb op "ne" || String.eqb op "lt"
                 || String.eqb op "gt" || String.eqb op "lte" || String.eqb op "gte"
              then
                match values with
                | v0 :: _ =>
                    parseMetadataFilters_from more
                      (filters ++ [{| Key := key; Op := op; filter_Value := v0 |}])
                | [] => parseMetadataFilters_from more filters
                end
              else Err ("unsupported metadata filter operator: " +:+ op)
        end
  end.

Definition parseMetadataFilters (entries : list (string * list string))
  : result (list metadataFilter) :=
  parseMetadataFilters_from entries [].

(** [formatToContentType]. *)
Definition formatToContentType (format : string) : string :=
  if String.eqb format "jpeg" then "image/jpeg"
  else if String.eqb format "png" then "image/png"
  else if String.eqb format "gif" then "image/gif"
  else if String.eqb format "webp" then "image/webp"
  else if String.eqb format "svg" then "image/svg+xml"
  else "application/octet-stream".

Section WithLibs.
Context `{TimeLib} `{JsonLib} `{ImagingLib}.

(** What a handler writes: a plain-text [http.Error], an API envelope
    (error, image page, empty result), image bytes with their
    content type, or the bare status the router's [Recoverer] writes
    after a panic. *)
Inductive Body :=
  | Text (msg : string)
  | EnvelopeError (code : Z) (msg : string)
  | EnvelopeImages (images : list Image) (continuation_token : string)
  | EnvelopeEmpty
  | Bytes (content_type : string) (data : list byte)
  | NoBody.

Record Response := {
  StatusCode : Z;
  ResponseBody : Body;
}.

Definition recovered : Response := {| StatusCode := 500; ResponseBody := NoBody |}.

Record Handler := {
  DB : Database.SQLiteDB;
  Store : Storage.Storage;
  Config : Config.Config;
}.

(** [verifySignature]; [now] is [time.Now().Unix()]. *)
Definition verifySignature (h : Handler) (r : Request) (now : Z)
           (accountID imageID variantName : string) : bool :=
  let sigHex := Get (Query r) "sig" in
  let expStr := Get (Query r) "exp" in
  if String.eqb sigHex "" || String.eqb expStr "" then false
  else
    match Strconv.ParseInt expStr with
    | inl _ => false
    | inr expUnix =>
        if (now >? expUnix)%Z then false
        else
          match Hex.DecodeString sigHex with
          | None => false
          | Some sig =>
              match Database.ListSigningKeys (DB h) accountID with
              | Ok keys =>
                  if (List.length keys =? 0)%nat then false
                  else
                    let path := "/cdn/" +:+ accountID +:+ "/" +:+ imageID
                                +:+ "/" +:+ variantName in
                    let message := path +:+ expStr in
                    existsb (fun key : SigningKey =>
                               Hmac.Equal sig
                                 (Hmac.Sum (bytes_of (Value key)) (bytes_of message)))
                            keys
              | _ => false
              end
          end
    end.

(** The calls [DeliverImage] makes after it resolved the image and
    the variant. *)
Inductive Call := CallVerifySignature | CallRetrieve | CallTransform.

(** [DeliverImage] from the blob fetch on. *)
Definition deliverBlob (h : Handler) (accountID imageID : string) (variant : Variant)
  : list Call * Response :=
  match Storage.Retrieve (Store h) accountID imageID with
  | Ok rc =>
      match Imageproc.Transform rc (Options variant) with
      | Ok (transformed, format) =>
          ([CallRetrieve; CallTransform],
           {| StatusCode := 200;
              ResponseBody := Bytes (formatToContentType format) transformed |})
      | Err _ =>
          ([CallRetrieve; CallTransform],
           {| StatusCode := 500; ResponseBody := Text "internal server error" |})
      | Panic => ([CallRetrieve; CallTransform], recovered)
      end
  | Err _ =>
      ([CallRetrieve], {| StatusCode := 404; ResponseBody := Text "image not found" |})
  | Panic => ([CallRetrieve], recovered)
  end.

(** [DeliverImage]: the response, and which of the verifier, the blob
    store and the transform it called. *)
Definition DeliverImage (h : Handler) (r : Request) (now : Z) : list Call * Response :=
  let accountID := URLParam r "account_id" in
  let imageID := URLParam r "image_id" in
  let variantName := URLParam r "variant_name" in
  match Database.GetImage (DB h) accountID imageID with
  | Ok img =>
      match Database.GetVariant (DB h) accountID variantName with
      | Ok variant =>
          if Config.EnforceSignedURLs (Config h) && RequireSignedURLs img
             && negb (NeverRequireSignedURLs variant)
          then
            if negb (verifySignature h r now accountID imageID variantName) then
              ([CallVerifySignature],
               {| StatusCode := 403; ResponseBody := Text "forbidden" |})
            else
              let '(calls, resp) := deliverBlob h accountID imageID variant in
              (CallVerifySignature :: calls, resp)
          else deliverBlob h accountID imageID variant
      | _ => ([], {| StatusCode := 404; ResponseBody := Text "variant not found" |})
      end
  | _ => ([], {| StatusCode := 404; ResponseBody := Text "image not found" |})
  end.

(** [buildVariantURLs]. *)
Definition buildVariantURLs (h : Handler) (accountID imageID : string) : list string :=
  match Database.ListVariants (DB h) accountID with
  | Ok variants =>
      let base := GoStrings.TrimRight_slash (Config.BaseURL (Config h)) in
      map (fun v : Variant =>
             base +:+ "/cdn/" +:+ accountID +:+ "/" +:+ imageID +:+ "/" +:+ variant_ID v)
          variants
  | _ => []
  end.

Definition with_variants (h : Handler) (accountID : string) (img : Image) : Image :=
  {| ID := ID img; AccountID := AccountID img; Filename := Filename img;
     Creator := Creator img; image_Meta := image_Meta img;
     RequireSignedURLs := RequireSignedURLs img; Uploaded := Uploaded img;
     Variants := buildVariantURLs h accountID (ID img); Draft := Draft img |}.

(** The page size [ListImagesV2] derives from [per_page]: default 20,
    at most 100. *)
Definition parsePerPage (r : Request) : Z :=
  let v := Get (Query r) "per_page" in
  if String.eqb v "" then 20%Z
  else
    match Strconv.Atoi v with
    | inr pp => if (pp >? 0)%Z then (if (pp >? 100)%Z then 100%Z else pp) else 20%Z
    | inl _ => 20%Z
    end.

Definition parseSortOrder (r : Request) : string :=
  let v := Get (Query r) "sort_order" in
  if String.eqb v "" then "asc"
  else if GoStrings.EqualFold_desc v then "desc" else "asc".

(** The database call [ListImagesV2] makes for the filters it parsed:
    the first filter alone, or the unfiltered listing. *)
Definition listImages (h : Handler) (accountID cursor : string) (perPage : Z)
           (sortOrder : string) (filters : list metadataFilter)
  : result (list Image * string) :=
  match filters with
  | f :: _ =>
      Database.ListImagesWithFilter (DB h) accountID cursor perPage sortOrder
                                    (Key f) (Op f) (filter_Value f)
  | [] => Database.ListImagesV2 (DB h) accountID cursor perPage sortOrder
  end.

(** What [ListImagesV2] writes for the outcome of its database call. *)
Definition listingResponse (h : Handler) (accountID : string)
           (listed : result (list Image * string)) : Response :=
  match listed with
  | Ok (images, nextCursor) =>
      {| StatusCode := 200;
         ResponseBody :=
           EnvelopeImages (map (with_variants h accountID) images) nextCursor |}
  | Err _ =>
      {| StatusCode := 500;
         ResponseBody := EnvelopeError 9500 "failed to list images" |}
  | Panic => recovered
  end.

(** [ListImagesV2]; [entries] lists [r.URL.Query()] in the order the
    filter loop ranges over the map. *)
Definition ListImagesV2 (h : Handler) (r : Request)
           (entries : list (string * list string)) : Response :=
  let accountID := ContextAccountID r in
  let perPage := parsePerPage r in
  let sortOrder := parseSortOrder r in
  let cursor := Get (Query r) "continuation_token" in
  match parseMetadataFilters entries with
  | Ok filters =>
      if (5 <? List.length filters)%nat then
        {| StatusCode := 400;
           ResponseBody := EnvelopeError 9400 "too many metadata filters (max 5)" |}
      else
        listingResponse h accountID
          (listImages h accountID cursor perPage sortOrder filters)
  | Err e => {| StatusCode := 400; ResponseBody := EnvelopeError 9400 e |}
  | Panic => recovered
  end.

(** [DeleteSigningKey]; [uuid] is [uuid.New().String()] and [now] is
    [time.Now().UTC()].  Returns the response and the store after the
    request. *)
Definition DeleteSigningKey (h : Handler) (r : Request) (uuid : string) (now : Time)
  : Response * Database.SQLiteDB :=
  let accountID := ContextAccountID r in
  let keyName := URLParam r "signing_key_name" in
  match Database.DeleteSigningKey (DB h) accountID keyName with
  | Ok db1 =>
      let db2 :=
        match Database.ListSigningKeys db1 accountID with
        | Ok remaining =>
            if (List.length remaining =? 0)%nat then
              let defaultKey := {| Name := "default"; Value := uuid;
                                   key_AccountID := accountID; CreatedAt := now |} in
              match Database.CreateSigningKey db1 defaultKey with
              | Ok db' => db'
              | _ => db1
              end
            else db1
        | _ => db1
        end in
      ({| StatusCode := 200; ResponseBody := EnvelopeEmpty |}, db2)
  | _ =>
      ({| StatusCode := 404; ResponseBody := EnvelopeError 9404 "signing key not found" |},
       DB h)
  end.

End WithLibs.

End Handler.

(** ** Package api: the response envelope and the middleware *)
Module Api.

Record APIMessage := {
  message_Code : Z;
  message_Message : string;
}.

Record APIError := {
  Code : Z;
  Message : string;
}.

(** [Response], over the type of its [result]; [None] is the nil
    result. *)
Record Response (A : Type) := {
  Result : option A;
  Success : bool;
  Errors : list APIError;
  Messages : list APIMessage;
}.
Arguments Result {A} _.
Arguments Success {A} _.
Arguments Errors {A} _.
Arguments Messages {A} _.

(** [ResultInfo]: the pagination block of a listing. *)
Record ResultInfo := {
  Page : Z;
  PerPage : Z;
  Count : Z;
  TotalCount : Z;
  TotalPages : Z;
}.

(** [SuccessResponse]. *)
Definition SuccessResponse {A} (result : A) : Response A :=
  {| Result := Some result; Success := true; Errors := []; Messages := [] |}.

(** [ErrorResponse]. *)
Definition ErrorResponse {A} (code : Z) (message : string) : Response A :=
  {| Result := None; Success := false;
     Errors := [{| Code := code; Message := message |}]; Messages := [] |}.

(** What a handler leaves on the wire: the status and the envelope
    [WriteJSON] wrote; the status and the successful envelope with its
    [result_info] when what [WriteJSON] was given is a
    [PaginatedResponse]; or the bare 500 of the router's [Recoverer]
    after a panic. *)
Inductive Written (A : Type) :=
  | WriteJSON (status : Z) (resp : Response A)
  | WritePaginated (status : Z) (result : A) (info : ResultInfo)
  | Recovered.
Arguments WriteJSON {A} status resp.
Arguments WritePaginated {A} status result info.
Arguments Recovered {A}.

Definition Status {A} (w : Written A) : Z :=
  match w with
  | WriteJSON status _ => status
  | WritePaginated status _ _ => status
  | Recovered => 500%Z
  end.

(** [BadRequest], [Unauthorized], [NotFound], [Conflict],
    [UnprocessableEntity] and [TooLarge]. *)
Definition BadRequest {A} (msg : string) : Written A :=
  WriteJSON 400 (ErrorResponse 9400 msg).

Definition Unauthorized {A} : Written A :=
  WriteJSON 401 (ErrorResponse 9401 "Authentication required").

Definition NotFound {A} (msg : string) : Written A :=
  WriteJSON 404 (ErrorResponse 9404 msg).

Definition Conflict {A} (msg : string) : Written A :=
  WriteJSON 409 (ErrorResponse 9409 msg).

Definition UnprocessableEntity {A} (msg : string) : Written A :=
  WriteJSON 422 (ErrorResponse 9422 msg).

Definition TooLarge {A} (msg : string) : Written A :=
  WriteJSON 413 (ErrorResponse 9413 msg).

(** [r.Header.Get]: the first value of a header, empty when absent. *)
Definition Header : Type := string -> string.

(** What a middleware does with a request: hand it to [next], or answer
    it. *)
Inductive Outcome :=
  | Next
  | Answer (w : Written unit).

(** [AuthMiddleware token], on the headers of the request. *)
Definition AuthMiddleware (token : string) (header : Header) : Outcome :=
  let authHeader := header "Authorization" in
  if negb (String.eqb authHeader "") && GoStrings.HasPrefix authHeader "Bearer " then
    let bearerValue := String.substring 7 (String.length authHeader - 7) authHeader in
    if String.eqb token "" || String.eqb bearerValue token then Next
    else Answer Unauthorized
  else
    let authKey := header "X-Auth-Key" in
    let authEmail := header "X-Auth-Email" in
    if negb (String.eqb authKey "") && negb (String.eqb authEmail "") then
      if String.eqb token "" || String.eqb authKey token then Next
      else Answer Unauthorized
    else Answer Unauthorized.

End Api.

(** ** The handlers share one store *)
Module Server.

(** The handler as the next request finds it: the same blob store and
    configuration over the store [db] the last request left. *)
Definition with_store (h : Handler.Handler) (db : Database.SQLiteDB) : Handler.Handler :=
  {| Handler.DB := db; Handler.Store := Handler.Store h; Handler.Config := Handler.Config h |}.

End Server.

(** ** Package handler: variants *)
Module Variants.
Import Model.

(** [validFitModes[fit]]: a key outside the map reads as [false]. *)
Definition validFitModes (fit : string) : bool :=
  String.eqb fit "scale-down" || String.eqb fit "contain" || String.eqb fit "cover"
  || String.eqb fit "crop" || String.eqb fit "pad".

Definition maxVariantsPerAccount : Z := 100.

(** Every stored variant has one of the five fit modes. *)
Definition valid_fits (s : Database.SQLiteDB) : Prop :=
  forall k row, Database.variants s !! k = Some row ->
                validFitModes (Database.fit row) = true.

Record createVariantRequest := {
  create_ID : string;
  create_Options : VariantOptions;
  create_NeverRequireSignedURLs : bool;
}.

(** The two fields are pointers: [None] is nil. *)
Record updateVariantRequest := {
  update_Options : option VariantOptions;
  update_NeverRequireSignedURLs : option bool;
}.

(** [CreateVariant]; [body] is what decoding the request body into a
    [createVariantRequest] gives.  Returns the response and the store
    after the request. *)
Definition CreateVariant (h : Handler.Handler) (r : Handler.Request)
           (body : result createVariantRequest)
  : Api.Written Variant * Database.SQLiteDB :=
  let accountID := Handler.ContextAccountID r in
  match body with
  | Ok req =>
      if String.eqb (create_ID req) "" then
        (Api.BadRequest "variant id is required", Handler.DB h)
      else if negb (validFitModes (Fit (create_Options req))) then
        (Api.BadRequest
           "invalid fit mode: must be one of scale-down, contain, cover, crop, pad",
         Handler.DB h)
      else
        match Database.CountVariants (Handler.DB h) accountID with
        | Ok count =>
            if (count >=? maxVariantsPerAccount)%Z then
              (Api.BadRequest "maximum number of variants reached", Handler.DB h)
            else
              let variant :=
                {| variant_ID := create_ID req;
                   variant_AccountID := accountID;
                   Options := create_Options req;
                   NeverRequireSignedURLs := create_NeverRequireSignedURLs req |} in
              match Database.CreateVariant (Handler.DB h) variant with
              | Ok db' => (Api.WriteJSON 200 (Api.SuccessResponse variant), db')
              | Err e =>
                  if GoStrings.Contains e "UNIQUE" || GoStrings.Contains e "unique" then
                    (Api.Conflict "variant already exists", Handler.DB h)
                  else (Api.BadRequest "failed to create variant", Handler.DB h)
              | Panic => (Api.Recovered, Handler.DB h)
              end
        | Err _ => (Api.BadRequest "failed to count variants", Handler.DB h)
        | Panic => (Api.Recovered, Handler.DB h)
        end
  | Err _ => (Api.BadRequest "invalid JSON body", Handler.DB h)
  | Panic => (Api.Recovered, Handler.DB h)
  end.

(** [ListVariants]: the variants of the account in a map keyed by id,
    filled in the order of the listing. *)
Definition ListVariants (h : Handler.Handler) (r : Handler.Request)
  : Api.Written (gmap string Variant) :=
  let accountID := Handler.ContextAccountID r in
  match Database.ListVariants (Handler.DB h) accountID with
  | Ok variants =>
      let variantMap :=
        foldl (fun (m : gmap string Variant) v => <[variant_ID v := v]> m) ∅ variants in
      Api.WriteJSON 200 (Api.SuccessResponse variantMap)
  | Err _ => Api.BadRequest "failed to list variants"
  | Panic => Api.Recovered
  end.

(** [GetVariant]. *)
Definition GetVariant (h : Handler.Handler) (r : Handler.Request) : Api.Written Variant :=
  let accountID := Handler.ContextAccountID r in
  let variantID := Handler.URLParam r "variant_id" in
  match Database.GetVariant (Handler.DB h) accountID variantID with
  | Ok variant => Api.WriteJSON 200 (Api.SuccessResponse variant)
  | Err _ => Api.NotFound "variant not found"
  | Panic => Api.Recovered
  end.

(** The fields of [req.Options] that [UpdateVariant] copies over the
    existing options: those that are not their zero value. *)
Definition merge_options (existing req : VariantOptions) : VariantOptions :=
  {| Fit := if negb (String.eqb (Fit req) "") then Fit req else Fit existing;
     Width := if negb (Width req =? 0)%Z then Width req else Width existing;
     Height := if negb (Height req =? 0)%Z then Height req else Height existing;
     Metadata := if negb (String.eqb (Metadata req) "") then Metadata req
                 else Metadata existing |}.

(** [UpdateVariant]; [body] is what decoding the request body into an
    [updateVariantRequest] gives. *)
Definition UpdateVariant (h : Handler.Handler) (r : Handler.Request)
           (body : result updateVariantRequest)
  : Api.Written Variant * Database.SQLiteDB :=
  let accountID := Handler.ContextAccountID r in
  let variantID := Handler.URLParam r "variant_id" in
  match Database.GetVariant (Handler.DB h) accountID variantID with
  | Ok existing =>
      match body with
      | Ok req =>
          if match update_Options req with
             | Some o => negb (String.eqb (Fit o) "") && negb (validFitModes (Fit o))
             | None => false
             end
          then
            (Api.BadRequest
               "invalid fit mode: must be one of scale-down, contain, cover, crop, pad",
             Handler.DB h)
          else
            let options :=
              match update_Options req with
              | Some o => merge_options (Options existing) o
              | None => Options existing
              end in
            let never :=
              match update_NeverRequireSignedURLs req with
              | Some b => b
              | None => NeverRequireSignedURLs existing
              end in
            let updated :=
              {| variant_ID := variant_ID existing;
                 variant_AccountID := variant_AccountID existing;
                 Options := options;
                 NeverRequireSignedURLs := never |} in
            match Database.UpdateVariant (Handler.DB h) updated with
            | Ok db' => (Api.WriteJSON 200 (Api.SuccessResponse updated), db')
            | Err _ => (Api.BadRequest "failed to update variant", Handler.DB h)
            | Panic => (Api.Recovered, Handler.DB h)
            end
      | Err _ => (Api.BadRequest "invalid JSON body", Handler.DB h)
      | Panic => (Api.Recovered, Handler.DB h)
      end
  | Err _ => (Api.NotFound "variant not found", Handler.DB h)
  | Panic => (Api.Recovered, Handler.DB h)
  end.

(** [DeleteVariant]. *)
Definition DeleteVariant (h : Handler.Handler) (r : Handler.Request)
  : Api.Written unit * Database.SQLiteDB :=
  let accountID := Handler.ContextAccountID r in
  let variantID := Handler.URLParam r "variant_id" in
  match Database.DeleteVariant (Handler.DB h) accountID variantID with
  | Ok db' => (Api.WriteJSON 200 (Api.SuccessResponse tt), db')
  | Err _ => (Api.NotFound "variant not found", Handler.DB h)
  | Panic => (Api.Recovered, Handler.DB h)
  end.

End Variants.

(** ** Package handler: signing keys *)
Module Keys.
Import Model.

Section WithLibs.
Context `{TimeLib}.

(** [CreateSigningKey]; [uuid] is [uuid.New().String()] and [now] is
    [time.Now().UTC()].  Returns the response and the store after the
    request. *)
Definition CreateSigningKey (h : Handler.Handler) (r : Handler.Request)
           (uuid : string) (now : Time)
  : Api.Written SigningKey * Database.SQLiteDB :=
  let accountID := Handler.ContextAccountID r in
  let keyName := Handler.URLParam r "signing_key_name" in
  if String.eqb keyName "" then
    (Api.BadRequest "signing key name is required", Handler.DB h)
  else
    let key := {| Name := keyName; Value := uuid; key_AccountID := accountID;
                  CreatedAt := now |} in
    match Database.CreateSigningKey (Handler.DB h) key with
    | Ok db' => (Api.WriteJSON 200 (Api.SuccessResponse key), db')
    | Err e => (Api.BadRequest ("failed to create signing key: " +:+ e), Handler.DB h)
    | Panic => (Api.Recovered, Handler.DB h)
    end.

End WithLibs.

End Keys.

(** ** Package handler: images *)
Module Images.
Import Model.

Section WithLibs.
Context `{TimeLib} `{JsonLib} `{ImagingLib}.

(** The body of a PATCH; both fields are pointers, [None] is nil. *)
Record updateImageBody := {
  body_Metadata : option (option Meta);
  body_RequireSignedURLs : option bool;
}.

(** [UpdateImage]; [body] is what decoding the request body gives.
    Returns the response and the store after the request. *)
Definition UpdateImage (h : Handler.Handler) (r : Handler.Request)
           (body : result updateImageBody)
  : Api.Written Image * Database.SQLiteDB :=
  let accountID := Handler.ContextAccountID r in
  let imageID := Handler.URLParam r "image_id" in
  match Database.GetImage (Handler.DB h) accountID imageID with
  | Ok img =>
      match body with
      | Ok b =>
          let img :=
            {| ID := ID img; AccountID := AccountID img; Filename := Filename img;
               Creator := Creator img;
               image_Meta := match body_Metadata b with
                             | Some m => m
                             | None => image_Meta img
                             end;
               RequireSignedURLs := match body_RequireSignedURLs b with
                                    | Some v => v
                                    | None => RequireSignedURLs img
                                    end;
               Uploaded := Uploaded img; Variants := Variants img; Draft := Draft img |} in
          match Database.UpdateImage (Handler.DB h) img with
          | Ok db' =>
              (Api.WriteJSON 200 (Api.SuccessResponse (Handler.with_variants h accountID img)),
               db')
          | Err _ =>
              (Api.WriteJSON 500 (Api.ErrorResponse 9500 "failed to update image"),
               Handler.DB h)
          | Panic => (Api.Recovered, Handler.DB h)
          end
      | Err e => (Api.BadRequest ("invalid JSON body: " +:+ e), Handler.DB h)
      | Panic => (Api.Recovered, Handler.DB h)
      end
  | Err _ => (Api.NotFound "image not found", Handler.DB h)
  | Panic => (Api.Recovered, Handler.DB h)
  end.

(** The page number [ListImages] derives from [page]: 1 unless the
    parameter is a positive number. *)
Definition parsePage (r : Handler.Request) : Z :=
  let v := Handler.Get (Handler.Query r) "page" in
  if String.eqb v "" then 1%Z
  else
    match Strconv.Atoi v with
    | inr p => if (p >? 0)%Z then p else 1%Z
    | inl _ => 1%Z
    end.

(** The page size [ListImages] derives from [per_page]: default 1000,
    at most 10000. *)
Definition parsePerPage (r : Handler.Request) : Z :=
  let v := Handler.Get (Handler.Query r) "per_page" in
  if String.eqb v "" then 1000%Z
  else
    match Strconv.Atoi v with
    | inr pp => if (pp >? 0)%Z then (if (pp >? 10000)%Z then 10000%Z else pp) else 1000%Z
    | inl _ => 1000%Z
    end.

(** [ListImages]; [rows] is the result of the store's ordered query.
    The images come under ["images"]. *)
Definition ListImages (h : Handler.Handler) (r : Handler.Request)
           (rows : list Database.Row) : Api.Written (list Image) :=
  let accountID := Handler.ContextAccountID r in
  let page := parsePage r in
  let perPage := parsePerPage r in
  match Database.ListImages (Handler.DB h) rows accountID page perPage with
  | Ok (images, total) =>
      let images := map (Handler.with_variants h accountID) images in
      let totalPages :=
        if (perPage >? 0)%Z
        then Z.quot (wrap_int (wrap_int (total + perPage) - 1)) perPage
        else 0%Z in
      Api.WritePaginated 200 images
        {| Api.Page := page;
           Api.PerPage := perPage;
           Api.Count := Z.of_nat (List.length images);
           Api.TotalCount := total;
           Api.TotalPages := totalPages |}
  | Err _ => Api.WriteJSON 500 (Api.ErrorResponse 9500 "failed to list images")
  | Panic => Api.Recovered
  end.

End WithLibs.

End Images.

(** ** Executable instances of the outside packages

    Used to run the embedding on concrete requests and stores. *)
Module Reference.

(** A UTC wall-clock time. *)
Record civil := {
  year : Z; month : Z; day : Z;
  hour : Z; minute : Z; second : Z;
  nsec : Z;
}.

(** Go's zero [time.Time], January 1 of year 1. *)
Definition zero_time : civil :=
  {| year := 1; month := 1; day := 1; hour := 0; minute := 0; second := 0; nsec := 0 |}.

Definition digit_char (d : Z) : ascii := ascii_of_N (Z.to_N (48 + d mod 10)).

(** [n] decimal digits of [z], most significant first. *)
Fixpoint digits (n : nat) (z : Z) : string :=
  match n with
  | O => EmptyString
  | S n' => digits n' (z / 10) +:+ String (digit_char z) EmptyString
  end.

(** Reads [n] leading decimal digits. *)
Fixpoint read_digits (n : nat) (acc : Z) (s : string) : option (Z * string) :=
  match n with
  | O => Some (acc, s)
  | S n' =>
      match s with
      | String c r =>
          match Strconv.digit_of c with
          | Some d => read_digits n' (acc * 10 + d) r
          | None => None
          end
      | EmptyString => None
      end
  end.

Definition expect (c : ascii) (s : string) : option string :=
  match s with
  | String a r => if Ascii.eqb a c then Some r else None
  | EmptyString => None
  end.

Definition leap (y : Z) : bool :=
  ((y mod 4 =? 0) && (negb (y mod 100 =? 0) || (y mod 400 =? 0)))%Z.

Definition days_in (y m : Z) : Z :=
  if (m =? 2)%Z then (if leap y then 29 else 28)%Z
  else if ((m =? 4) || (m =? 6) || (m =? 9) || (m =? 11))%Z then 30%Z
  else 31%Z.

Definition valid (t : civil) : bool :=
  ((0 <=? year t) && (year t <=? 9999) && (1 <=? month t) && (month t <=? 12)
   && (1 <=? day t) && (day t <=? days_in (year t) (month t))
   && (0 <=? hour t) && (hour t <=? 23) && (0 <=? minute t) && (minute t <=? 59)
   && (0 <=? second t) && (second t <=? 59)
   && (0 <=? nsec t) && (nsec t <=? 999999999))%Z.

(** The fraction [RFC3339Nano] prints: nine digits with the trailing
    zeros dropped, nothing at all for whole seconds. *)
Fixpoint trim_zeros (s : string) : string :=
  match s with
  | EmptyString => EmptyString
  | String a r =>
      match trim_zeros r with
      | EmptyString => if Ascii.eqb a "0" then EmptyString else String a EmptyString
      | r' => String a r'
      end
  end.

Definition fraction (ns : Z) : string :=
  match trim_zeros (digits 9 ns) with
  | EmptyString => EmptyString
  | f => String "." f
  end.

Definition clock (t : civil) : string :=
  digits 4 (year t) +:+ "-" +:+ digits 2 (month t) +:+ "-" +:+ digits 2 (day t)
  +:+ "T" +:+ digits 2 (hour t) +:+ ":" +:+ digits 2 (minute t) +:+ ":"
  +:+ digits 2 (second t).

Definition format (t : civil) : string := clock t +:+ "Z".

Definition format_nano (t : civil) : string := clock t +:+ fraction (nsec t) +:+ "Z".

(** Reads the digits of a fraction, scaled to nanoseconds. *)
Fixpoint read_fraction (scale : Z) (acc : Z) (s : string) : Z * string :=
  match s with
  | String c r =>
      match Strconv.digit_of c with
      | Some d => read_fraction (scale / 10) (acc + d * scale) r
      | None => (acc, s)
      end
  | EmptyString => (acc, s)
  end.

(** Decodes [2006-01-02T15:04:05[.fraction]Z]; anything else, a numeric
    zone offset included, gives the zero time.  The store only ever
    holds renderings of UTC times. *)
Definition parse (s : string) : civil :=
  let r :=
    '(y, s) ← read_digits 4 0 s; s ← expect "-" s;
    '(mo, s) ← read_digits 2 0 s; s ← expect "-" s;
    '(d, s) ← read_digits 2 0 s; s ← expect "T" s;
    '(h, s) ← read_digits 2 0 s; s ← expect ":" s;
    '(mi, s) ← read_digits 2 0 s; s ← expect ":" s;
    '(sec, s) ← read_digits 2 0 s;
    let '(ns, s) :=
      match s with
      | String "." (String c r) =>
          match Strconv.digit_of c with
          | Some _ => read_fraction 100000000 0 (String c r)
          | None => (0%Z, s)
          end
      | _ => (0%Z, s)
      end in
    let t := {| year := y; month := mo; day := d; hour := h; minute := mi;
                second := sec; nsec := ns |} in
    if String.eqb s "Z" && valid t then Some t else None in
  default zero_time r.

#[export] Instance utc_time : TimeLib := {|
  Time := civil;
  time_Parse := parse;
  time_Format := format;
  time_FormatNano := format_nano;
|}.

(** Metadata kept as its JSON text. *)
#[export] Instance raw_json : JsonLib := {|
  Meta := string;
  json_Unmarshal := fun s => if String.eqb s "null" then Ok None else Ok (Some s);
  json_Marshal := fun m => Ok (default "null" m);
|}.

(** Images reduced to their bounds; no codec is linked in. *)
#[export] Instance bounds_only : ImagingLib := {|
  Img := Z * Z;
  Dx := fst;
  Dy := snd;
  image_Decode := fun _ => Err "image: unknown format";
  imaging_Fit := fun img w h => (Z.min (fst img) w, Z.min (snd img) h);
  imaging_Resize := fun _ w h => (w, h);
  imaging_Fill := fun _ w h => (w, h);
  imaging_CropCenter := fun img w h => (Z.min (fst img) w, Z.min (snd img) h);
  imaging_PasteCenter := fun bg _ => bg;
  imaging_New_white := fun w h => (w, h);
  jpeg_Encode := fun _ _ => Err "jpeg: no encoder";
  png_Encode := fun _ => Err "png: no encoder";
  gif_Encode := fun _ => Err "gif: no encoder";
  contain_size := fun _ _ w h => (w, h);
|}.

End Reference.

(** ** The listing protocol as a client runs it *)
Module Client.
Import Model Database Handler.

Section WithLibs.
Context `{TimeLib} `{JsonLib}.

(** One V2 listing call the way the handler issues it: through the
    filtered query when a filter is given, through the plain one
    otherwise. *)
Definition listPage (s : SQLiteDB) (accountID : string) (perPage : Z)
           (sortOrder : string) (f : option metadataFilter) (cursor : string)
  : result (list Image * string) :=
  match f with
  | Some f =>
      Database.ListImagesWithFilter s accountID cursor perPage sortOrder
                                    (Key f) (Op f) (filter_Value f)
  | None => Database.ListImagesV2 s accountID cursor perPage sortOrder
  end.

(** The scan: list from [cursor], keep the page, and go on from the
    returned cursor until it comes back empty.  [None] when a call fails
    or [fuel] calls did not reach the end. *)
Fixpoint scan (fuel : nat) (call : string -> result (list Image * string))
         (cursor : string) : option (list (list Image)) :=
  match fuel with
  | O => None
  | S fuel' =>
      match call cursor with
      | Ok (images, nextCursor) =>
          if String.eqb nextCursor "" then Some [images]
          else
            match scan fuel' call nextCursor with
            | Some pages => Some (images :: pages)
            | None => None
            end
      | _ => None
      end
  end.

(** The record of the account behind a row passes the optional filter. *)
Definition matches (s : SQLiteDB) (f : option metadataFilter) (r : Row) : bool :=
  match f with
  | Some f => joins_metadata s (Key f) (Op f) (filter_Value f) r
  | None => true
  end.

(** The WHERE clause of a call without a cursor. *)
Definition listed (s : SQLiteDB) (accountID : string) (f : option metadataFilter)
           (r : Row) : bool :=
  text_eq (row_account r) accountID && matches s f r.

(** A WHERE clause that pins the account. *)
Definition for_account (accountID : string) (w : Row -> bool) : Prop :=
  forall r, w r = true -> row_account r = accountID.

(** The image a row scans to. *)
Definition scanned (r : Row) : Image :=
  match scanImage r with
  | Ok img => img
  | _ => image_of_row r None
  end.

(** The cursor made of a row. *)
Definition cursor_of (r : Row) : string := uploaded r.2 +:+ "|" +:+ row_id r.

(** The sort key of a returned image: the pair a cursor is made of. *)
Definition image_key (img : Image) : string * string :=
  (time_FormatNano (Uploaded img), ID img).

(** The direction a listing call sorts in. *)
Definition direction (sortOrder : string) : Order :=
  if GoStrings.EqualFold_desc sortOrder then DESC else ASC.

(** [k2] comes strictly after [k1] in direction [o]. *)
Definition strictly_after (o : Order) (k1 k2 : string * string) : bool :=
  negb (key_leb o k2 k1).

(** What [CreateImage] and [UpdateImage] leave in the rows of an account:
    an upload time that is the RFC 3339 rendering of a UTC time to the
    second, so that reading it back and printing it with nanoseconds
    gives the same text, which holds no [|]; and metadata that is empty,
    [{}], or text that decodes. *)
Definition stored_row (row : ImageRow) : Prop :=
  time_FormatNano (time_Parse (uploaded row)) = uploaded row
  /\ GoStrings.IndexByte (uploaded row) "|" = None
  /\ (meta row = "" \/ meta row = "{}"
      \/ exists m, json_Unmarshal (meta row) = Ok m).

Definition stored_account (s : SQLiteDB) (accountID : string) : Prop :=
  forall id row, images s !! (accountID, id) = Some row -> stored_row row.

End WithLibs.

End Client.

(** ** The specification's wording, where it is compared with the code *)

(** The detector the specification words describe: the five bytes
    [<svg>] within the first 512 bytes. *)
Definition spec_IsSVG (data : list byte) : bool :=
  GoStrings.Contains (string_of_list_byte (take 512 data)) "<svg>".

(** ** A small store and a few requests to run the handlers on *)
Module Fixtures.
Import Model Database Handler Reference.

Definition image_row (u : string) (signed : Z) : ImageRow :=
  {| filename := "photo.gif"; creator := ""; meta := "{}";
     require_signed_urls := signed; uploaded := u |}.

Definition db : SQLiteDB := {|
  images := list_to_map [
    (("acct", "img-a"), image_row "2024-03-01T10:00:00Z" 1);
    (("acct", "img-b"), image_row "2024-03-01T10:00:00Z" 0);
    (("acct", "img-c"), image_row "2024-03-02T08:30:00Z" 0);
    (("acct", "img-d"), image_row "2024-02-28T23:59:59Z" 0);
    (("acct", "img-e"), image_row "2024-03-05T12:00:00Z" 0);
    (("other", "img-a"), image_row "2024-03-03T00:00:00Z" 0) ];
  variants := list_to_map [
    (("acct", "thumb"),
     {| fit := "scale-down"; width := 100; height := 100; metadata := "none";
        never_require_signed_urls := 0 |});
    (("acct", "public"),
     {| fit := "cover"; width := 50; height := 80; metadata := "none";
        never_require_signed_urls := 1 |}) ];
  signing_keys := list_to_map [
    (("acct", "default"),
     {| value := "2f1c9d7e-0b6a-4c55-9a3e-6d1f0e8b7a21";
        created_at := "2024-01-01T00:00:00Z" |});
    (("acct", "rotated"),
     {| value := "9e107d9d-372b-4b6d-8f5c-1a2b3c4d5e6f";
        created_at := "2024-02-01T00:00:00Z" |}) ];
  image_metadata := list_to_map [
    (("acct", "img-a", "color"), "red");
    (("acct", "img-b", "color"), "blue");
    (("acct", "img-c", "color"), "red");
    (("acct", "img-e", "color"), "red");
    (("acct", "img-e", "size"), "large");
    (("other", "img-a", "color"), "red") ];
|}.

(** The same store with no signing key at all. *)
Definition db_without_keys : SQLiteDB := {|
  images := images db;
  variants := variants db;
  signing_keys := ∅;
  image_metadata := image_metadata db;
|}.

Definition store : Storage.Storage := {|
  Storage.Retrieve := fun accountID imageID =>
    if String.eqb accountID "acct" && String.eqb imageID "img-a"
    then Ok (Ok (bytes_of "GIF89a-two-frames"))
    else Err ("image not found: " +:+ accountID +:+ "/" +:+ imageID);
|}.

Definition config (enforce : bool) : Config.Config := {|
  Config.ListenAddr := ":8080";
  Config.DBPath := "/data/db/images.db";
  Config.StoragePath := "/data/images";
  Config.ImageAllowance := 100000;
  Config.AuthToken := "";
  Config.BaseURL := "http://localhost:8080";
  Config.EnforceSignedURLs := enforce;
|}.

Definition handler (enforce : bool) : Handler :=
  {| DB := db; Store := store; Config := config enforce |}.

Definition handler_without_keys : Handler :=
  {| DB := db_without_keys; Store := store; Config := config true |}.

(** GET /cdn/acct/img-a/{variant}?{query}. *)
Definition delivery (variant : string) (query : list (string * list string)) : Request := {|
  URLParam := fun name =>
    if String.eqb name "account_id" then "acct"
    else if String.eqb name "image_id" then "img-a"
    else if String.eqb name "variant_name" then variant
    else "";
  Query := list_to_map query;
  ContextAccountID := "";
|}.

(** What [GetImage] and [GetVariant] scan for img-a and for the variant
    that waives signed URLs. *)
Definition img_a : Image := {|
  ID := "img-a"; AccountID := "acct"; Filename := "photo.gif"; Creator := "";
  image_Meta := None; RequireSignedURLs := true;
  Uploaded := {| year := 2024; month := 3; day := 1; hour := 10; minute := 0;
                 second := 0; nsec := 0 |};
  Variants := []; Draft := false;
|}.

Definition public_variant : Variant := {|
  variant_ID := "public"; variant_AccountID := "acct";
  Options := {| Fit := "cover"; Width := 50; Height := 80; Metadata := "none" |};
  NeverRequireSignedURLs := true;
|}.

(** The image the oldest row of the account scans to. *)
Definition img_d : Image := {|
  ID := "img-d"; AccountID := "acct"; Filename := "photo.gif"; Creator := "";
  image_Meta := None; RequireSignedURLs := false;
  Uploaded := {| year := 2024; month := 2; day := 28; hour := 23; minute := 59;
                 second := 59; nsec := 0 |};
  Variants := []; Draft := false;
|}.

(** The image the newest row of the account scans to. *)
Definition img_e : Image := {|
  ID := "img-e"; AccountID := "acct"; Filename := "photo.gif"; Creator := "";
  image_Meta := None; RequireSignedURLs := false;
  Uploaded := {| year := 2024; month := 3; day := 5; hour := 12; minute := 0;
                 second := 0; nsec := 0 |};
  Variants := []; Draft := false;
|}.

(** The image ids of a listing result. *)
Definition ids_of (listed : result (list Image * string)) : list string :=
  match listed with
  | Ok (images, _) => map ID images
  | _ => []
  end.

(** GET /accounts/acct/images/v2?{query}. *)
Definition listing (query : list (string * list string)) : Request := {|
  URLParam := fun _ => "";
  Query := list_to_map query;
  ContextAccountID := "acct";
|}.

Definition color_red : metadataFilter :=
  {| Key := "color"; Op := "eq"; filter_Value := "red" |}.

Definition size_large : metadataFilter :=
  {| Key := "size"; Op := "eq"; filter_Value := "large" |}.

(** A listing request with two metadata filters. *)
Definition two_filters : Request :=
  listing [("metadata[color][eq]", ["red"]); ("per_page", ["2"]);
           ("metadata[size][eq]", ["large"])].

(** The store of an account that is down to one signing key. *)
Definition db_single_key : SQLiteDB := {|
  images := images db;
  variants := variants db;
  signing_keys :=
    {[ ("acct", "only") :=
         {| value := "5d41402a-bc4b-2a76-b971-9d911017c592";
            created_at := "2024-01-01T00:00:00Z" |} ]};
  image_metadata := image_metadata db;
|}.

Definition handler_single_key : Handler :=
  {| DB := db_single_key; Store := store; Config := config true |}.

(** DELETE /accounts/acct/images/v1/keys/{name}. *)
Definition key_deletion (name : string) : Request := {|
  URLParam := fun p => if String.eqb p "signing_key_name" then name else "";
  Query := ∅;
  ContextAccountID := "acct";
|}.

(** The first bytes of a WebP file. *)
Definition webp_bytes : list byte :=
  bytes_of "RIFF" ++ [x1a; x00; x00; x00] ++ bytes_of "WEBPVP8 ".

(** A blob store that holds this file for img-a. *)
Definition store_webp : Storage.Storage := {|
  Storage.Retrieve := fun accountID imageID =>
    if String.eqb accountID "acct" && String.eqb imageID "img-a"
    then Ok (Ok webp_bytes)
    else Err ("image not found: " +:+ accountID +:+ "/" +:+ imageID);
|}.

Definition handler_webp : Handler :=
  {| DB := db; Store := store_webp; Config := config false |}.

(** The store a successful write returns. *)
Definition store_after (written : result SQLiteDB) : SQLiteDB :=
  match written with
  | Ok s => s
  | _ => db
  end.

(** An image as the direct-upload handler hands it to [CreateImage]: a
    draft, uploaded half a second past the full second. *)
Definition draft_image : Image := {|
  ID := "img-n"; AccountID := "acct"; Filename := "cat.png";
  Creator := "1b9d6bcd-bbfd-4b2d-9b5d-ab8dfbbd4bed";
  image_Meta := None; RequireSignedURLs := true;
  Uploaded := {| year := 2024; month := 3; day := 7; hour := 15; minute := 4;
                 second := 5; nsec := 500000000 |};
  Variants := ["http://localhost:8080/cdn/acct/img-n/thumb"]; Draft := true;
|}.

(** img-b as a PATCH handler would hand it to [UpdateImage], with a new
    filename and times and a creator of its own. *)
Definition renamed_image : Image := {|
  ID := "img-b"; AccountID := "acct"; Filename := "renamed.gif";
  Creator := "someone-else";
  image_Meta := None; RequireSignedURLs := true;
  Uploaded := {| year := 2030; month := 1; day := 1; hour := 0; minute := 0;
                 second := 0; nsec := 0 |};
  Variants := []; Draft := false;
|}.

Definition img_c : Image := {|
  ID := "img-c"; AccountID := "acct"; Filename := "photo.gif"; Creator := "";
  image_Meta := None; RequireSignedURLs := false;
  Uploaded := {| year := 2024; month := 3; day := 2; hour := 8; minute := 30;
                 second := 0; nsec := 0 |};
  Variants := []; Draft := false;
|}.

Definition thumb_variant : Variant := {|
  variant_ID := "thumb"; variant_AccountID := "acct";
  Options := {| Fit := "scale-down"; Width := 100; Height := 100; Metadata := "none" |};
  NeverRequireSignedURLs := false;
|}.

Definition hero : Variant := {|
  variant_ID := "hero"; variant_AccountID := "acct";
  Options := {| Fit := "contain"; Width := 800; Height := 600; Metadata := "none" |};
  NeverRequireSignedURLs := false;
|}.

(** A request of account acct under /accounts/acct/images with one URL
    parameter. *)
Definition api_request (param value : string) : Request := {|
  URLParam := fun p => if String.eqb p param then value else "";
  Query := ∅;
  ContextAccountID := "acct";
|}.

(** GET /cdn/acct/{image}/{variant}?{query}. *)
Definition delivery_of (image variant : string) (query : list (string * list string))
  : Request := {|
  URLParam := fun name =>
    if String.eqb name "account_id" then "acct"
    else if String.eqb name "image_id" then image
    else if String.eqb name "variant_name" then variant
    else "";
  Query := list_to_map query;
  ContextAccountID := "";
|}.

(** The same configuration with a base URL that ends in a slash. *)
Definition handler_slash : Handler := {|
  DB := db; Store := store;
  Config := {| Config.ListenAddr := ":8080";
               Config.DBPath := "/data/db/images.db";
               Config.StoragePath := "/data/images";
               Config.ImageAllowance := 100000;
               Config.AuthToken := "";
               Config.BaseURL := "http://localhost:8080/";
               Config.EnforceSignedURLs := false |};
|}.

(** The headers of a request that carries a bearer token. *)
Definition bearer (token : string) : Api.Header :=
  fun name => if String.eqb name "Authorization" then "Bearer " +:+ token else "".

Definition img_b : Image := {|
  ID := "img-b"; AccountID := "acct"; Filename := "photo.gif"; Creator := "";
  image_Meta := None; RequireSignedURLs := false;
  Uploaded := {| year := 2024; month := 3; day := 1; hour := 10; minute := 0;
                 second := 0; nsec := 0 |};
  Variants := []; Draft := false;
|}.

(** A result of the ordered query of the V1 listing for acct: the two
    rows of equal upload time come by id. *)
Definition acct_rows : list Row :=
  ordered_images db (fun r => text_eq (row_account r) "acct") ASC.

End Fixtures.

(** * Properties *)

(** ** Format detection and fit modes *)
Section ImageprocFacts.
Context `{ImagingLib}.
Import Model Imageproc.

Lemma fitScaleDown_fits (img : Img) (origW origH targetW targetH : Z) :
  (origW <= targetW)%Z -> (origH <= targetH)%Z ->
  fitScaleDown img origW origH targetW targetH = img.
Proof.
  intros Hw Hh. unfold fitScaleDown.
  apply Z.leb_le in Hw. apply Z.leb_le in Hh. now rewrite Hw, Hh.
Qed.

(** C5.  With fit [scale-down], or any fit outside the five recognised
    modes, an image that already fits within the effective target box
    (a requested side of 0 standing for the source side) comes back
    unchanged, so its output bounds are the source bounds. *)
Theorem scale_down_never_enlarges (img : Img) (opts : VariantOptions) :
  Fit opts = "scale-down"
  \/ (Fit opts <> "contain" /\ Fit opts <> "cover" /\ Fit opts <> "crop"
      /\ Fit opts <> "pad") ->
  (Dx img <= (if (Width opts =? 0)%Z then Dx img else Width opts))%Z ->
  (Dy img <= (if (Height opts =? 0)%Z then Dy img else Height opts))%Z ->
  applyFit img opts = img
  /\ Dx (applyFit img opts) = Dx img
  /\ Dy (applyFit img opts) = Dy img.
Proof.
  intros Hfit Hw Hh.
  assert (E : applyFit img opts = img).
  { unfold applyFit.
    destruct Hfit as [-> | (Hc & Hv & Hr & Hp)].
    - simpl. now apply fitScaleDown_fits.
    - apply String.eqb_neq in Hc, Hv, Hr, Hp. rewrite Hc, Hv, Hr, Hp.
      destruct (String.eqb (Fit opts) "scale-down"); now apply fitScaleDown_fits. }
  now rewrite E.
Qed.

(** C6.  SVG input, and GIF input that is not SVG, passes through
    [Transform] byte for byte whatever the variant options are. *)
Theorem gif_svg_passthrough (data : list byte) (opts : VariantOptions) :
  (IsSVG data = true -> Transform (Ok data) opts = Ok (data, "svg"))
  /\ (DetectFormat data = "gif" -> IsSVG data = false ->
      Transform (Ok data) opts = Ok (data, "gif")).
Proof.
  split.
  - intros Hs. unfold Transform. now rewrite Hs.
  - intros Hg Hs. unfold Transform. now rewrite Hs, Hg.
Qed.

Lemma Contains_or_and (a b : bool) : a || (b && a) = a.
Proof. now destruct a, b. Qed.

(** C7 (amended).  Content is classified as SVG exactly when its first
    512 bytes contain the four bytes [<svg], with or without an XML
    declaration before them; and [Transform] treats such content as SVG
    whatever magic bytes it starts with. *)
Theorem svg_detection (data : list byte) (opts : VariantOptions) :
  IsSVG data = GoStrings.Contains (string_of_list_byte (take 512 data)) "<svg"
  /\ (IsSVG data = true -> Transform (Ok data) opts = Ok (data, "svg")).
Proof.
  split.
  - unfold IsSVG. rewrite Contains_or_and.
    destruct data as [|b data]; [reflexivity|].
    change (List.length (b :: data) =? 0)%nat with false. cbv iota.
    destruct (List.length (b :: data) <? 512)%nat eqn:E; [|reflexivity].
    apply Nat.ltb_lt in E.
    rewrite (take_ge (b :: data) 512) by (simpl in *; lia).
    now rewrite firstn_all.
  - intros Hs. unfold Transform. now rewrite Hs.
Qed.

End ImageprocFacts.

(** C7 as stated fails: an svg root element with attributes is SVG
    content for [IsSVG], and holds no [<svg>]. *)
Lemma svg_detection_not_closed_tag :
  ~ (forall data : list byte, data <> [] ->
       Imageproc.IsSVG data = true <-> spec_IsSVG data = true).
Proof.
  intros Hall.
  specialize (Hall (bytes_of "<svg xmlns='http://www.w3.org/2000/svg'/>")).
  destruct Hall as [Hto _]; [discriminate|].
  specialize (Hto eq_refl). vm_compute in Hto. discriminate.
Qed.

Lemma scale_down_never_enlarges_witness :
  let img : @Img Reference.bounds_only := (100, 100)%Z in
  let opts := {| Model.Fit := "scale-down"; Model.Width := 200; Model.Height := 0;
                 Model.Metadata := "none" |} in
  Imageproc.applyFit img opts = img
  /\ Dx (Imageproc.applyFit img opts) = 100%Z
  /\ Dy (Imageproc.applyFit img opts) = 100%Z.
Proof.
  intros img opts.
  apply (scale_down_never_enlarges (H := Reference.bounds_only) img opts).
  - left. reflexivity.
  - simpl. lia.
  - simpl. lia.
Defined.

Lemma gif_svg_passthrough_witness :
  let opts := {| Model.Fit := "cover"; Model.Width := 10; Model.Height := 20;
                 Model.Metadata := "none" |} in
  Imageproc.Transform (H := Reference.bounds_only) (Ok (bytes_of "<svg width='4'/>")) opts
  = Ok (bytes_of "<svg width='4'/>", "svg")
  /\ Imageproc.Transform (H := Reference.bounds_only) (Ok (bytes_of "GIF89a-frames")) opts
     = Ok (bytes_of "GIF89a-frames", "gif").
Proof.
  intros opts. split.
  - apply (proj1 (gif_svg_passthrough (H := Reference.bounds_only) _ opts)). reflexivity.
  - apply (proj2 (gif_svg_passthrough (H := Reference.bounds_only) _ opts)); reflexivity.
Defined.

(** A PNG signature followed by an svg tag is delivered as SVG. *)
Lemma svg_detection_witness :
  let data := [x89; x50; x4e; x47; x0d; x0a; x1a; x0a] ++ bytes_of "<svg>" in
  let opts := {| Model.Fit := "pad"; Model.Width := 1; Model.Height := 1;
                 Model.Metadata := "none" |} in
  Imageproc.DetectFormat data = "png"
  /\ Imageproc.Transform (H := Reference.bounds_only) (Ok data) opts = Ok (data, "svg").
Proof.
  intros data opts. split; [reflexivity|].
  apply (proj2 (svg_detection (H := Reference.bounds_only) data opts)). reflexivity.
Defined.

(** ** Signed URLs *)

Lemma bytes_eqb_refl (a : list byte) : bytes_eqb a a = true.
Proof.
  induction a as [|x a IH]; simpl; [reflexivity|].
  rewrite IH, andb_true_r. now apply Byte.byte_dec_lb.
Qed.

Lemma Hmac_Equal_refl (a : list byte) : Hmac.Equal a a = true.
Proof. unfold Hmac.Equal. now rewrite Nat.eqb_refl, bytes_eqb_refl. Qed.

Lemma hex_decode_pair (b : byte) (s : string) :
  Hex.DecodeString
    (String (Hex.hexdigit (byte_to_Z b / 16))
            (String (Hex.hexdigit (byte_to_Z b mod 16)) s))
  = match Hex.DecodeString s with
    | Some t => Some (b :: t)
    | None => None
    end.
Proof.
  assert (E : forall c : byte,
             (Hex.fromHexChar (Hex.hexdigit (byte_to_Z c / 16)),
              Hex.fromHexChar (Hex.hexdigit (byte_to_Z c mod 16)))
             = (Some (byte_to_Z c / 16), Some (byte_to_Z c mod 16))%Z
             /\ byte_of_Z (byte_to_Z c / 16 * 16 + byte_to_Z c mod 16) = c).
  { intros c. destruct c; vm_compute; split; reflexivity. }
  destruct (E b) as [Ed Eb]. injection Ed as E1 E2.
  cbn [Hex.DecodeString]. rewrite E1, E2, Eb. reflexivity.
Qed.

(** Decoding undoes encoding. *)
Lemma hex_decode_encode (b : list byte) :
  Hex.DecodeString (Hex.EncodeToString b) = Some b.
Proof.
  induction b as [|x b IH]; [reflexivity|].
  cbn [Hex.EncodeToString]. now rewrite hex_decode_pair, IH.
Qed.

Lemma hex_encode_nonempty (b : list byte) :
  b <> [] -> Hex.EncodeToString b <> "".
Proof. destruct b; [congruence | discriminate]. Qed.

(** A SHA-256 digest has 32 bytes. *)
Lemma Sum256_length (data : list byte) : List.length (Sha256.Sum256 data) = 32%nat.
Proof.
  unfold Sha256.Sum256. cbv zeta.
  match goal with |- context [Sha256.blocks ?n ?i ?p] => generalize (Sha256.blocks n i p) end.
  reflexivity.
Qed.

Lemma Hmac_Sum_length (key msg : list byte) : List.length (Hmac.Sum key msg) = 32%nat.
Proof. unfold Hmac.Sum. apply Sum256_length. Qed.

Lemma Get_absent (q : Handler.Values) (key : string) :
  q !! key = None -> Handler.Get q key = "".
Proof. unfold Handler.Get. now intros ->. Qed.

Section SigningKeyFacts.
Context `{TimeLib}.
Import Model Database.

Lemma key_rows_elem (s : SQLiteDB) (accountID : string) (x : (string * string) * KeyRow) :
  x ∈ merge_sort (fun x y : (string * string) * KeyRow =>
                    Is_true (negb (text_gt x.1.2 y.1.2)))
        (filter (fun r : (string * string) * KeyRow => Is_true (text_eq r.1.1 accountID))
                (map_to_list (signing_keys s)))
  <-> x.1.1 = accountID /\ signing_keys s !! x.1 = Some x.2.
Proof.
  rewrite merge_sort_Permutation, list_elem_of_filter.
  destruct x as [k v]. rewrite elem_of_map_to_list. simpl.
  unfold text_eq. rewrite Is_true_true, String.eqb_eq. reflexivity.
Qed.

(** A registered key is listed, with its secret. *)
Lemma ListSigningKeys_registered (s : SQLiteDB) (accountID name : string) (row : KeyRow) :
  signing_keys s !! (accountID, name) = Some row ->
  exists keys key,
    ListSigningKeys s accountID = Ok keys /\ key ∈ keys
    /\ Name key = name /\ Value key = value row.
Proof.
  intros Hrow. unfold ListSigningKeys. eexists. eexists. split; [reflexivity|].
  split.
  - apply list_elem_of_fmap_2' with (x := ((accountID, name), row)).
    + apply key_rows_elem. now split.
    + reflexivity.
  - split; reflexivity.
Qed.

(** An account without rows lists no key, and conversely. *)
Lemma ListSigningKeys_nil (s : SQLiteDB) (accountID : string) :
  ListSigningKeys s accountID = Ok []
  <-> forall name, signing_keys s !! (accountID, name) = None.
Proof.
  unfold ListSigningKeys. split.
  - intros E name. injection E as E. apply fmap_nil_inv in E.
    destruct (signing_keys s !! (accountID, name)) as [row|] eqn:Hrow; [|reflexivity].
    assert (Hin : ((accountID, name), row) ∈ ([] : list ((string * string) * KeyRow))).
    { rewrite <- E. apply key_rows_elem. now split. }
    now apply not_elem_of_nil in Hin.
  - intros Hnone. f_equal.
    match goal with |- map _ ?rows = _ => destruct rows as [|x rest] eqn:E end;
      [reflexivity|].
    assert (Hin : x ∈ x :: rest) by apply list_elem_of_here.
    rewrite <- E in Hin. apply key_rows_elem in Hin as [Ha Hl].
    destruct x as [[a n] v]; simpl in *; subst a. now rewrite Hnone in Hl.
Qed.

Lemma ListSigningKeys_total (s : SQLiteDB) (accountID : string) :
  exists keys, ListSigningKeys s accountID = Ok keys.
Proof. unfold ListSigningKeys. eauto. Qed.

End SigningKeyFacts.

Section VerifierFacts.
Context `{TimeLib} `{JsonLib} `{ImagingLib}.
Import Model Database Handler.

(** C2.  With at least one registered key: a request whose [exp] decodes
    to a time not before now, and whose [sig] is the lowercase hex of
    HMAC-SHA256 over the delivery path followed by the [exp] text, keyed
    by the secret of any registered key of the account, verifies.  With
    no registered key, no request verifies. *)
Theorem verifySignature_accepts (h : Handler) (r : Request) (now : Z)
        (accountID imageID variantName : string) :
  (forall (name : string) (row : KeyRow) (expUnix : Z),
      signing_keys (DB h) !! (accountID, name) = Some row ->
      Strconv.ParseInt (Get (Query r) "exp") = inr expUnix ->
      (now <= expUnix)%Z ->
      Get (Query r) "sig"
      = Hex.EncodeToString
          (Hmac.Sum (bytes_of (value row))
             (bytes_of (("/cdn/" +:+ accountID +:+ "/" +:+ imageID +:+ "/" +:+ variantName)
                        +:+ Get (Query r) "exp"))) ->
      verifySignature h r now accountID imageID variantName = true)
  /\ ((forall name, signing_keys (DB h) !! (accountID, name) = None) ->
      verifySignature h r now accountID imageID variantName = false).
Proof.
  split.
  - intros name row expUnix Hrow Hexp Hnow Hsig.
    unfold verifySignature. rewrite Hexp, Hsig.
    destruct (String.eqb_spec (Hex.EncodeToString
        (Hmac.Sum (bytes_of (value row))
           (bytes_of (("/cdn/" +:+ accountID +:+ "/" +:+ imageID +:+ "/" +:+ variantName)
                      +:+ Get (Query r) "exp")))) "") as [E|_].
    { exfalso. revert E. apply hex_encode_nonempty.
      intros E. apply (f_equal (@List.length byte)) in E.
      rewrite Hmac_Sum_length in E. discriminate. }
    destruct (String.eqb_spec (Get (Query r) "exp") "") as [E|_].
    { rewrite E in Hexp. discriminate. }
    cbn [orb].
    assert (Hle : (now >? expUnix)%Z = false) by (rewrite Z.gtb_ltb; apply Z.ltb_ge; lia).
    rewrite Hle, hex_decode_encode.
    destruct (ListSigningKeys_registered _ _ _ _ Hrow) as (keys & key & Hk & Hin & _ & Hv).
    rewrite Hk.
    destruct keys as [|k0 keys]; [now apply not_elem_of_nil in Hin|].
    cbn [List.length Nat.eqb].
    apply existsb_exists. exists key. split; [now apply list_elem_of_In|].
    rewrite Hv. apply Hmac_Equal_refl.
  - intros Hnone. unfold verifySignature.
    apply ListSigningKeys_nil in Hnone. rewrite Hnone. cbn.
    destruct (String.eqb _ ""), (String.eqb _ ""); cbn; try reflexivity.
    destruct (Strconv.ParseInt _); [reflexivity|].
    destruct (_ >? _)%Z; [reflexivity|].
    now destruct (Hex.DecodeString _).
Qed.

(** C3.  Verification denies when [sig] or [exp] is absent or empty,
    when [exp] is not a decimal int64, when [exp] lies before now, and
    when [sig] is not hex, whatever keys the account has. *)
Theorem verifySignature_denies (h : Handler) (r : Request) (now : Z)
        (accountID imageID variantName : string) :
  (Query r !! "sig" = None \/ Get (Query r) "sig" = ""
   \/ Query r !! "exp" = None \/ Get (Query r) "exp" = ""
   \/ (exists e, Strconv.ParseInt (Get (Query r) "exp") = inl e)
   \/ (exists expUnix, Strconv.ParseInt (Get (Query r) "exp") = inr expUnix
                       /\ (expUnix < now)%Z)
   \/ Hex.DecodeString (Get (Query r) "sig") = None) ->
  verifySignature h r now accountID imageID variantName = false.
Proof.
  intros Hbad. unfold verifySignature.
  destruct Hbad as [Hs|[Hs|[He|[He|[[e He]|[(n & He & Hn)|Hd]]]]]].
  - now rewrite (Get_absent _ _ Hs).
  - now rewrite Hs.
  - rewrite (Get_absent _ _ He). now rewrite orb_true_r.
  - rewrite He. now rewrite orb_true_r.
  - rewrite He. now destruct (_ || _).
  - rewrite He. apply Z.gtb_lt in Hn.
    assert (Hg : (now >? n)%Z = true) by (apply Z.gtb_lt; lia).
    rewrite Hg. now destruct (_ || _).
  - rewrite Hd. destruct (_ || _); [reflexivity|].
    destruct (Strconv.ParseInt _); [reflexivity|]. now destruct (_ >? _)%Z.
Qed.

Lemma deliverBlob_calls (h : Handler) (accountID imageID : string) (variant : Variant) :
  (CallVerifySignature ∉ (deliverBlob h accountID imageID variant).1)
  /\ StatusCode (deliverBlob h accountID imageID variant).2 <> 403%Z.
Proof.
  unfold deliverBlob.
  destruct (Storage.Retrieve _ _ _) as [rc| |]; cbn.
  - destruct (Imageproc.Transform _ _) as [[out fmt]| |]; cbn;
      (split; [|discriminate]);
      intros Hin; repeat (apply elem_of_cons in Hin as [Hin|Hin]; [discriminate|]);
      now apply not_elem_of_nil in Hin.
  - split; [|discriminate].
    intros Hin; repeat (apply elem_of_cons in Hin as [Hin|Hin]; [discriminate|]);
      now apply not_elem_of_nil in Hin.
  - split; [|discriminate].
    intros Hin; repeat (apply elem_of_cons in Hin as [Hin|Hin]; [discriminate|]);
      now apply not_elem_of_nil in Hin.
Qed.


End VerifierFacts.

Section SignedUrlWitnesses.
Import Model Database Handler Reference Fixtures.

(** A URL signed with the second key of the account, valid for a while. *)
Lemma verifySignature_accepts_witness :
  verifySignature (handler true)
    (delivery "thumb"
       [("exp", ["1900000000"]);
        ("sig", ["546366fc6d7b1896d61dbd1803644ae5941d4f3ed4f349b209a376cadb569a96"])])
    1700000000 "acct" "img-a" "thumb" = true
  /\ verifySignature handler_without_keys
       (delivery "thumb"
          [("exp", ["1900000000"]);
           ("sig", ["546366fc6d7b1896d61dbd1803644ae5941d4f3ed4f349b209a376cadb569a96"])])
       1700000000 "acct" "img-a" "thumb" = false.
Proof.
  split.
  - apply (proj1 (verifySignature_accepts (handler true) _ 1700000000 "acct" "img-a" "thumb")
             "rotated"
             {| value := "9e107d9d-372b-4b6d-8f5c-1a2b3c4d5e6f";
                created_at := "2024-02-01T00:00:00Z" |}
             1900000000%Z).
    + vm_compute. reflexivity.
    + vm_compute. reflexivity.
    + lia.
    + vm_compute. reflexivity.
  - apply (proj2 (verifySignature_accepts handler_without_keys _ 1700000000
                    "acct" "img-a" "thumb")).
    intros name. vm_compute. reflexivity.
Defined.

(** An expired URL: [exp] is one second before now. *)
Lemma verifySignature_denies_witness :
  verifySignature (handler true)
    (delivery "thumb"
       [("exp", ["1699999999"]);
        ("sig", ["546366fc6d7b1896d61dbd1803644ae5941d4f3ed4f349b209a376cadb569a96"])])
    1700000000 "acct" "img-a" "thumb" = false.
Proof.
  apply verifySignature_denies.
  do 5 right. left. exists 1699999999%Z. split.
  - vm_compute. reflexivity.
  - lia.
Defined.


End SignedUrlWitnesses.

(** ** Signing-key maintenance *)
Section KeyMaintenance.
Context `{TimeLib} `{JsonLib} `{ImagingLib}.
Import Model Database Handler.

(** C10.  After a [DeleteSigningKey] request answered 200 the account
    lists at least one key; and when the deleted key was the only one,
    the store holds a key named [default] whose secret is the UUID drawn
    during the request. *)
Theorem DeleteSigningKey_leaves_a_key (h : Handler) (r : Request) (uuid : string)
        (now : Time) :
  StatusCode (Handler.DeleteSigningKey h r uuid now).1 = 200%Z ->
  (exists key keys,
      ListSigningKeys (Handler.DeleteSigningKey h r uuid now).2 (ContextAccountID r)
      = Ok (key :: keys))
  /\ ((forall name, name <> URLParam r "signing_key_name" ->
                    signing_keys (DB h) !! (ContextAccountID r, name) = None) ->
      signing_keys (Handler.DeleteSigningKey h r uuid now).2
        !! (ContextAccountID r, "default")
      = Some {| value := uuid; created_at := time_Format now |}).
Proof.
  unfold Handler.DeleteSigningKey, Database.DeleteSigningKey.
  set (a := ContextAccountID r). set (kn := URLParam r "signing_key_name").
  destruct (signing_keys (DB h) !! (a, kn)) as [old|] eqn:Hold; cbn [fst snd];
    [intros _ | discriminate].
  set (db1 := {| images := images (DB h); variants := variants (DB h);
                 signing_keys := delete (a, kn) (signing_keys (DB h));
                 image_metadata := image_metadata (DB h) |}).
  destruct (ListSigningKeys_total db1 a) as [remaining Hrem]. rewrite Hrem.
  destruct remaining as [|k0 rest]; cbn [List.length Nat.eqb].
  - pose proof (proj1 (ListSigningKeys_nil db1 a) Hrem) as Hnone.
    unfold CreateSigningKey. cbn [key_AccountID Name Value CreatedAt].
    rewrite (Hnone "default").
    set (db2 := {| images := images db1; variants := variants db1;
                   signing_keys := <[(a, "default") :=
                       {| value := uuid; created_at := time_Format now |}]>
                     (signing_keys db1);
                   image_metadata := image_metadata db1 |}).
    assert (Hdef : signing_keys db2 !! (a, "default")
                   = Some {| value := uuid; created_at := time_Format now |})
      by apply lookup_insert_eq.
    split; [|now intros _].
    destruct (ListSigningKeys_registered db2 a "default" _ Hdef)
      as (keys & key & Hk & Hin & _).
    destruct keys as [|k1 keys]; [now apply not_elem_of_nil in Hin|]. eauto.
  - split; [eauto|]. intros Hlast. exfalso.
    assert (Hin : k0 ∈ k0 :: rest) by apply list_elem_of_here.
    assert (Hnil : ListSigningKeys db1 a = Ok []).
    { apply ListSigningKeys_nil. intros name. cbn.
      destruct (decide (name = kn)) as [->|Hne].
      - apply lookup_delete_eq.
      - rewrite lookup_delete_ne by congruence. now apply Hlast. }
    rewrite Hnil in Hrem. discriminate.
Qed.

End KeyMaintenance.

(** ** Page size and next cursor *)
Section CursorFacts.
Context `{TimeLib} `{JsonLib}.
Import Model Database.

Lemma cursor_text_nonempty (ts id : string) : ts +:+ "|" +:+ id <> "".
Proof. destruct ts; discriminate. Qed.

Lemma page_of_rows_cursor (rows : list Row) (perPage : Z) (images : list Image)
      (nextCursor : string) :
  page_of_rows rows perPage = Ok (images, nextCursor) ->
  nextCursor <> "" <-> Z.of_nat (List.length images) = perPage.
Proof.
  unfold page_of_rows. destruct (scanImages rows) as [imgs| |]; try discriminate.
  destruct (Z.eqb_spec (Z.of_nat (List.length imgs)) perPage) as [E|E].
  - destruct (last imgs) as [l|]; [|discriminate].
    intros [= <- <-]. split; [now intros _ | intros _; apply cursor_text_nonempty].
  - intros [= <- <-]. split; [congruence | intros E'; now apply E in E'].
Qed.

(** C8.  A V2 listing that succeeds, filtered or not, returns a
    non-empty next cursor exactly when it returns as many records as the
    page size; a shorter page, the empty page included, comes with the
    empty cursor. *)
Theorem nextCursor_iff_full_page (s : SQLiteDB) (accountID cursor : string)
        (perPage : Z) (sortOrder key op value : string) (images : list Image)
        (nextCursor : string) :
  (ListImagesV2 s accountID cursor perPage sortOrder = Ok (images, nextCursor) ->
   (nextCursor <> "" <-> Z.of_nat (List.length images) = perPage))
  /\ (ListImagesWithFilter s accountID cursor perPage sortOrder key op value
      = Ok (images, nextCursor) ->
      (nextCursor <> "" <-> Z.of_nat (List.length images) = perPage)).
Proof.
  split.
  - unfold ListImagesV2. destruct (String.eqb cursor "").
    + apply page_of_rows_cursor.
    + destruct (GoStrings.SplitN2 cursor "|") as [|cu [|ci [|x l]]]; try discriminate.
      apply page_of_rows_cursor.
  - unfold ListImagesWithFilter. destruct (String.eqb cursor "").
    + apply page_of_rows_cursor.
    + destruct (GoStrings.SplitN2 cursor "|") as [|cu [|ci [|x l]]]; try discriminate.
      apply page_of_rows_cursor.
Qed.

End CursorFacts.

(** ** Metadata filters and the order of the query map *)
Section FilterFacts.
Import Handler.

(** One turn of the filter loop, on its own. *)
Lemma parseMetadataFilters_from_cons (e : string * list string)
      (more : list (string * list string)) (acc : list metadataFilter) :
  parseMetadataFilters_from (e :: more) acc
  = match parseMetadataFilters [e] with
    | Ok fe => parseMetadataFilters_from more (acc ++ fe)
    | Err m => Err m
    | Panic => Panic
    end.
Proof.
  destruct e as [param values].
  unfold parseMetadataFilters. cbn [parseMetadataFilters_from].
  destruct (negb (GoStrings.HasPrefix param "metadata[")); [now rewrite app_nil_r|].
  destruct (GoStrings.IndexByte _ _) as [closeBracket|]; [|now rewrite app_nil_r].
  cbv zeta.
  destruct (negb _ || negb _); [now rewrite app_nil_r|].
  destruct (_ || _ || _ || _ || _ || _); [|reflexivity].
  destruct values as [|v0 vs]; [now rewrite app_nil_r | reflexivity].
Qed.

(** An entry contributes at most one filter. *)
Lemma parseMetadataFilters_single (e : string * list string) (fe : list metadataFilter) :
  parseMetadataFilters [e] = Ok fe -> fe = [] \/ exists f, fe = [f].
Proof.
  destruct e as [param values].
  unfold parseMetadataFilters. cbn [parseMetadataFilters_from].
  destruct (negb (GoStrings.HasPrefix param "metadata[")); [intros [= <-]; now left|].
  destruct (GoStrings.IndexByte _ _) as [closeBracket|]; [|intros [= <-]; now left].
  cbv zeta.
  destruct (negb _ || negb _); [intros [= <-]; now left|].
  destruct (_ || _ || _ || _ || _ || _); [|discriminate].
  destruct values as [|v0 vs]; intros [= <-]; [now left | right; eauto].
Qed.

(** The filters parsed from a list of entries, entry by entry. *)
Lemma parseMetadataFilters_from_Ok (entries : list (string * list string))
      (acc fs : list metadataFilter) :
  parseMetadataFilters_from entries acc = Ok fs
  <-> exists fss,
      Forall2 (fun e fe => parseMetadataFilters [e] = Ok fe) entries fss
      /\ fs = acc ++ concat fss.
Proof.
  revert acc fs. induction entries as [|e more IH]; intros acc fs.
  - cbn. split.
    + intros [= <-]. exists []. split; [constructor | now rewrite app_nil_r].
    + intros (fss & HF & ->). apply Forall2_nil_inv_l in HF as ->.
      cbn. now rewrite app_nil_r.
  - rewrite parseMetadataFilters_from_cons. split.
    + destruct (parseMetadataFilters [e]) as [fe| |] eqn:He; try discriminate.
      intros Hm. apply IH in Hm as (fss & HF & ->).
      exists (fe :: fss). split; [now constructor | cbn; now rewrite app_assoc].
    + intros (fss & HF & ->).
      apply Forall2_cons_inv_l in HF as (fe & fss' & He & HF & ->).
      rewrite He. apply IH. exists fss'. split; [exact HF | cbn; now rewrite app_assoc].
Qed.

Lemma per_entry_Permutation (es es' : list (string * list string))
      (fss : list (list metadataFilter)) :
  es ≡ₚ es' ->
  Forall2 (fun e fe => parseMetadataFilters [e] = Ok fe) es fss ->
  exists fss', Forall2 (fun e fe => parseMetadataFilters [e] = Ok fe) es' fss'
               /\ fss ≡ₚ fss'.
Proof.
  intros Hp. revert fss. induction Hp as [|x l l' Hp IH|x y l|l l' l'' Hp1 IH1 Hp2 IH2];
    intros fss HF.
  - apply Forall2_nil_inv_l in HF as ->. exists []. split; [constructor | reflexivity].
  - apply Forall2_cons_inv_l in HF as (fe & fss0 & He & HF & ->).
    destruct (IH _ HF) as (fss' & HF' & Hp').
    exists (fe :: fss'). split; [now constructor | now constructor].
  - apply Forall2_cons_inv_l in HF as (fy & fss0 & Hy & HF & ->).
    apply Forall2_cons_inv_l in HF as (fx & fss1 & Hx & HF & ->).
    exists (fx :: fy :: fss1). split; [now repeat constructor | apply perm_swap].
  - destruct (IH1 _ HF) as (fss1 & HF1 & Hp1').
    destruct (IH2 _ HF1) as (fss2 & HF2 & Hp2').
    exists fss2. split; [exact HF2 | now transitivity fss1].
Qed.

(** Whatever order the map is ranged over, the same filters are parsed,
    up to their order. *)
Lemma parseMetadataFilters_Permutation (es es' : list (string * list string))
      (fs : list metadataFilter) :
  es ≡ₚ es' ->
  parseMetadataFilters es = Ok fs ->
  exists fs', parseMetadataFilters es' = Ok fs' /\ fs ≡ₚ fs'.
Proof.
  intros Hp Hfs. unfold parseMetadataFilters in *.
  apply parseMetadataFilters_from_Ok in Hfs as (fss & HF & ->).
  destruct (per_entry_Permutation _ _ _ Hp HF) as (fss' & HF' & Hp').
  exists (concat fss'). split.
  - apply parseMetadataFilters_from_Ok. eauto.
  - cbn. now rewrite Hp'.
Qed.

(** Any parsed filter comes first in some order of the entries. *)
Lemma parseMetadataFilters_first (es : list (string * list string))
      (fs : list metadataFilter) (f : metadataFilter) :
  parseMetadataFilters es = Ok fs -> f ∈ fs ->
  exists es' fs', es' ≡ₚ es /\ parseMetadataFilters es' = Ok (f :: fs').
Proof.
  intros Hfs Hin. unfold parseMetadataFilters in *.
  apply parseMetadataFilters_from_Ok in Hfs as (fss & HF & ->). cbn in Hin.
  apply list_elem_of_In, in_concat in Hin as (fe & Hfe & Hf).
  apply list_elem_of_In in Hfe, Hf.
  apply list_elem_of_lookup in Hfe as [i Hi].
  destruct (Forall2_lookup_r _ _ _ _ _ HF Hi) as (e & He & Hpe).
  destruct (parseMetadataFilters_single _ _ Hpe) as [->|[f' ->]];
    [now apply not_elem_of_nil in Hf|].
  apply list_elem_of_singleton in Hf as <-.
  assert (Hperm : es ≡ₚ e :: delete i es) by now apply delete_Permutation.
  destruct (per_entry_Permutation _ _ _ Hperm HF) as (fss' & HF' & _).
  apply Forall2_cons_inv_l in HF' as (fe' & fss0 & He' & HF0 & ->).
  unfold parseMetadataFilters in He', Hpe. rewrite Hpe in He'. injection He' as <-.
  exists (e :: delete i es), (concat fss0). split; [now symmetry|].
  apply parseMetadataFilters_from_Ok. exists ([f] :: fss0).
  split; [constructor; assumption | reflexivity].
Qed.

End FilterFacts.

Section ManyFilters.
Context `{TimeLib} `{JsonLib} `{ImagingLib}.
Import Model Database Handler.


End ManyFilters.

(** ** Keyset pagination *)

(** *** The order on sort keys *)
Section KeyOrder.
Import Database.

Lemma Ascii_compare_refl (c : ascii) : Ascii.compare c c = Eq.
Proof. unfold Ascii.compare. apply N.compare_refl. Qed.

Lemma String_compare_refl (a : string) : String.compare a a = Eq.
Proof. induction a as [|c a IH]; [reflexivity|]. cbn. now rewrite Ascii_compare_refl. Qed.

Lemma String_compare_Eq (a b : string) : String.compare a b = Eq <-> a = b.
Proof. split; [apply String.compare_eq_iff | intros ->; apply String_compare_refl]. Qed.

Lemma Ascii_compare_trans (x y z : ascii) :
  Ascii.compare x y = Lt -> Ascii.compare y z = Lt -> Ascii.compare x z = Lt.
Proof. unfold Ascii.compare. rewrite !N.compare_lt_iff. apply N.lt_trans. Qed.

Lemma String_compare_trans (a b c : string) :
  String.compare a b = Lt -> String.compare b c = Lt -> String.compare a c = Lt.
Proof.
  revert b c. induction a as [|x a IH]; intros [|y b] [|z c]; cbn; try easy.
  destruct (Ascii.compare x y) eqn:Exy; try easy;
    destruct (Ascii.compare y z) eqn:Eyz; try easy.
  - apply Ascii.compare_eq_iff in Exy, Eyz. subst. rewrite Ascii_compare_refl. apply IH.
  - apply Ascii.compare_eq_iff in Exy. subst. now rewrite Eyz.
  - apply Ascii.compare_eq_iff in Eyz. subst. now rewrite Exy.
  - now rewrite (Ascii_compare_trans _ _ _ Exy Eyz).
Qed.

Lemma key_compare_Eq (k1 k2 : string * string) : key_compare k1 k2 = Eq <-> k1 = k2.
Proof.
  destruct k1 as [u1 i1], k2 as [u2 i2]. unfold key_compare. cbn. split.
  - destruct (String.compare u1 u2) eqn:E; try discriminate.
    apply String_compare_Eq in E. intros E'%String_compare_Eq. congruence.
  - intros [= -> ->]. now rewrite !String_compare_refl.
Qed.

Lemma key_compare_antisym (k1 k2 : string * string) :
  key_compare k2 k1 = CompOpp (key_compare k1 k2).
Proof.
  destruct k1 as [u1 i1], k2 as [u2 i2]. unfold key_compare. cbn.
  rewrite (String.compare_antisym u2 u1), (String.compare_antisym i2 i1).
  now destruct (String.compare u1 u2).
Qed.

Lemma key_compare_trans (k1 k2 k3 : string * string) :
  key_compare k1 k2 = Lt -> key_compare k2 k3 = Lt -> key_compare k1 k3 = Lt.
Proof.
  destruct k1 as [u1 i1], k2 as [u2 i2], k3 as [u3 i3]. unfold key_compare. cbn.
  destruct (String.compare u1 u2) eqn:E12; try easy;
    destruct (String.compare u2 u3) eqn:E23; try easy.
  - apply String_compare_Eq in E12, E23. subst. rewrite String_compare_refl.
    apply String_compare_trans.
  - apply String_compare_Eq in E12. subst. now rewrite E23.
  - apply String_compare_Eq in E23. subst. now rewrite E12.
  - now rewrite (String_compare_trans _ _ _ E12 E23).
Qed.

(** Ascending, [key_leb] is "not greater"; descending is the converse. *)
Lemma key_leb_DESC (k1 k2 : string * string) : key_leb DESC k1 k2 = key_leb ASC k2 k1.
Proof. reflexivity. Qed.

Lemma key_leb_ASC_spec (k1 k2 : string * string) :
  key_leb ASC k1 k2 = true <-> key_compare k1 k2 = Lt \/ k1 = k2.
Proof.
  cbn. rewrite <- key_compare_Eq. destruct (key_compare k1 k2); intuition congruence.
Qed.

Lemma key_leb_refl (o : Order) (k : string * string) : key_leb o k k = true.
Proof. destruct o; cbn; now rewrite (proj2 (key_compare_Eq k k) eq_refl). Qed.

Lemma key_leb_total (o : Order) (k1 k2 : string * string) :
  key_leb o k1 k2 = true \/ key_leb o k2 k1 = true.
Proof.
  destruct o; cbn; rewrite (key_compare_antisym k1 k2);
    destruct (key_compare k1 k2); cbn; auto.
Qed.

Lemma key_leb_trans (o : Order) (k1 k2 k3 : string * string) :
  key_leb o k1 k2 = true -> key_leb o k2 k3 = true -> key_leb o k1 k3 = true.
Proof.
  assert (A : forall a b c, key_leb ASC a b = true -> key_leb ASC b c = true ->
                            key_leb ASC a c = true).
  { intros a b c. rewrite !key_leb_ASC_spec.
    intros [Hab| ->] [Hbc| ->]; auto. left. eapply key_compare_trans; eauto. }
  destruct o; [apply A|]. rewrite !key_leb_DESC. intros H1 H2. eapply A; eauto.
Qed.

Lemma key_leb_antisym (o : Order) (k1 k2 : string * string) :
  key_leb o k1 k2 = true -> key_leb o k2 k1 = true -> k1 = k2.
Proof.
  assert (A : forall a b, key_leb ASC a b = true -> key_leb ASC b a = true -> a = b).
  { intros a b. cbn. rewrite (key_compare_antisym a b).
    destruct (key_compare a b) eqn:E; cbn; try discriminate.
    intros _ _. now apply key_compare_Eq. }
  destruct o; [apply A|]. rewrite !key_leb_DESC. intros H1 H2. symmetry. now apply A.
Qed.

#[global] Instance row_le_total (o : Order) : Total (row_le o).
Proof.
  intros x y. unfold row_le. rewrite !Is_true_true. apply key_leb_total.
Qed.

#[global] Instance row_le_trans (o : Order) : Transitive (row_le o).
Proof.
  intros x y z. unfold row_le. rewrite !Is_true_true. apply key_leb_trans.
Qed.

Lemma row_le_refl (o : Order) (x : Row) : row_le o x x.
Proof. unfold row_le. rewrite Is_true_true. apply key_leb_refl. Qed.

(** The SQL keyset predicate is "strictly after the cursor pair". *)
Lemma after_cursor_spec (o : Order) (cu ci : string) (r : Row) :
  after_cursor o cu ci r = negb (key_leb o (row_key r) (cu, ci)).
Proof.
  unfold after_cursor, key_leb, key_compare, row_key, text_gt, text_lt, text_eq. cbn.
  destruct o.
  - destruct (String.compare (uploaded r.2) cu) eqn:E; cbn.
    + apply String_compare_Eq in E. rewrite E, String.eqb_refl. cbn.
      now destruct (String.compare (row_id r) ci).
    + destruct (String.eqb_spec (uploaded r.2) cu) as [E'|_]; [|reflexivity].
      rewrite E', String_compare_refl in E. discriminate.
    + reflexivity.
  - rewrite (String.compare_antisym cu (uploaded r.2)),
      (String.compare_antisym ci (row_id r)).
    destruct (String.compare (uploaded r.2) cu) eqn:E; cbn.
    + apply String_compare_Eq in E. rewrite E, String.eqb_refl. cbn.
      now destruct (String.compare (row_id r) ci).
    + reflexivity.
    + destruct (String.eqb_spec (uploaded r.2) cu) as [E'|_]; [|reflexivity].
      rewrite E', String_compare_refl in E. discriminate.
Qed.

End KeyOrder.

(** *** The ordered rows of a query *)
Section OrderedRows.
Import Database.

Variable s : SQLiteDB.
Variable accountID : string.
Variable o : Order.

Abbreviation for_account := (Client.for_account accountID).

Lemma ordered_images_elem (w : Row -> bool) (r : Row) :
  r ∈ ordered_images s w o <-> w r = true /\ images s !! r.1 = Some r.2.
Proof.
  unfold ordered_images. rewrite merge_sort_Permutation, list_elem_of_filter.
  destruct r as [k v]. now rewrite elem_of_map_to_list, Is_true_true.
Qed.

Lemma ordered_images_NoDup_keys (w : Row -> bool) : NoDup (ordered_images s w o).*1.
Proof.
  unfold ordered_images. rewrite merge_sort_Permutation.
  eapply sublist_NoDup; [apply (NoDup_fst_map_to_list (images s))|].
  apply fmap_sublist, sublist_filter.
Qed.

Lemma ordered_images_NoDup (w : Row -> bool) : NoDup (ordered_images s w o).
Proof. eapply NoDup_fmap_1. apply ordered_images_NoDup_keys. Qed.

Lemma ordered_images_sorted (w : Row -> bool) :
  StronglySorted (row_le o) (ordered_images s w o).
Proof. apply StronglySorted_merge_sort; apply _. Qed.

(** Two stored rows of one account with the same sort key are the same
    row. *)
Lemma same_key_same_row (x y : Row) :
  images s !! x.1 = Some x.2 -> images s !! y.1 = Some y.2 ->
  row_account x = row_account y -> row_key x = row_key y -> x = y.
Proof.
  destruct x as [[ax ix] vx], y as [[ay iy] vy]. unfold row_account, row_key, row_id. cbn.
  intros Hx Hy -> [= _ ->]. rewrite Hx in Hy. now injection Hy as ->.
Qed.

Lemma row_le_antisym_on (w : Row -> bool) (x y : Row) :
  for_account w -> x ∈ ordered_images s w o -> y ∈ ordered_images s w o ->
  row_le o x y -> row_le o y x -> x = y.
Proof.
  intros Hw [Hwx Hx]%ordered_images_elem [Hwy Hy]%ordered_images_elem Hxy Hyx.
  apply same_key_same_row; try assumption.
  - now rewrite (Hw _ Hwx), (Hw _ Hwy).
  - unfold row_le in *. rewrite Is_true_true in Hxy, Hyx. eapply key_leb_antisym; eauto.
Qed.

Lemma filter_none {A} (P : A -> Prop) `{forall x, Decision (P x)} (l : list A) :
  Forall (fun x => ~ P x) l -> filter P l = [].
Proof.
  induction 1 as [|x l Hx _ IH]; [reflexivity|]. now rewrite filter_cons_False.
Qed.

Lemma filter_all {A} (P : A -> Prop) `{forall x, Decision (P x)} (l : list A) :
  Forall P l -> filter P l = l.
Proof.
  induction 1 as [|x l Hx _ IH]; [reflexivity|]. rewrite filter_cons_True by assumption.
  now rewrite IH.
Qed.

Lemma StronglySorted_filter {A} (R : relation A) (P : A -> Prop)
      `{forall x, Decision (P x)} (l : list A) :
  StronglySorted R l -> StronglySorted R (filter P l).
Proof.
  induction 1 as [|x l Hl IH Hx]; [constructor|].
  rewrite filter_cons. destruct (decide (P x)); [|assumption].
  constructor; [assumption|].
  apply Forall_forall. intros y [_ Hy]%list_elem_of_filter.
  revert y Hy. now apply Forall_forall.
Qed.

(** A further condition in the WHERE clause filters the ordered rows. *)
Lemma ordered_images_and (w q : Row -> bool) :
  for_account w ->
  ordered_images s (fun r => w r && q r) o
  = filter (fun r => Is_true (q r)) (ordered_images s w o).
Proof.
  intros Hw. apply (StronglySorted_unique_strong (row_le o)).
  - intros x y Hx Hy. apply (row_le_antisym_on w); try assumption.
    + apply ordered_images_elem in Hx as [[Hwx _]%andb_true_iff Hx].
      now apply ordered_images_elem.
    + now apply list_elem_of_filter in Hy as [_ Hy].
  - apply ordered_images_sorted.
  - apply StronglySorted_filter, ordered_images_sorted.
  - unfold ordered_images. rewrite !merge_sort_Permutation, list_filter_filter.
    erewrite list_filter_iff; [reflexivity|].
    intros x. cbn. rewrite andb_True. tauto.
Qed.

(** In the ordered rows, the rows strictly after the one at position [j]
    are the rows behind position [j]. *)
Lemma rows_after_position (w : Row -> bool) (j : nat) (x : Row) :
  for_account w ->
  ordered_images s w o !! j = Some x ->
  filter (fun r => Is_true (negb (key_leb o (row_key r) (row_key x))))
         (ordered_images s w o)
  = drop (S j) (ordered_images s w o).
Proof.
  intros Hw Hj.
  pose proof (ordered_images_sorted w) as Hs.
  pose proof (ordered_images_NoDup w) as Hnd.
  pose proof (fun y => row_le_antisym_on w y x Hw) as Hanti.
  assert (Hx : x ∈ ordered_images s w o) by (eapply list_elem_of_lookup_2; eauto).
  set (L := ordered_images s w o) in *.
  assert (HL : L = take j L ++ x :: drop (S j) L)
    by (symmetry; now apply take_drop_middle).
  set (l1 := take j L) in *. set (l2 := drop (S j) L) in *.
  rewrite HL in Hs, Hnd. rewrite HL at 1.
  apply StronglySorted_app in Hs as (H12 & Hs1 & Hs2).
  apply StronglySorted_cons in Hs2 as [Hx2 Hs2].
  rewrite filter_app, filter_cons.
  destruct (decide _) as [Hxx|_].
  { exfalso. apply Is_true_true in Hxx. now rewrite key_leb_refl in Hxx. }
  assert (E1 : filter (fun r => Is_true (negb (key_leb o (row_key r) (row_key x)))) l1 = []).
  { apply filter_none, Forall_forall. intros y Hy Hn.
    apply Is_true_true, negb_true_iff in Hn.
    specialize (H12 y x Hy (list_elem_of_here _ _)).
    unfold row_le in H12. apply Is_true_true in H12. congruence. }
  rewrite E1. cbn.
  apply filter_all, Forall_forall. intros y Hy.
  apply Is_true_true, negb_true_iff.
  destruct (key_leb o (row_key y) (row_key x)) eqn:E; [exfalso|reflexivity].
  pose proof (proj1 (Forall_forall _ _) Hx2 y Hy) as Hle.
  assert (y = x).
  { apply Hanti; [rewrite HL; set_solver | exact Hx | | exact Hle].
    unfold row_le. now apply Is_true_true. }
  subst y. apply NoDup_app in Hnd as (_ & _ & Hnd).
  apply NoDup_cons in Hnd as [Hnd _]. contradiction.
Qed.

End OrderedRows.

(** *** Cursors *)
Section CursorCodec.

Lemma IndexByte_append (u v : string) (c : ascii) :
  GoStrings.IndexByte u c = None ->
  GoStrings.IndexByte (u +:+ String c v) c = Some (String.length u).
Proof.
  induction u as [|a u IH]; simpl.
  - intros _. now rewrite Ascii.eqb_refl.
  - destruct (Ascii.eqb a c); [discriminate|].
    destruct (GoStrings.IndexByte u c); [discriminate|]. intros _. now rewrite IH.
Qed.

Lemma substring_prefix (u v : string) :
  String.substring 0 (String.length u) (u +:+ v) = u.
Proof.
  induction u as [|a u IH]; simpl; [now destruct v|]. congruence.
Qed.

Lemma substring_whole (v : string) : String.substring 0 (String.length v) v = v.
Proof. induction v as [|a v IH]; simpl; [reflexivity|]. congruence. Qed.

Lemma substring_suffix (u v : string) (m : nat) :
  String.substring (String.length u) m (u +:+ v) = String.substring 0 m v.
Proof. induction u as [|a u IH]; simpl; [reflexivity|]. apply IH. Qed.

Lemma append_length (u v : string) :
  String.length (u +:+ v) = (String.length u + String.length v)%nat.
Proof. induction u as [|a u IH]; simpl; [reflexivity|]. congruence. Qed.

Lemma append_assoc_sep (u i : string) (c : ascii) :
  u +:+ String c i = (u +:+ String c "") +:+ i.
Proof.
  induction u as [|a u IH]; [reflexivity|].
  change (String a (u +:+ String c i) = String a ((u +:+ String c "") +:+ i)).
  congruence.
Qed.

(** A cursor splits back into the pair it was made of. *)
Lemma SplitN2_cursor (u i : string) :
  GoStrings.IndexByte u "|" = None ->
  GoStrings.SplitN2 (u +:+ "|" +:+ i) "|" = [u; i].
Proof.
  intros Hu. unfold GoStrings.SplitN2.
  change (u +:+ "|" +:+ i) with (u +:+ String "|" i).
  rewrite (IndexByte_append u i "|" Hu), substring_prefix.
  f_equal. f_equal.
  rewrite append_length. simpl String.length.
  replace (String.length u + S (String.length i) - S (String.length u))%nat
    with (String.length i) by lia.
  rewrite append_assoc_sep.
  replace (S (String.length u)) with (String.length (u +:+ String "|" ""))
    by (rewrite append_length; simpl; lia).
  now rewrite substring_suffix, substring_whole.
Qed.

Lemma cursor_nonempty (u i : string) : String.eqb (u +:+ "|" +:+ i) "" = false.
Proof. destruct u; reflexivity. Qed.

End CursorCodec.

(** *** Scanning an account page by page *)
Section KeysetScan.
Context `{TimeLib} `{JsonLib}.
Import Model Database Handler Client.

Variable s : SQLiteDB.
Variable accountID : string.
Variable perPage : Z.
Variable sortOrder : string.
Variable f : option metadataFilter.

Hypothesis Hstored : stored_account s accountID.
Hypothesis HperPage : perPage <> 0%Z.

Local Abbreviation o := (direction sortOrder).
Local Abbreviation L := (ordered_images s (listed s accountID f) (direction sortOrder)).
Local Abbreviation call := (listPage s accountID perPage sortOrder f).

Lemma listed_for_account : for_account accountID (listed s accountID f).
Proof.
  intros r [Ha _]%andb_true_iff. now apply String.eqb_eq in Ha.
Qed.

Lemma ordered_images_ext (w w' : Row -> bool) (d : Order) :
  (forall r, w r = w' r) -> ordered_images s w d = ordered_images s w' d.
Proof.
  intros E. unfold ordered_images. f_equal. apply list_filter_iff.
  intros r. now rewrite E.
Qed.

Lemma scanned_shape (r : Row) : exists m, scanned r = image_of_row r m.
Proof.
  unfold scanned, scanImage.
  destruct (negb _ && negb _); [|eauto].
  destruct (json_Unmarshal _); eauto.
Qed.

Lemma scanned_ID (r : Row) : ID (scanned r) = row_id r.
Proof. destruct (scanned_shape r) as [m ->]. reflexivity. Qed.

Lemma scanned_Ok (r : Row) : stored_row r.2 -> scanImage r = Ok (scanned r).
Proof.
  intros (_ & _ & Hm). unfold scanned, scanImage.
  destruct Hm as [-> | [-> | [m Hm]]]; try reflexivity.
  rewrite Hm. now destruct (negb _ && negb _).
Qed.

Lemma scanned_key (r : Row) : stored_row r.2 -> image_key (scanned r) = row_key r.
Proof.
  intros (Hc & _ & _). destruct (scanned_shape r) as [m ->].
  unfold image_key, row_key. cbn. now rewrite Hc.
Qed.

Lemma scanImages_Ok (rows : list Row) :
  Forall (fun r => stored_row r.2) rows -> scanImages rows = Ok (scanned <$> rows).
Proof.
  induction 1 as [|r rows Hr _ IH]; [reflexivity|].
  cbn [scanImages]. now rewrite (scanned_Ok r Hr), IH.
Qed.

Lemma listed_stored (d : Order) (R : list Row) :
  R `sublist_of` ordered_images s (listed s accountID f) d ->
  Forall (fun r => stored_row r.2) R.
Proof.
  intros Hsub. apply Forall_forall. intros r Hr.
  eapply elem_of_sublist in Hr; [|exact Hsub].
  apply ordered_images_elem in Hr as [Hl Hr].
  apply listed_for_account in Hl. destruct r as [[a i] row].
  unfold row_account in Hl. cbn in *. subst a. eapply Hstored; eauto.
Qed.

Lemma sql_limit_sublist {A} (n : Z) (l : list A) : sql_limit n l `sublist_of` l.
Proof. unfold sql_limit. destruct (n <? 0)%Z; [reflexivity | apply sublist_take]. Qed.

Lemma sql_limit_fmap {A B} (g : A -> B) (n : Z) (l : list A) :
  g <$> sql_limit n l = sql_limit n (g <$> l).
Proof. unfold sql_limit. destruct (n <? 0)%Z; [reflexivity | apply fmap_take]. Qed.

(** A page of stored rows: the scanned rows, and the cursor of the last
    one when the page is full. *)
Lemma page_of_rows_stored (R : list Row) :
  Forall (fun r => stored_row r.2) R ->
  page_of_rows R perPage
  = Ok (scanned <$> R,
        if (Z.of_nat (List.length R) =? perPage)%Z
        then from_option cursor_of "" (last R) else "").
Proof.
  intros HR. unfold page_of_rows. rewrite (scanImages_Ok R HR), length_fmap, fmap_last.
  destruct (Z.eqb_spec (Z.of_nat (List.length R)) perPage) as [E|E]; [|reflexivity].
  destruct (last R) as [l|] eqn:El; cbn.
  - assert (Hl : stored_row l.2).
    { apply last_Some_elem_of in El. exact (proj1 (Forall_forall _ _) HR l El). }
    pose proof (scanned_key l Hl) as Hk. unfold image_key, row_key in Hk.
    injection Hk as -> _. now rewrite scanned_ID.
  - apply last_None in El. subst R. exfalso. apply HperPage. now rewrite <- E.
Qed.

Lemma listPage_start : call "" = page_of_rows (sql_limit perPage L) perPage.
Proof.
  unfold listPage, Database.ListImagesV2, Database.ListImagesWithFilter, select_images.
  destruct f as [flt|]; cbn [String.eqb]; [reflexivity|].
  f_equal. f_equal. apply ordered_images_ext. intros r. unfold listed. cbn.
  now rewrite andb_true_r.
Qed.

Lemma listPage_after (cu ci : string) :
  GoStrings.IndexByte cu "|" = None ->
  call (cu +:+ "|" +:+ ci)
  = page_of_rows
      (sql_limit perPage
         (filter (fun r => Is_true (negb (key_leb o (row_key r) (cu, ci)))) L))
      perPage.
Proof.
  intros Hcu.
  rewrite <- (ordered_images_and s accountID o (listed s accountID f)
                (fun r => negb (key_leb o (row_key r) (cu, ci))) listed_for_account).
  unfold listPage, Database.ListImagesV2, Database.ListImagesWithFilter, select_images.
  destruct f as [flt|]; rewrite cursor_nonempty, (SplitN2_cursor cu ci Hcu);
    f_equal; f_equal; apply ordered_images_ext; intros r;
    rewrite after_cursor_spec; unfold listed; cbn; [reflexivity|].
  now rewrite andb_true_r.
Qed.

(** From a cursor that stands behind the first [k] rows, the scan
    collects the rest. *)
Lemma scan_from (fuel k : nat) (c : string) :
  (List.length L - k < fuel)%nat ->
  call c = page_of_rows (sql_limit perPage (drop k L)) perPage ->
  exists pages, scan fuel call c = Some pages /\ concat pages = scanned <$> drop k L.
Proof.
  revert k c. induction fuel as [|fuel IH]; intros k c Hfuel Hc; [lia|].
  cbn [scan]. rewrite Hc.
  set (R := sql_limit perPage (drop k L)).
  assert (HR : Forall (fun r => stored_row r.2) R).
  { apply (listed_stored o).
    transitivity (drop k L); [apply sql_limit_sublist | apply sublist_drop]. }
  rewrite (page_of_rows_stored R HR).
  destruct (Z.eqb_spec (Z.of_nat (List.length R)) perPage) as [E|E].
  - assert (Hpos : (0 < perPage)%Z) by lia.
    assert (ER : R = take (Z.to_nat perPage) (drop k L)).
    { unfold R, sql_limit. destruct (Z.ltb_spec perPage 0); [lia | reflexivity]. }
    set (m := Z.to_nat perPage) in *.
    assert (Hm : List.length R = m) by (unfold m; lia).
    assert (Hlen : (k + m <= List.length L)%nat).
    { rewrite ER, length_take, length_drop in Hm. lia. }
    assert (Hlast : last R = L !! (k + m - 1)%nat).
    { rewrite last_lookup, Hm, ER, lookup_take_lt by lia.
      rewrite lookup_drop. f_equal. lia. }
    destruct (L !! (k + m - 1)%nat) as [y|] eqn:Ey.
    2:{ apply lookup_ge_None in Ey. lia. }
    rewrite Hlast. cbn [from_option]. unfold cursor_of at 1. rewrite cursor_nonempty.
    destruct (IH (k + m)%nat (cursor_of y)) as (pages & Hscan & Hcat).
    + lia.
    + assert (Hy : stored_row y.2).
      { apply list_elem_of_lookup_2 in Ey.
        pose proof (listed_stored o L (reflexivity _)) as HL.
        exact (proj1 (Forall_forall _ _) HL y Ey). }
      unfold cursor_of. rewrite (listPage_after _ _ (proj1 (proj2 Hy))).
      change (uploaded y.2, row_id y) with (row_key y).
      rewrite (rows_after_position s accountID o _ _ _ listed_for_account Ey).
      do 3 f_equal. lia.
    + rewrite Hscan. eexists. split; [reflexivity|].
      cbn [concat]. rewrite Hcat, <- fmap_app. f_equal.
      rewrite ER, <- (drop_drop L m k). apply take_drop.
  - cbn [String.eqb]. eexists. split; [reflexivity|].
    cbn [concat]. rewrite app_nil_r. f_equal.
    unfold R, sql_limit in *. destruct (Z.ltb_spec perPage 0); [reflexivity|].
    apply take_ge. rewrite length_take in E. lia.
Qed.

Lemma filter_fmap_on {A B} (g : A -> B) (P : B -> Prop) (Q : A -> Prop)
      `{forall x, Decision (P x)} `{forall x, Decision (Q x)} (l : list A) :
  (forall x, x ∈ l -> P (g x) <-> Q x) ->
  filter P (g <$> l) = g <$> filter Q l.
Proof.
  induction l as [|x l IH]; intros HPQ; [reflexivity|].
  cbn [fmap list_fmap]. rewrite !filter_cons.
  assert (Hx : P (g x) <-> Q x) by (apply HPQ; apply list_elem_of_here).
  rewrite IH by (intros y Hy; apply HPQ; now apply list_elem_of_further).
  destruct (decide (P (g x))), (decide (Q x)); try tauto; reflexivity.
Qed.

Lemma StronglySorted_strengthen {A} (R R' : relation A) (l : list A) :
  (forall x y, x ∈ l -> y ∈ l -> x <> y -> R x y -> R' x y) ->
  NoDup l -> StronglySorted R l -> StronglySorted R' l.
Proof.
  intros HR Hnd Hs. induction Hs as [|x l Hs IH Hx]; [constructor|].
  apply NoDup_cons in Hnd as [Hxl Hnd].
  constructor.
  - apply IH; [|exact Hnd]. intros a b Ha Hb. apply HR; now apply list_elem_of_further.
  - apply Forall_forall. intros y Hy. apply HR.
    + apply list_elem_of_here.
    + now apply list_elem_of_further.
    + intros ->. contradiction.
    + revert y Hy. now apply Forall_forall.
Qed.


End KeysetScan.

(** ** The properties on the sample store *)
Section ListingWitnesses.
Import Model Database Handler Reference Fixtures Client.

Lemma db_stored : stored_account db "acct".
Proof.
  intros id row Hrow. unfold db in Hrow. cbn [images] in Hrow.
  apply elem_of_list_to_map_2 in Hrow.
  repeat (apply elem_of_cons in Hrow as [Hrow|Hrow];
          [first [ discriminate Hrow
                 | injection Hrow as _ ->;
                   split; [reflexivity | split; [reflexivity | right; left; reflexivity]] ]
          |]).
  now apply not_elem_of_nil in Hrow.
Qed.

(** Five records by pages of two: two full pages, then the short one. *)
Example scan_by_two :
  option_map (map (map ID)) (scan 7 (listPage db "acct" 2 "asc" None) "")
  = Some [["img-d"; "img-a"]; ["img-b"; "img-c"]; ["img-e"]].
Proof. vm_compute. reflexivity. Qed.

(** Descending, through a filter: the three red records. *)
Example scan_red_descending :
  option_map (map (map ID)) (scan 7 (listPage db "acct" 2 "DESC" (Some color_red)) "")
  = Some [["img-e"; "img-c"]; ["img-a"]].
Proof. vm_compute. reflexivity. Qed.

(** A page size of zero makes the database call panic on the last index;
    the handler never passes it. *)
Example zero_page_size_panics : Database.ListImagesV2 db "acct" "" 0 "asc" = Panic.
Proof. reflexivity. Qed.


Lemma nextCursor_iff_full_page_witness :
  ("2024-03-01T10:00:00Z|img-a" <> "" <-> Z.of_nat (List.length [img_d; img_a]) = 2%Z)
  /\ ("" <> "" <-> Z.of_nat (List.length [img_e]) = 2%Z).
Proof.
  split.
  - apply (proj1 (nextCursor_iff_full_page db "acct" "" 2 "asc" "" "" "" [img_d; img_a]
                    "2024-03-01T10:00:00Z|img-a")).
    reflexivity.
  - apply (proj2 (nextCursor_iff_full_page db "acct" "2024-03-02T08:30:00Z|img-c" 2 "asc"
                    "color" "eq" "red" [img_e] "")).
    reflexivity.
Defined.


(** The two orders of the query map give two different pages. *)
Example filter_choice_changes_the_page :
  ids_of (ListImagesWithFilter db "acct" "" 2 "asc" "size" "eq" "large") = ["img-e"]
  /\ ids_of (ListImagesWithFilter db "acct" "" 2 "asc" "color" "eq" "red")
     = ["img-a"; "img-c"].
Proof. split; vm_compute; reflexivity. Qed.

Lemma DeleteSigningKey_leaves_a_key_witness :
  (exists key keys,
      ListSigningKeys
        (Handler.DeleteSigningKey handler_single_key (key_deletion "only")
           "7c9e6679-7425-40de-944b-e07fc1f90ae7" (time_Parse "2024-03-10T09:00:00Z")).2
        "acct"
      = Ok (key :: keys))
  /\ signing_keys
       (Handler.DeleteSigningKey handler_single_key (key_deletion "only")
          "7c9e6679-7425-40de-944b-e07fc1f90ae7" (time_Parse "2024-03-10T09:00:00Z")).2
       !! ("acct", "default")
     = Some {| value := "7c9e6679-7425-40de-944b-e07fc1f90ae7";
               created_at := "2024-03-10T09:00:00Z" |}.
Proof.
  destruct (DeleteSigningKey_leaves_a_key handler_single_key (key_deletion "only")
              "7c9e6679-7425-40de-944b-e07fc1f90ae7" (time_Parse "2024-03-10T09:00:00Z"))
    as [Hsome Hdefault].
  - reflexivity.
  - split; [exact Hsome|].
    apply Hdefault. intros name Hname.
    apply lookup_singleton_ne. intros [= E]. now apply Hname.
Defined.

End ListingWitnesses.

(** ** What the image writers leave in the store *)
Section StoredRows.
Context `{TimeLib} `{JsonLib}.
Import Model Database Client.

(** The two facts about the outside codecs the stored form rests on, for
    one image: its upload time prints, reads back and prints again to the
    same text, free of [|]; and its marshalled metadata decodes. *)
Lemma CreateImage_stored (s s' : SQLiteDB) (img : Image) (accountID : string) :
  stored_account s accountID ->
  time_FormatNano (time_Parse (time_Format (Uploaded img))) = time_Format (Uploaded img) ->
  GoStrings.IndexByte (time_Format (Uploaded img)) "|" = None ->
  (forall txt, json_Marshal (image_Meta img) = Ok txt ->
               exists m, json_Unmarshal txt = Ok m) ->
  CreateImage s img = Ok s' ->
  stored_account s' accountID.
Proof.
  intros Hs Ht Hbar Hj. unfold CreateImage.
  destruct (json_Marshal (image_Meta img)) as [txt| |] eqn:Em; try discriminate.
  destruct (images s !! (AccountID img, ID img)); [discriminate|].
  intros [= <-] id row. cbn [images].
  destruct (decide ((AccountID img, ID img) = (accountID, id))) as [E|E].
  - rewrite E, lookup_insert_eq. intros [= <-]. cbn.
    split; [exact Ht|]. split; [exact Hbar|]. right. right. now apply Hj.
  - rewrite lookup_insert_ne by exact E. apply Hs.
Qed.

Lemma UpdateImage_stored (s s' : SQLiteDB) (img : Image) (accountID : string) :
  stored_account s accountID ->
  (forall txt, json_Marshal (image_Meta img) = Ok txt ->
               exists m, json_Unmarshal txt = Ok m) ->
  UpdateImage s img = Ok s' ->
  stored_account s' accountID.
Proof.
  intros Hs Hj. unfold UpdateImage.
  destruct (json_Marshal (image_Meta img)) as [txt| |] eqn:Em; try discriminate.
  destruct (images s !! (AccountID img, ID img)) as [old|] eqn:Eo; [|discriminate].
  intros [= <-] id row. cbn [images].
  destruct (decide ((AccountID img, ID img) = (accountID, id))) as [E|E].
  - rewrite E, lookup_insert_eq. intros [= <-]. cbn.
    rewrite E in Eo. destruct (Hs _ _ Eo) as (Ht & Hbar & _).
    split; [exact Ht|]. split; [exact Hbar|]. right. right. now apply Hj.
  - rewrite lookup_insert_ne by exact E. apply Hs.
Qed.

Lemma DeleteImage_stored (s s' : SQLiteDB) (a i accountID : string) :
  stored_account s accountID ->
  DeleteImage s a i = Ok s' ->
  stored_account s' accountID.
Proof.
  intros Hs. unfold DeleteImage.
  destruct (images s !! (a, i)); [|discriminate].
  intros [= <-] id row. cbn [images].
  intros Hrow%lookup_delete_Some. destruct Hrow as [_ Hrow]. eapply Hs; eauto.
Qed.

End StoredRows.

(** *** The reference time codec prints what it reads *)
Section ReferenceCodec.
Import Reference.

Lemma append_nil_l (r : string) : "" +:+ r = r.
Proof. reflexivity. Qed.

Lemma append_cons (c : ascii) (u r : string) : String c u +:+ r = String c (u +:+ r).
Proof. reflexivity. Qed.

Lemma append_assoc (u v w : string) : (u +:+ v) +:+ w = u +:+ (v +:+ w).
Proof.
  induction u as [|c u IH]; [reflexivity|]. rewrite !append_cons. now rewrite IH.
Qed.

Lemma digit_of_digit_char (z : Z) :
  Strconv.digit_of (digit_char z) = Some (z mod 10)%Z
  /\ Ascii.eqb (digit_char z) "|" = false
  /\ Ascii.eqb (digit_char z) "0" = (z mod 10 =? 0)%Z.
Proof.
  unfold digit_char.
  assert (Hr : (0 <= z mod 10 < 10)%Z) by (apply Z.mod_pos_bound; lia).
  generalize dependent (z mod 10)%Z. intros r Hr.
  assert (Hc : (r = 0 \/ r = 1 \/ r = 2 \/ r = 3 \/ r = 4 \/ r = 5 \/ r = 6 \/ r = 7
                \/ r = 8 \/ r = 9)%Z) by lia.
  repeat (destruct Hc as [->|Hc]; [repeat split; reflexivity|]).
  subst r. repeat split; reflexivity.
Qed.

Lemma read_digits_app (n m : nat) (acc : Z) (s : string) :
  read_digits (n + m) acc s
  = match read_digits n acc s with
    | Some (v, s') => read_digits m v s'
    | None => None
    end.
Proof.
  revert acc s. induction n as [|n IH]; intros acc s; [reflexivity|].
  cbn [Nat.add read_digits]. destruct s as [|c r]; [reflexivity|].
  destruct (Strconv.digit_of c); [apply IH | reflexivity].
Qed.

(** Reading back the [n] digits of a number below [10^n]. *)
Lemma read_digits_digits (n : nat) (z acc : Z) (rest : string) :
  (0 <= z < 10 ^ Z.of_nat n)%Z ->
  read_digits n acc (digits n z +:+ rest) = Some (acc * 10 ^ Z.of_nat n + z, rest)%Z.
Proof.
  revert z acc rest. induction n as [|n IH]; intros z acc rest Hz.
  - cbn. f_equal. f_equal. cbn in Hz. lia.
  - replace (S n) with (n + 1)%nat at 1 by lia.
    cbn [digits]. rewrite append_assoc, append_cons, append_nil_l.
    rewrite read_digits_app, IH.
    2:{ rewrite Nat2Z.inj_succ, Z.pow_succ_r in Hz by lia.
        split; [apply Z.div_pos; lia | apply Z.div_lt_upper_bound; lia]. }
    cbn [read_digits]. rewrite (proj1 (digit_of_digit_char z)).
    f_equal. f_equal.
    rewrite Nat2Z.inj_succ, Z.pow_succ_r by lia.
    pose proof (Z.div_mod z 10 ltac:(lia)). lia.
Qed.

Lemma IndexByte_app_None (u v : string) (c : ascii) :
  GoStrings.IndexByte u c = None -> GoStrings.IndexByte v c = None ->
  GoStrings.IndexByte (u +:+ v) c = None.
Proof.
  intros Hu Hv. induction u as [|a u IH]; [exact Hv|].
  rewrite append_cons. cbn [GoStrings.IndexByte] in *.
  destruct (Ascii.eqb a c); [discriminate|].
  destruct (GoStrings.IndexByte u c); [discriminate|]. now rewrite IH.
Qed.

Lemma IndexByte_digits (n : nat) (z : Z) : GoStrings.IndexByte (digits n z) "|" = None.
Proof.
  revert z. induction n as [|n IH]; intros z; [reflexivity|].
  cbn [digits]. apply IndexByte_app_None; [apply IH|].
  cbn [GoStrings.IndexByte]. now rewrite (proj1 (proj2 (digit_of_digit_char z))).
Qed.

Lemma expect_head (c : ascii) (r : string) : expect c (String c r) = Some r.
Proof. cbn. now rewrite Ascii.eqb_refl. Qed.

(** For a valid UTC time, what [CreateImage] writes is a fixed point of
    read-then-print, and holds no [|]. *)
Lemma reference_stored_time (t : civil) :
  valid t = true ->
  format_nano (parse (format t)) = format t
  /\ GoStrings.IndexByte (format t) "|" = None.
Proof.
  intros Hv. split.
  - assert (Hb : valid t = true) by exact Hv.
    unfold valid in Hb. repeat (apply andb_true_iff in Hb as [Hb ?]).
    assert (Hp : parse (format t)
                 = {| year := year t; month := month t; day := day t; hour := hour t;
                      minute := minute t; second := second t; nsec := 0 |}).
    { unfold parse, format, clock.
      rewrite !append_assoc, !append_cons, !append_nil_l.
      rewrite read_digits_digits by (cbn; lia). cbn [mbind option_bind].
      rewrite expect_head. cbn [mbind option_bind].
      rewrite read_digits_digits
        by (cbn; unfold days_in in *; lia).
      cbn [mbind option_bind]. rewrite expect_head. cbn [mbind option_bind].
      rewrite read_digits_digits.
      2:{ cbn. split; [lia|].
          assert (Hd : (days_in (year t) (month t) <= 31)%Z); [|lia].
          unfold days_in. repeat destruct (_ =? _)%Z; cbn; try destruct (leap _); lia. }
      cbn [mbind option_bind]. rewrite expect_head. cbn [mbind option_bind].
      rewrite read_digits_digits by (cbn; lia).
      cbn [mbind option_bind]. rewrite expect_head. cbn [mbind option_bind].
      rewrite read_digits_digits by (cbn; lia).
      cbn [mbind option_bind]. rewrite expect_head. cbn [mbind option_bind].
      rewrite read_digits_digits by (cbn; lia).
      cbn [mbind option_bind].
      rewrite !Z.mul_0_l, !Z.add_0_l, String.eqb_refl. cbn [andb].
      replace (valid _) with true; [reflexivity|].
      symmetry. unfold valid. cbn [year month day hour minute second nsec].
      repeat (apply andb_true_iff; split); try assumption; reflexivity. }
    rewrite Hp. unfold format_nano, format, clock.
    cbn [year month day hour minute second nsec].
    assert (E : fraction 0%Z = "") by (vm_compute; reflexivity).
    now rewrite E, append_nil_l.
  - unfold format, clock. rewrite !append_assoc.
    repeat (apply IndexByte_app_None; [first [apply IndexByte_digits | reflexivity]|]).
    first [apply IndexByte_digits | reflexivity].
Qed.

End ReferenceCodec.

(** ** Checks of the embedding against published values *)
Section Checks.

(** FIPS 180-4, the one-block message [abc]. *)
Example sha256_abc :
  Hex.EncodeToString (Sha256.Sum256 (bytes_of "abc"))
  = "ba7816bf8f01cfea414140de5dae2223b00361a396177a9cb410ff61f20015ad".
Proof. vm_compute. reflexivity. Qed.

(** RFC 4231, test case 2. *)
Example hmac_sha256_rfc4231_2 :
  Hex.EncodeToString (Hmac.Sum (bytes_of "Jefe") (bytes_of "what do ya want for nothing?"))
  = "5bdcc146bf60754e6a042426089575c75a003f089d2739839dec58b964ec3843".
Proof. vm_compute. reflexivity. Qed.

(** RFC 4231, test case 6: a key longer than the block is hashed first. *)
Example hmac_sha256_rfc4231_6 :
  Hex.EncodeToString
    (Hmac.Sum (repeat xaa 131)
       (bytes_of "Test Using Larger Than Block-Size Key - Hash Key First"))
  = "60e431591ee0b67f0d8a26aacbf5b77f8e0bc6213728c5140546040f0ee37f54".
Proof. vm_compute. reflexivity. Qed.

Example ParseInt_bounds :
  Strconv.ParseInt "9223372036854775807" = inr 9223372036854775807%Z
  /\ Strconv.ParseInt "9223372036854775808" = inl Strconv.ErrRange
  /\ Strconv.ParseInt "-9223372036854775808" = inr (-9223372036854775808)%Z
  /\ Strconv.ParseInt "12a" = inl Strconv.ErrSyntax
  /\ Strconv.ParseInt "" = inl Strconv.ErrSyntax.
Proof. repeat split; vm_compute; reflexivity. Qed.

(** The page size the handler passes to the store lies in 1..100, so the
    store never sees the page size 0. *)
Lemma parsePerPage_range (r : Handler.Request) :
  (1 <= Handler.parsePerPage r <= 100)%Z.
Proof.
  unfold Handler.parsePerPage.
  destruct (String.eqb _ ""); [lia|].
  destruct (Strconv.Atoi _) as [e|pp]; [lia|].
  destruct (Z.gtb_spec pp 0); [|lia].
  destruct (Z.gtb_spec pp 100); lia.
Qed.

End Checks.

(** * Further properties of the code *)

(** ** What the transform can return *)
Section TransformFacts.
Context `{ImagingLib}.
Import Model Imageproc.

Lemma prefix_length (p s : string) :
  String.prefix p s = true -> (String.length p <= String.length s)%nat.
Proof.
  revert s. induction p as [|a p IH]; intros s; [cbn; lia|].
  destruct s as [|b s]; cbn [String.prefix String.length]; [discriminate|].
  destruct (Ascii.ascii_dec a b); [|discriminate].
  intros Hp. apply IH in Hp. lia.
Qed.

Lemma Contains_length (s sub : string) :
  GoStrings.Contains s sub = true -> (String.length sub <= String.length s)%nat.
Proof.
  induction s as [|a s IH]; cbn [GoStrings.Contains].
  - rewrite orb_false_r. apply prefix_length.
  - intros [Hp|Hc]%orb_true_iff.
    + now apply prefix_length in Hp.
    + apply IH in Hc. cbn [String.length]. lia.
Qed.

Lemma string_of_list_byte_length (l : list byte) :
  String.length (string_of_list_byte l) = List.length l.
Proof.
  unfold string_of_list_byte.
  induction l as [|b l IH]; cbn [List.map string_of_list_ascii String.length List.length];
    [reflexivity | now rewrite IH].
Qed.

(** Fewer than four bytes hold no svg marker. *)
Lemma IsSVG_short (data : list byte) : (List.length data < 4)%nat -> IsSVG data = false.
Proof.
  intros Hlen. unfold IsSVG. destruct (List.length data =? 0)%nat; [reflexivity|].
  rewrite Contains_or_and.
  destruct (GoStrings.Contains _ "<svg") eqn:E; [exfalso|reflexivity].
  apply Contains_length in E. rewrite string_of_list_byte_length in E.
  change (String.length "<svg") with 4%nat in E.
  destruct (List.length data <? 512)%nat; rewrite length_take in E; lia.
Qed.

(** The five answers of [DetectFormat]. *)
Lemma DetectFormat_cases (data : list byte) :
  DetectFormat data = "jpeg" \/ DetectFormat data = "png" \/ DetectFormat data = "gif"
  \/ DetectFormat data = "webp" \/ DetectFormat data = "".
Proof.
  unfold DetectFormat. repeat (destruct (_ && _); [tauto|]). tauto.
Qed.

(** Every way [Transform] succeeds. *)
Lemma Transform_Ok_inv (src : Reader) (opts : VariantOptions) (out : list byte)
      (format : string) :
  Transform src opts = Ok (out, format) ->
  exists data,
    src = Ok data
    /\ ((IsSVG data = true /\ format = "svg" /\ out = data)
        \/ (IsSVG data = false /\ DetectFormat data = "gif" /\ format = "gif" /\ out = data)
        \/ (IsSVG data = false /\ exists img,
              image_Decode data = Ok img
              /\ ((DetectFormat data = "jpeg" /\ format = "jpeg"
                   /\ jpeg_Encode (applyFit img opts) 85 = Ok out)
                  \/ (DetectFormat data = "png" /\ format = "png"
                      /\ png_Encode (applyFit img opts) = Ok out)))).
Proof.
  unfold Transform. destruct src as [data| |]; try discriminate.
  intros HT. exists data. split; [reflexivity|].
  destruct (IsSVG data); [injection HT as <- <-; tauto|].
  right.
  destruct (DetectFormat_cases data) as [E|[E|[E|[E|E]]]]; rewrite E in HT; cbn in HT.
  - right. split; [reflexivity|].
    destruct (image_Decode data) as [img| |]; try discriminate.
    exists img. split; [reflexivity|]. left.
    destruct (jpeg_Encode _ _) as [o| |] eqn:Eo; try discriminate.
    injection HT as <- <-. rewrite <- Eo. tauto.
  - right. split; [reflexivity|].
    destruct (image_Decode data) as [img| |]; try discriminate.
    exists img. split; [reflexivity|]. right.
    destruct (png_Encode _) as [o| |] eqn:Eo; try discriminate.
    injection HT as <- <-. rewrite <- Eo. tauto.
  - left. injection HT as <- <-. tauto.
  - destruct (image_Decode data); discriminate.
  - discriminate.
Qed.

(** X1.  Whenever [Transform] succeeds, the source was read in full and
    either it went through untouched, as SVG or as GIF, or it was
    recognised as JPEG or PNG, decoded, fitted and encoded back to the
    format it came in, JPEG at quality 85.  WebP and unknown input never
    succeed, and no output is ever labelled [webp]. *)
Theorem Transform_succeeds_only_as (src : Reader) (opts : VariantOptions)
        (out : list byte) (format : string) :
  Transform src opts = Ok (out, format) ->
  exists data,
    src = Ok data
    /\ ((IsSVG data = true /\ format = "svg" /\ out = data)
        \/ (IsSVG data = false /\ DetectFormat data = "gif" /\ format = "gif" /\ out = data)
        \/ (IsSVG data = false /\ exists img,
              image_Decode data = Ok img
              /\ ((DetectFormat data = "jpeg" /\ format = "jpeg"
                   /\ jpeg_Encode (applyFit img opts) 85 = Ok out)
                  \/ (DetectFormat data = "png" /\ format = "png"
                      /\ png_Encode (applyFit img opts) = Ok out)))).
Proof. apply Transform_Ok_inv. Qed.

(** X2.  Input of fewer than three bytes, the empty file included, is
    answered with the unsupported-format error whatever the options. *)
Theorem Transform_truncated_input (data : list byte) (opts : VariantOptions) :
  (List.length data < 3)%nat ->
  Transform (Ok data) opts = Err "unsupported or unrecognized image format".
Proof.
  intros Hlen. unfold Transform. rewrite IsSVG_short by lia.
  assert (E : DetectFormat data = "").
  { unfold DetectFormat.
    destruct (Nat.leb_spec 3 (List.length data)); [lia|].
    destruct (Nat.leb_spec 8 (List.length data)); [lia|].
    destruct (Nat.leb_spec 6 (List.length data)); [lia|].
    destruct (Nat.leb_spec 12 (List.length data)); [lia|]. reflexivity. }
  now rewrite E.
Qed.

End TransformFacts.

Lemma Transform_succeeds_only_as_witness :
  exists data,
    (Ok (bytes_of "GIF89a-frames") : Imageproc.Reader) = Ok data
    /\ ((Imageproc.IsSVG data = true /\ "gif" = "svg" /\ bytes_of "GIF89a-frames" = data)
        \/ (Imageproc.IsSVG data = false /\ Imageproc.DetectFormat data = "gif"
            /\ "gif" = "gif" /\ bytes_of "GIF89a-frames" = data)
        \/ (Imageproc.IsSVG data = false /\ exists img : @Img Reference.bounds_only,
              image_Decode data = Ok img
              /\ ((Imageproc.DetectFormat data = "jpeg" /\ "gif" = "jpeg"
                   /\ jpeg_Encode (Imageproc.applyFit img
                        {| Model.Fit := "cover"; Model.Width := 10; Model.Height := 20;
                           Model.Metadata := "none" |}) 85 = Ok (bytes_of "GIF89a-frames"))
                  \/ (Imageproc.DetectFormat data = "png" /\ "gif" = "png"
                      /\ png_Encode (Imageproc.applyFit img
                           {| Model.Fit := "cover"; Model.Width := 10; Model.Height := 20;
                              Model.Metadata := "none" |}) = Ok (bytes_of "GIF89a-frames"))))).
Proof.
  apply (Transform_succeeds_only_as (H := Reference.bounds_only)
           (Ok (bytes_of "GIF89a-frames"))
           {| Model.Fit := "cover"; Model.Width := 10; Model.Height := 20;
              Model.Metadata := "none" |}).
  reflexivity.
Defined.

Lemma Transform_truncated_input_witness :
  Imageproc.Transform (H := Reference.bounds_only) (Ok [xff; xd8])
    {| Model.Fit := "contain"; Model.Width := 10; Model.Height := 10;
       Model.Metadata := "none" |}
  = Err "unsupported or unrecognized image format".
Proof.
  apply (Transform_truncated_input (H := Reference.bounds_only)). simpl. lia.
Defined.

(** ** What the delivery endpoint answers *)
Section DeliveryFacts.
Context `{TimeLib} `{JsonLib} `{ImagingLib}.
Import Model Database Handler.

Lemma deliverBlob_200 (h : Handler) (accountID imageID : string) (variant : Variant) :
  StatusCode (deliverBlob h accountID imageID variant).2 = 200%Z ->
  exists data out format,
    Storage.Retrieve (Store h) accountID imageID = Ok data
    /\ Imageproc.Transform data (Options variant) = Ok (out, format)
    /\ ResponseBody (deliverBlob h accountID imageID variant).2
       = Bytes (formatToContentType format) out.
Proof.
  unfold deliverBlob.
  destruct (Storage.Retrieve _ _ _) as [rc| |]; cbn; try discriminate.
  destruct (Imageproc.Transform _ _) as [[out format]| |] eqn:Et; cbn; try discriminate.
  intros _. exists rc, out, format. repeat split. exact Et.
Qed.

Lemma DeliverImage_200 (h : Handler) (r : Request) (now : Z) :
  StatusCode (DeliverImage h r now).2 = 200%Z ->
  exists variant,
    GetVariant (DB h) (URLParam r "account_id") (URLParam r "variant_name") = Ok variant
    /\ (DeliverImage h r now).2
       = (deliverBlob h (URLParam r "account_id") (URLParam r "image_id") variant).2.
Proof.
  unfold DeliverImage.
  destruct (GetImage _ _ _) as [img| |]; cbn; try discriminate.
  destruct (GetVariant _ _ _) as [variant| |]; cbn; try discriminate.
  intros Hs. exists variant. split; [reflexivity|].
  destruct (_ && _ && _); [|reflexivity].
  destruct (negb _); cbn in *; [discriminate|].
  now destruct (deliverBlob _ _ _ _).
Qed.

(** X3.  A delivery answered 200 carries the bytes [Transform] made of
    the stored blob under the options of the named variant, with one of
    four content types: SVG, GIF, JPEG or PNG.  [image/webp] and
    [application/octet-stream] are never sent. *)
Theorem DeliverImage_content_types (h : Handler) (r : Request) (now : Z) :
  StatusCode (DeliverImage h r now).2 = 200%Z ->
  exists variant rc out format,
    GetVariant (DB h) (URLParam r "account_id") (URLParam r "variant_name") = Ok variant
    /\ Storage.Retrieve (Store h) (URLParam r "account_id") (URLParam r "image_id") = Ok rc
    /\ Imageproc.Transform rc (Options variant) = Ok (out, format)
    /\ ResponseBody (DeliverImage h r now).2 = Bytes (formatToContentType format) out
    /\ (formatToContentType format = "image/svg+xml"
        \/ formatToContentType format = "image/gif"
        \/ formatToContentType format = "image/jpeg"
        \/ formatToContentType format = "image/png").
Proof.
  intros Hs. destruct (DeliverImage_200 h r now Hs) as (variant & Hv & E).
  rewrite E in Hs |- *.
  destruct (deliverBlob_200 _ _ _ _ Hs) as (rc & out & format & Hr & Ht & Hb).
  exists variant, rc, out, format. repeat (split; [assumption|]).
  destruct (Transform_Ok_inv _ _ _ _ Ht)
    as (data & _ & [(_ & -> & _)|[(_ & _ & -> & _)|(_ & img & _ & [(_ & -> & _)|(_ & -> & _)])]]);
    cbn; tauto.
Qed.

(** X4.  A blob that [DetectFormat] takes for WebP, or does not
    recognise, and that holds no svg marker is never delivered: no
    request for it, signed or not, through any variant, is answered
    200. *)
Theorem DeliverImage_undeliverable (h : Handler) (r : Request) (now : Z)
        (data : list byte) :
  Storage.Retrieve (Store h) (URLParam r "account_id") (URLParam r "image_id")
  = Ok (Ok data) ->
  Imageproc.IsSVG data = false ->
  Imageproc.DetectFormat data = "webp" \/ Imageproc.DetectFormat data = "" ->
  StatusCode (DeliverImage h r now).2 <> 200%Z.
Proof.
  intros Hr Hsvg Hfmt Hs.
  destruct (DeliverImage_200 h r now Hs) as (variant & Hv & E). rewrite E in Hs.
  destruct (deliverBlob_200 _ _ _ _ Hs) as (rc & out & format & Hr' & Ht & _).
  rewrite Hr in Hr'. injection Hr' as <-.
  destruct (Transform_Ok_inv _ _ _ _ Ht) as (d & [= <-] & Hcases).
  destruct Hcases as [(Hs1 & _)|[(_ & Hg & _)|(_ & img & _ & [(Hj & _)|(Hp & _)])]];
    destruct Hfmt; congruence.
Qed.

End DeliveryFacts.

Section DeliveryWitnesses.
Import Model Database Handler Reference Fixtures.

Lemma DeliverImage_content_types_witness :
  exists variant rc out format,
    GetVariant db "acct" "public" = Ok variant
    /\ Storage.Retrieve store "acct" "img-a" = Ok rc
    /\ Imageproc.Transform rc (Options variant) = Ok (out, format)
    /\ ResponseBody (DeliverImage (handler true) (delivery "public" []) 1700000000).2
       = Bytes (formatToContentType format) out
    /\ (formatToContentType format = "image/svg+xml"
        \/ formatToContentType format = "image/gif"
        \/ formatToContentType format = "image/jpeg"
        \/ formatToContentType format = "image/png").
Proof.
  apply (DeliverImage_content_types (handler true) (delivery "public" []) 1700000000).
  reflexivity.
Defined.

Lemma DeliverImage_undeliverable_witness :
  Imageproc.DetectFormat webp_bytes = "webp"
  /\ StatusCode (DeliverImage handler_webp (delivery "thumb" []) 1700000000).2 <> 200%Z.
Proof.
  split; [reflexivity|].
  apply (DeliverImage_undeliverable handler_webp (delivery "thumb" []) 1700000000 webp_bytes).
  - reflexivity.
  - reflexivity.
  - left. reflexivity.
Defined.

End DeliveryWitnesses.

(** ** Image records in the store *)
Section ImageRecords.
Context `{TimeLib} `{JsonLib}.
Import Model Database Client.

Lemma boolToInt_nonzero (b : bool) : negb (boolToInt b =? 0)%Z = b.
Proof. now destruct b. Qed.

(** Counting the rows of an account after one row was deleted. *)
Lemma length_filter_delete {V} (P : (string * string) * V -> Prop)
      `{forall x, Decision (P x)} (m : gmap (string * string) V)
      (k : string * string) (v : V) :
  m !! k = Some v ->
  List.length (filter P (map_to_list m))
  = ((if decide (P (k, v)) then 1 else 0)
     + List.length (filter P (map_to_list (delete k m))))%nat.
Proof.
  intros Hk. rewrite <- (map_to_list_delete m k v Hk), filter_cons.
  now destruct (decide (P (k, v))).
Qed.

(** Counting the rows of an account after a row was inserted under a
    fresh key. *)
Lemma length_filter_insert {V} (P : (string * string) * V -> Prop)
      `{forall x, Decision (P x)} (m : gmap (string * string) V)
      (k : string * string) (v : V) :
  m !! k = None ->
  List.length (filter P (map_to_list (<[k := v]> m)))
  = ((if decide (P (k, v)) then 1 else 0)
     + List.length (filter P (map_to_list m)))%nat.
Proof.
  intros Hk. rewrite (map_to_list_insert m k v Hk), filter_cons.
  now destruct (decide (P (k, v))).
Qed.

(** X5.  An image that [CreateImage] stored reads back through
    [GetImage] with its id, account, filename, creator and signed-URL
    flag; its upload time is what the RFC 3339 text of the time parses
    to; its metadata is what the marshalled text decodes to, or none when
    that text is empty or [{}]; it has no variant URL, and it is never a
    draft, whatever the image handed in said.  The account counts one
    image more and every other record reads as before. *)
Theorem CreateImage_then_GetImage (s s' : SQLiteDB) (img : Image) (txt : string)
        (m : option Meta) :
  CreateImage s img = Ok s' ->
  json_Marshal (image_Meta img) = Ok txt ->
  json_Unmarshal txt = Ok m ->
  GetImage s' (AccountID img) (ID img)
  = Ok {| ID := ID img; AccountID := AccountID img; Filename := Filename img;
          Creator := Creator img;
          image_Meta := if String.eqb txt "" || String.eqb txt "{}" then None else m;
          RequireSignedURLs := RequireSignedURLs img;
          Uploaded := time_Parse (time_Format (Uploaded img));
          Variants := []; Draft := false |}
  /\ (exists n : nat,
        CountImages s (AccountID img) = Ok (Z.of_nat n)
        /\ CountImages s' (AccountID img) = Ok (Z.of_nat (S n)))
  /\ (forall a i, (a, i) <> (AccountID img, ID img) -> GetImage s' a i = GetImage s a i).
Proof.
  intros Hc Hm Hu. unfold CreateImage in Hc. rewrite Hm in Hc.
  destruct (images s !! (AccountID img, ID img)) eqn:Hfree; [discriminate|].
  injection Hc as <-. unfold GetImage, CountImages. cbn [images]. split; [|split].
  - rewrite lookup_insert_eq. unfold scanImage, image_of_row, row_id, row_account.
    cbn. rewrite boolToInt_nonzero.
    destruct (String.eqb txt ""); cbn; [reflexivity|].
    destruct (String.eqb txt "{}"); cbn; [reflexivity|].
    now rewrite Hu.
  - eexists. split; [reflexivity|].
    rewrite (length_filter_insert _ _ _ _ Hfree), decide_True; [reflexivity|].
    unfold row_account, text_eq. cbn. now rewrite String.eqb_refl.
  - intros a i Hne. now rewrite lookup_insert_ne by congruence.
Qed.

(** X6.  After [DeleteImage] succeeded the record is gone: [GetImage]
    fails on it, a second [DeleteImage] reports it missing, and the
    account counts one image less.  Every other record reads as before,
    and the rows of [image_metadata], those of the deleted image
    included, stay. *)
Theorem DeleteImage_removes_one (s s' : SQLiteDB) (accountID imageID : string) :
  DeleteImage s accountID imageID = Ok s' ->
  GetImage s' accountID imageID = Err "scan image: sql: no rows in result set"
  /\ DeleteImage s' accountID imageID = Err "image not found"
  /\ (exists n : nat,
        CountImages s accountID = Ok (Z.of_nat (S n))
        /\ CountImages s' accountID = Ok (Z.of_nat n))
  /\ (forall a i, (a, i) <> (accountID, imageID) -> GetImage s' a i = GetImage s a i)
  /\ image_metadata s' = image_metadata s.
Proof.
  unfold DeleteImage.
  destruct (images s !! (accountID, imageID)) as [row|] eqn:Hrow; [|discriminate].
  intros [= <-]. unfold GetImage, CountImages. cbn [images image_metadata].
  rewrite lookup_delete_eq. repeat split.
  - eexists. split; [|reflexivity].
    rewrite (length_filter_delete _ _ _ _ Hrow).
    rewrite decide_True; [reflexivity|].
    unfold row_account, text_eq. cbn. now rewrite String.eqb_refl.
  - intros a i Hne. now rewrite lookup_delete_ne by congruence.
Qed.

(** X7.  [UpdateImage] rewrites the filename, the metadata and the
    signed-URL flag of a stored image and nothing else: the record reads
    back with the upload time and the creator it was stored with,
    whatever the image handed in carries in these fields.  An image that
    is not stored is reported missing. *)
Theorem UpdateImage_keeps_upload_time (s : SQLiteDB) (img : Image) (txt : string)
        (m : option Meta) :
  json_Marshal (image_Meta img) = Ok txt ->
  json_Unmarshal txt = Ok m ->
  match images s !! (AccountID img, ID img) with
  | Some old =>
      exists s',
        UpdateImage s img = Ok s'
        /\ GetImage s' (AccountID img) (ID img)
           = Ok {| ID := ID img; AccountID := AccountID img; Filename := Filename img;
                   Creator := creator old;
                   image_Meta := if String.eqb txt "" || String.eqb txt "{}"
                                 then None else m;
                   RequireSignedURLs := RequireSignedURLs img;
                   Uploaded := time_Parse (uploaded old);
                   Variants := []; Draft := false |}
        /\ (forall a i, (a, i) <> (AccountID img, ID img) ->
                        GetImage s' a i = GetImage s a i)
  | None => UpdateImage s img = Err "image not found"
  end.
Proof.
  intros Hm Hu. unfold UpdateImage. rewrite Hm.
  destruct (images s !! (AccountID img, ID img)) as [old|]; [|reflexivity].
  eexists. split; [reflexivity|]. unfold GetImage. cbn [images]. split.
  - rewrite lookup_insert_eq. unfold scanImage, image_of_row, row_id, row_account.
    cbn. rewrite boolToInt_nonzero.
    destruct (String.eqb txt ""); cbn; [reflexivity|].
    destruct (String.eqb txt "{}"); cbn; [reflexivity|].
    now rewrite Hu.
  - intros a i Hne. now rewrite lookup_insert_ne by congruence.
Qed.

Lemma scanImage_Ok_ID (r : Row) (img : Image) :
  scanImage r = Ok img -> ID img = row_id r /\ AccountID img = row_account r.
Proof.
  unfold scanImage. destruct (negb _ && negb _).
  - destruct (json_Unmarshal _); try discriminate. now intros [= <-].
  - now intros [= <-].
Qed.

Lemma scanImages_Forall2 (rows : list Row) (imgs : list Image) :
  scanImages rows = Ok imgs -> Forall2 (fun r img => scanImage r = Ok img) rows imgs.
Proof.
  revert imgs. induction rows as [|r rows IH]; intros imgs; cbn [scanImages].
  - intros [= <-]. constructor.
  - destruct (scanImage r) as [img| |] eqn:Er; try discriminate.
    destruct (scanImages rows) as [rest| |]; try discriminate.
    intros [= <-]. constructor; [exact Er | now apply IH].
Qed.

Lemma page_of_rows_scanned (rows : list Row) (perPage : Z) (imgs : list Image)
      (c : string) :
  page_of_rows rows perPage = Ok (imgs, c) -> scanImages rows = Ok imgs.
Proof.
  unfold page_of_rows. destruct (scanImages rows) as [l| |]; try discriminate.
  destruct (_ =? _)%Z; [destruct (last l); [|discriminate]|]; now intros [= <- _].
Qed.

(** The rows behind a page of [listPage]. *)
Lemma listPage_rows (s : SQLiteDB) (accountID : string) (perPage : Z)
      (sortOrder : string) (f : option Handler.metadataFilter) (cursor : string)
      (imgs : list Image) (c : string) :
  listPage s accountID perPage sortOrder f cursor = Ok (imgs, c) ->
  exists w : Row -> bool,
    (forall r, w r = true -> listed s accountID f r = true)
    /\ scanImages (select_images s w (direction sortOrder) perPage) = Ok imgs.
Proof.
  unfold listPage, Database.ListImagesV2, Database.ListImagesWithFilter.
  fold (direction sortOrder).
  destruct f as [flt|]; (destruct (String.eqb cursor "");
    [|destruct (GoStrings.SplitN2 cursor "|") as [|cu [|ci [|x l]]]; try discriminate]);
    intros Hp%page_of_rows_scanned; eexists; (split; [|exact Hp]);
    intros r; unfold listed, matches; cbn;
    rewrite ?andb_true_iff, ?andb_true_r; tauto.
Qed.

Lemma select_images_elem (s : SQLiteDB) (w : Row -> bool) (o : Order) (n : Z) (r : Row) :
  r ∈ select_images s w o n -> w r = true /\ images s !! r.1 = Some r.2.
Proof.
  intros Hr. apply (ordered_images_elem s o w r).
  eapply elem_of_sublist; [exact Hr | apply sql_limit_sublist].
Qed.

(** Each image of a page is the scan of a stored row of the account that
    passes the filter. *)
Lemma listPage_elem (s : SQLiteDB) (accountID : string) (perPage : Z)
      (sortOrder : string) (f : option Handler.metadataFilter) (cursor : string)
      (imgs : list Image) (c : string) (img : Image) :
  listPage s accountID perPage sortOrder f cursor = Ok (imgs, c) ->
  img ∈ imgs ->
  exists row,
    images s !! (accountID, ID img) = Some row
    /\ scanImage ((accountID, ID img), row) = Ok img
    /\ matches s f ((accountID, ID img), row) = true.
Proof.
  intros (w & Hw & Hscan)%listPage_rows Himg.
  apply scanImages_Forall2 in Hscan.
  apply list_elem_of_lookup in Himg as [j Hj].
  destruct (Forall2_lookup_r _ _ _ _ _ Hscan Hj) as (r & Hr & Hs).
  apply list_elem_of_lookup_2, select_images_elem in Hr as [Hwr Hrow].
  apply Hw in Hwr. unfold listed in Hwr.
  apply andb_true_iff in Hwr as [Ha Hf]. apply String.eqb_eq in Ha.
  destruct (scanImage_Ok_ID _ _ Hs) as [Ei _].
  destruct r as [[a i] row]. unfold row_account, row_id in *. cbn in *. subst a i.
  exists row. auto.
Qed.

(** X8.  Every image on a page of the V2 listing, filtered or not, is a
    stored image of the account the listing was asked for, exactly as
    [GetImage] returns it; under a filter its metadata row for the key
    satisfies the comparison.  No image is on the page twice, and a page
    asked with a non-negative size holds at most that many images. *)
Theorem listing_page_is_sound (s : SQLiteDB) (accountID : string) (perPage : Z)
        (sortOrder : string) (f : option Handler.metadataFilter) (cursor : string)
        (imgs : list Image) (c : string) :
  listPage s accountID perPage sortOrder f cursor = Ok (imgs, c) ->
  (forall img, img ∈ imgs ->
     AccountID img = accountID
     /\ GetImage s accountID (ID img) = Ok img
     /\ match f with
        | Some flt =>
            exists v, image_metadata s !! (accountID, ID img, Handler.Key flt) = Some v
                      /\ opSQL (Handler.Op flt) v (Handler.filter_Value flt) = true
        | None => True
        end)
  /\ NoDup (ID <$> imgs)
  /\ ((0 <= perPage)%Z -> (Z.of_nat (List.length imgs) <= perPage)%Z).
Proof.
  intros Hp. split; [|split].
  - intros img Himg.
    destruct (listPage_elem _ _ _ _ _ _ _ _ _ Hp Himg) as (row & Hrow & Hs & Hm).
    split; [now apply scanImage_Ok_ID in Hs|]. split.
    + unfold GetImage. now rewrite Hrow.
    + destruct f as [flt|]; [|exact I]. unfold matches, joins_metadata in Hm.
      unfold row_account, row_id in Hm. cbn in Hm.
      destruct (image_metadata s !! _) as [v|]; [eauto | discriminate].
  - destruct (listPage_rows _ _ _ _ _ _ _ _ Hp) as (w & Hw & Hscan).
    apply scanImages_Forall2 in Hscan.
    set (rows := select_images s w (direction sortOrder) perPage) in *.
    assert (Hids : ID <$> imgs = row_id <$> rows).
    { clearbody rows. clear Hp Hw. induction Hscan as [|r img rows imgs Hs _ IH];
        [reflexivity|]. cbn. rewrite IH. f_equal. now apply scanImage_Ok_ID in Hs. }
    rewrite Hids.
    assert (Hnd : NoDup rows.*1).
    { eapply sublist_NoDup; [apply (ordered_images_NoDup_keys s (direction sortOrder) w)|].
      apply fmap_sublist, sql_limit_sublist. }
    assert (Hacc : forall r, r ∈ rows -> r.1 = (accountID, row_id r)).
    { intros r [Hwr _]%select_images_elem. apply Hw in Hwr.
      apply andb_true_iff in Hwr as [Ha _]. apply String.eqb_eq in Ha.
      destruct r as [[a i] row]. unfold row_account, row_id in *. cbn in *. now subst. }
    clearbody rows. clear -Hnd Hacc.
    induction rows as [|r rows IH]; [constructor|].
    cbn in *. apply NoDup_cons in Hnd as [Hr Hnd]. apply NoDup_cons. split.
    + intros (r' & E & Hr')%list_elem_of_fmap. apply Hr.
      apply list_elem_of_fmap. exists r'. split; [|exact Hr'].
      rewrite (Hacc r) by apply list_elem_of_here.
      rewrite (Hacc r') by now apply list_elem_of_further. now rewrite E.
    + apply IH; [exact Hnd|]. intros r' Hr'. apply Hacc. now apply list_elem_of_further.
  - intros Hpos.
    destruct (listPage_rows _ _ _ _ _ _ _ _ Hp) as (w & _ & Hscan).
    apply scanImages_Forall2, Forall2_length in Hscan. rewrite <- Hscan.
    unfold select_images, sql_limit.
    destruct (Z.ltb_spec perPage 0); [lia|]. rewrite length_take. lia.
Qed.

(** X9.  An image that [DeleteImage] removed is on no page of the V2
    listing of its account any more, under any filter, cursor, page size
    or direction. *)
Theorem deleted_image_is_not_listed (s s' : SQLiteDB) (accountID imageID : string)
        (perPage : Z) (sortOrder : string) (f : option Handler.metadataFilter)
        (cursor : string) (imgs : list Image) (c : string) :
  DeleteImage s accountID imageID = Ok s' ->
  listPage s' accountID perPage sortOrder f cursor = Ok (imgs, c) ->
  imageID ∉ ID <$> imgs.
Proof.
  unfold DeleteImage.
  destruct (images s !! (accountID, imageID)); [|discriminate].
  intros [= <-] Hp (img & -> & Himg)%list_elem_of_fmap.
  destruct (listPage_elem _ _ _ _ _ _ _ _ _ Hp Himg) as (row & Hrow & _).
  cbn [images] in Hrow. now rewrite lookup_delete_eq in Hrow.
Qed.

End ImageRecords.

(** ** Variants *)
Section VariantFacts.
Import Model Database.

Lemma variant_rows_elem (s : SQLiteDB) (accountID : string)
      (x : (string * string) * VariantRow) :
  x ∈ merge_sort (fun x y : (string * string) * VariantRow =>
                    Is_true (negb (text_gt x.1.2 y.1.2)))
        (filter (fun r : (string * string) * VariantRow => Is_true (text_eq r.1.1 accountID))
                (map_to_list (variants s)))
  <-> x.1.1 = accountID /\ variants s !! x.1 = Some x.2.
Proof.
  rewrite merge_sort_Permutation, list_elem_of_filter.
  destruct x as [k v]. rewrite elem_of_map_to_list. simpl.
  unfold text_eq. rewrite Is_true_true, String.eqb_eq. reflexivity.
Qed.

Lemma variant_of_row (v : Variant) :
  {| variant_ID := variant_ID v;
     variant_AccountID := variant_AccountID v;
     Options := {| Fit := fit (row_of_variant v); Width := width (row_of_variant v);
                   Height := height (row_of_variant v);
                   Metadata := metadata (row_of_variant v) |};
     NeverRequireSignedURLs := negb (never_require_signed_urls (row_of_variant v) =? 0)%Z |}
  = v.
Proof. destruct v as [i a [f w hh md] [|]]; reflexivity. Qed.

(** X10.  A variant that [CreateVariant] stored reads back through
    [GetVariant] exactly as it was handed in, the account counts one
    variant more and every other variant reads as before; creating it
    again fails and names the UNIQUE constraint. *)
Theorem CreateVariant_then_GetVariant (s s' : SQLiteDB) (v : Variant) :
  CreateVariant s v = Ok s' ->
  GetVariant s' (variant_AccountID v) (variant_ID v) = Ok v
  /\ (exists n : nat,
        CountVariants s (variant_AccountID v) = Ok (Z.of_nat n)
        /\ CountVariants s' (variant_AccountID v) = Ok (Z.of_nat (S n)))
  /\ (forall a i, (a, i) <> (variant_AccountID v, variant_ID v) ->
                  GetVariant s' a i = GetVariant s a i)
  /\ (exists e, CreateVariant s' v = Err e /\ GoStrings.Contains e "UNIQUE" = true).
Proof.
  unfold CreateVariant.
  destruct (variants s !! (variant_AccountID v, variant_ID v)) eqn:Hfree; [discriminate|].
  intros [= <-]. unfold GetVariant, CountVariants. cbn [variants].
  rewrite lookup_insert_eq. repeat split.
  - now rewrite variant_of_row.
  - eexists. split; [reflexivity|].
    rewrite (length_filter_insert _ _ _ _ Hfree), decide_True; [reflexivity|].
    unfold text_eq. cbn. now rewrite String.eqb_refl.
  - intros a i Hne. now rewrite lookup_insert_ne by congruence.
  - eexists. split; reflexivity.
Qed.

End VariantFacts.

Section VariantHandlers.
Import Model Database Handler.

Lemma CountVariants_total (s : SQLiteDB) (accountID : string) :
  exists n : nat, CountVariants s accountID = Ok (Z.of_nat n).
Proof. unfold CountVariants. eauto. Qed.

(** What [CreateVariant] leaves in the store: the store it found, or
    that store with one fresh row for the account of the request, and
    then only if the account was below the limit. *)
Lemma CreateVariant_store (h : Handler) (r : Request)
      (body : result Variants.createVariantRequest) :
  (Variants.CreateVariant h r body).2 = DB h
  \/ exists req n,
       body = Ok req
       /\ Variants.validFitModes (Fit (Variants.create_Options req)) = true
       /\ CountVariants (DB h) (ContextAccountID r) = Ok n /\ (n < 100)%Z
       /\ variants (DB h) !! (ContextAccountID r, Variants.create_ID req) = None
       /\ (Variants.CreateVariant h r body).2
          = {| images := images (DB h);
               variants :=
                 <[(ContextAccountID r, Variants.create_ID req) :=
                     row_of_variant
                       {| variant_ID := Variants.create_ID req;
                          variant_AccountID := ContextAccountID r;
                          Options := Variants.create_Options req;
                          NeverRequireSignedURLs :=
                            Variants.create_NeverRequireSignedURLs req |}]>
                   (variants (DB h));
               signing_keys := signing_keys (DB h);
               image_metadata := image_metadata (DB h) |}.
Proof.
  unfold Variants.CreateVariant.
  destruct (CountVariants_total (DB h) (ContextAccountID r)) as [n Hn]. rewrite Hn.
  destruct body as [req| |]; cbn [snd]; auto.
  destruct (String.eqb _ ""); cbn [snd]; auto.
  destruct (Variants.validFitModes _) eqn:Hfit; cbn [negb snd]; auto.
  destruct (Z.geb_spec (Z.of_nat n) Variants.maxVariantsPerAccount) as [Hge|Hlt];
    cbn [snd]; auto.
  unfold CreateVariant. cbn [variant_AccountID variant_ID].
  destruct (variants (DB h) !! _) eqn:Hfree.
  - destruct (_ || _); cbn [snd]; auto.
  - cbn [snd]. right. exists req, (Z.of_nat n).
    unfold Variants.maxVariantsPerAccount in Hlt. repeat split; auto.
Qed.

(** X11.  [CreateVariant] never takes an account past the limit: an
    account that holds at most 100 variants holds at most 100 after the
    request, whatever the request is and whoever sends it. *)
Theorem CreateVariant_keeps_limit (h : Handler) (r : Request)
        (body : result Variants.createVariantRequest) (accountID : string) (n : Z) :
  CountVariants (DB h) accountID = Ok n -> (n <= 100)%Z ->
  exists n', CountVariants (Variants.CreateVariant h r body).2 accountID = Ok n'
             /\ (n' <= 100)%Z.
Proof.
  intros Hn Hle.
  destruct (CreateVariant_store h r body)
    as [->|(req & c & _ & _ & Hc & Hlt & Hfree & ->)]; [eauto|].
  unfold CountVariants in *. cbn [variants]. eexists. split; [reflexivity|].
  rewrite (length_filter_insert _ _ _ _ Hfree).
  injection Hn as Hn. injection Hc as Hc.
  destruct (decide _) as [Ha|_]; [|lia].
  unfold text_eq in Ha. cbn in Ha. apply Is_true_true, String.eqb_eq in Ha.
  rewrite Ha in Hc. lia.
Qed.

Lemma GetVariant_Ok_row (s : SQLiteDB) (a i : string) (v : Variant) :
  GetVariant s a i = Ok v ->
  exists row, variants s !! (a, i) = Some row
              /\ variant_ID v = i /\ variant_AccountID v = a
              /\ Fit (Options v) = fit row /\ Width (Options v) = width row
              /\ Height (Options v) = height row /\ Metadata (Options v) = metadata row
              /\ NeverRequireSignedURLs v = negb (never_require_signed_urls row =? 0)%Z.
Proof.
  unfold GetVariant. destruct (variants s !! (a, i)) as [row|]; [|discriminate].
  intros [= <-]. exists row. cbn. repeat split.
Qed.

(** What [UpdateVariant] leaves in the store and answers, when it
    answers 200. *)
Lemma UpdateVariant_200 (h : Handler) (r : Request)
      (body : result Variants.updateVariantRequest) :
  Api.Status (Variants.UpdateVariant h r body).1 = 200%Z ->
  exists existing req updated,
    GetVariant (DB h) (ContextAccountID r) (URLParam r "variant_id") = Ok existing
    /\ body = Ok req
    /\ updated
       = {| variant_ID := URLParam r "variant_id";
            variant_AccountID := ContextAccountID r;
            Options := match Variants.update_Options req with
                       | Some o => Variants.merge_options (Options existing) o
                       | None => Options existing
                       end;
            NeverRequireSignedURLs :=
              match Variants.update_NeverRequireSignedURLs req with
              | Some b => b
              | None => NeverRequireSignedURLs existing
              end |}
    /\ match Variants.update_Options req with
       | Some o => Fit o = "" \/ Variants.validFitModes (Fit o) = true
       | None => True
       end
    /\ Variants.UpdateVariant h r body
       = (Api.WriteJSON 200 (Api.SuccessResponse updated),
          {| images := images (DB h);
             variants := <[(ContextAccountID r, URLParam r "variant_id")
                           := row_of_variant updated]> (variants (DB h));
             signing_keys := signing_keys (DB h);
             image_metadata := image_metadata (DB h) |}).
Proof.
  unfold Variants.UpdateVariant.
  destruct (GetVariant _ _ _) as [existing| |] eqn:Hg; cbn; try discriminate.
  destruct (GetVariant_Ok_row _ _ _ _ Hg) as (row & Hrow & Ei & Ea & _).
  destruct body as [req| |]; cbn; try discriminate.
  destruct (match Variants.update_Options req with Some _ => _ | None => _ end) eqn:Hbad;
    cbn; [discriminate|].
  unfold UpdateVariant. cbn [variant_AccountID variant_ID]. rewrite Ei, Ea, Hrow. cbn.
  intros _. exists existing, req. eexists. split; [reflexivity|]. split; [reflexivity|].
  split; [reflexivity|]. split; [|reflexivity].
  destruct (Variants.update_Options req) as [o|]; [|exact I].
  destruct (String.eqb_spec (Fit o) ""); [now left | right].
  cbn in Hbad. now apply negb_false_iff in Hbad.
Qed.

Lemma merge_options_fit (existing o : VariantOptions) :
  Fit o = "" \/ Variants.validFitModes (Fit o) = true ->
  Variants.validFitModes (Fit existing) = true ->
  Variants.validFitModes (Fit (Variants.merge_options existing o)) = true.
Proof.
  intros Ho He. unfold Variants.merge_options. cbn.
  destruct (String.eqb_spec (Fit o) "") as [E|E]; cbn; [exact He|].
  destruct Ho; [contradiction | assumption].
Qed.

(** X12.  The fit mode of every stored variant is one of the five
    recognised modes, and the variant handlers keep it so: after
    [CreateVariant], [UpdateVariant] or [DeleteVariant], whatever the
    request and its answer. *)
Theorem variant_handlers_keep_fits_valid (h : Handler) (r : Request)
        (created : result Variants.createVariantRequest)
        (updated : result Variants.updateVariantRequest) :
  Variants.valid_fits (DB h) ->
  Variants.valid_fits (Variants.CreateVariant h r created).2
  /\ Variants.valid_fits (Variants.UpdateVariant h r updated).2
  /\ Variants.valid_fits (Variants.DeleteVariant h r).2.
Proof.
  intros Hv. split; [|split].
  - destruct (CreateVariant_store h r created)
      as [->|(req & c & _ & Hfit & _ & _ & _ & ->)]; [exact Hv|].
    intros k row. cbn [variants].
    destruct (decide ((ContextAccountID r, Variants.create_ID req) = k)) as [<-|Hne].
    + rewrite lookup_insert_eq. now intros [= <-].
    + rewrite lookup_insert_ne by exact Hne. apply Hv.
  - destruct (Z.eq_dec (Api.Status (Variants.UpdateVariant h r updated).1) 200%Z) as [E|E].
    + destruct (UpdateVariant_200 h r updated E)
        as (existing & req & upd & Hg & _ & -> & Hok & ->).
      destruct (GetVariant_Ok_row _ _ _ _ Hg) as (row0 & Hrow0 & _ & _ & Hf & _).
      pose proof (Hv _ _ Hrow0) as Hf0. rewrite <- Hf in Hf0.
      intros k row. cbn [snd variants].
      destruct (decide ((ContextAccountID r, URLParam r "variant_id") = k)) as [<-|Hne].
      * rewrite lookup_insert_eq. intros [= <-]. cbn.
        destruct (Variants.update_Options req) as [o|]; [|exact Hf0].
        now apply merge_options_fit.
      * rewrite lookup_insert_ne by exact Hne. apply Hv.
    + replace (Variants.UpdateVariant h r updated).2 with (DB h); [exact Hv|].
      revert E. unfold Variants.UpdateVariant.
      destruct (GetVariant _ _ _) as [existing| |]; cbn; try reflexivity.
      destruct updated as [req| |]; cbn; try reflexivity.
      destruct (match Variants.update_Options req with Some _ => _ | None => _ end);
        cbn; [reflexivity|].
      destruct (UpdateVariant _ _); cbn; [congruence | reflexivity | reflexivity].
  - unfold Variants.DeleteVariant, DeleteVariant.
    destruct (variants (DB h) !! _); cbn; [|exact Hv].
    intros k row. cbn [variants]. intros Hrow%lookup_delete_Some. eapply Hv, Hrow.
Qed.

(** X13.  A PATCH that is answered 200 changes the variant of the
    request and no other, and answers with the variant as it is stored
    from then on.  Options the body leaves out, or gives as their zero
    value, keep the stored value: a width or a height that is set cannot
    be reset to 0, nor a fit or metadata mode to the empty string, and a
    body without options or without the signed-URL flag leaves them as
    they were. *)
Theorem UpdateVariant_keeps_what_is_omitted (h : Handler) (r : Request)
        (body : result Variants.updateVariantRequest) :
  Api.Status (Variants.UpdateVariant h r body).1 = 200%Z ->
  exists existing req updated,
    GetVariant (DB h) (ContextAccountID r) (URLParam r "variant_id") = Ok existing
    /\ body = Ok req
    /\ (Variants.UpdateVariant h r body).1 = Api.WriteJSON 200 (Api.SuccessResponse updated)
    /\ GetVariant (Variants.UpdateVariant h r body).2 (ContextAccountID r)
         (URLParam r "variant_id") = Ok updated
    /\ (forall a i, (a, i) <> (ContextAccountID r, URLParam r "variant_id") ->
          GetVariant (Variants.UpdateVariant h r body).2 a i = GetVariant (DB h) a i)
    /\ (Width (Options existing) <> 0%Z -> Width (Options updated) <> 0%Z)
    /\ (Height (Options existing) <> 0%Z -> Height (Options updated) <> 0%Z)
    /\ (Fit (Options existing) <> "" -> Fit (Options updated) <> "")
    /\ (Metadata (Options existing) <> "" -> Metadata (Options updated) <> "")
    /\ (Variants.update_Options req = None -> Options updated = Options existing)
    /\ (Variants.update_NeverRequireSignedURLs req = None ->
        NeverRequireSignedURLs updated = NeverRequireSignedURLs existing).
Proof.
  intros E.
  destruct (UpdateVariant_200 h r body E) as (existing & req & upd & Hg & Hb & Hu & _ & HU).
  exists existing, req, upd. rewrite HU. cbn [fst snd].
  split; [exact Hg|]. split; [exact Hb|]. split; [reflexivity|].
  split; [|split].
  - unfold GetVariant. cbn [variants]. rewrite lookup_insert_eq.
    assert (Ei : variant_ID upd = URLParam r "variant_id") by now rewrite Hu.
    assert (Ea : variant_AccountID upd = ContextAccountID r) by now rewrite Hu.
    rewrite <- Ei, <- Ea. f_equal. apply variant_of_row.
  - intros a i Hne. unfold GetVariant. cbn [variants].
    now rewrite lookup_insert_ne by congruence.
  - rewrite Hu. cbn. unfold Variants.merge_options.
    destruct (Variants.update_Options req) as [o|]; cbn.
    + repeat split; try discriminate.
      * destruct (Z.eqb_spec (Width o) 0); cbn; auto.
      * destruct (Z.eqb_spec (Height o) 0); cbn; auto.
      * destruct (String.eqb_spec (Fit o) ""); cbn; auto.
      * destruct (String.eqb_spec (Metadata o) ""); cbn; auto.
      * now destruct (Variants.update_NeverRequireSignedURLs req).
    + repeat split; auto.
      now destruct (Variants.update_NeverRequireSignedURLs req).
Qed.

(** The map [ListVariants] builds from a list of variants with distinct
    ids. *)
Lemma variantMap_lookup (l : list Variant) (m0 : gmap string Variant) (id : string)
      (v : Variant) :
  NoDup (variant_ID <$> l) ->
  foldl (fun (m : gmap string Variant) v => <[variant_ID v := v]> m) m0 l !! id = Some v
  <-> (v ∈ l /\ variant_ID v = id) \/ ((id ∉ variant_ID <$> l) /\ m0 !! id = Some v).
Proof.
  revert m0. induction l as [|x l IH]; intros m0 Hnd; cbn [foldl fmap list_fmap].
  - split; [intros Hm; right; split; [apply not_elem_of_nil | exact Hm]|].
    intros [[Hin _]|[_ Hm]]; [now apply not_elem_of_nil in Hin | exact Hm].
  - apply NoDup_cons in Hnd as [Hx Hnd]. rewrite (IH _ Hnd). split.
    + intros [[Hin E]|[Hni Hm]].
      * left. split; [now apply list_elem_of_further | exact E].
      * destruct (decide (variant_ID x = id)) as [E|E].
        -- rewrite E, lookup_insert_eq in Hm. injection Hm as <-.
           left. split; [apply list_elem_of_here | exact E].
        -- rewrite lookup_insert_ne in Hm by exact E. right. split; [|exact Hm].
           intros [Hid|Hid]%elem_of_cons; [congruence | contradiction].
    + intros [[[->|Hin]%elem_of_cons E]|[Hni Hm]].
      * right. split; [now rewrite <- E | now rewrite E, lookup_insert_eq].
      * left. auto.
      * apply not_elem_of_cons in Hni as [Hne Hni]. right. split; [exact Hni|].
        now rewrite lookup_insert_ne by congruence.
Qed.

Lemma ListVariants_elem (s : SQLiteDB) (accountID : string) (v : Variant) :
  (exists l, ListVariants s accountID = Ok l /\ v ∈ l)
  <-> GetVariant s accountID (variant_ID v) = Ok v.
Proof.
  unfold ListVariants, GetVariant. split.
  - intros (l & [= <-] & Hin). apply list_elem_of_fmap in Hin as (x & -> & Hx).
    apply variant_rows_elem in Hx as [Ha Hx]. destruct x as [[a i] row]. cbn in *.
    subst a. now rewrite Hx.
  - destruct (variants s !! (accountID, variant_ID v)) as [row|] eqn:Hrow; [|discriminate].
    intros [= Hv]. eexists. split; [reflexivity|].
    apply list_elem_of_fmap. exists ((accountID, variant_ID v), row). split.
    + now rewrite <- Hv at 1.
    + apply variant_rows_elem. now split.
Qed.

Lemma ListVariants_NoDup (s : SQLiteDB) (accountID : string) (l : list Variant) :
  ListVariants s accountID = Ok l -> NoDup (variant_ID <$> l).
Proof.
  unfold ListVariants. intros [= <-]. rewrite <- list_fmap_compose.
  apply NoDup_fmap_2_strong.
  - intros x y [Hax Hx]%variant_rows_elem [Hay Hy]%variant_rows_elem. cbn.
    destruct x as [[a i] rx], y as [[b j] ry]. cbn in *. intros <-. subst a b.
    rewrite Hx in Hy. now injection Hy as <-.
  - rewrite merge_sort_Permutation. apply NoDup_filter, NoDup_map_to_list.
Qed.

(** X14.  [ListVariants] always answers 200, with a map that holds under
    each id exactly the variant [GetVariant] returns for that id in the
    account of the request, and nothing under any other id. *)
Theorem ListVariants_agrees_with_GetVariant (h : Handler) (r : Request) :
  exists m,
    Variants.ListVariants h r = Api.WriteJSON 200 (Api.SuccessResponse m)
    /\ forall id v,
         m !! id = Some v <-> GetVariant (DB h) (ContextAccountID r) id = Ok v.
Proof.
  unfold Variants.ListVariants.
  destruct (ListVariants (DB h) (ContextAccountID r)) as [l| |] eqn:Hl;
    try (unfold ListVariants in Hl; discriminate).
  eexists. split; [reflexivity|]. intros id v.
  rewrite (variantMap_lookup l ∅ id v (ListVariants_NoDup _ _ _ Hl)). split.
  - intros [[Hin <-]|[_ Hm]]; [|now rewrite lookup_empty in Hm].
    apply ListVariants_elem. eauto.
  - intros Hg. left.
    assert (E : variant_ID v = id) by (now destruct (GetVariant_Ok_row _ _ _ _ Hg) as (? & ? & ? & ?)).
    split; [|exact E]. rewrite <- E in Hg.
    apply ListVariants_elem in Hg as (l' & Hl' & Hin). rewrite Hl in Hl'. now injection Hl' as <-.
Qed.

Lemma TrimRight_slash_app (b : string) :
  GoStrings.TrimRight_slash (b +:+ "/") = GoStrings.TrimRight_slash b.
Proof.
  induction b as [|a b IH]; [reflexivity|].
  rewrite append_cons. cbn [GoStrings.TrimRight_slash]. now rewrite IH.
Qed.

(** X15.  The variant URLs of an image: one per variant of the account,
    and the same whether or not the configured base URL ends in a
    slash. *)
Theorem buildVariantURLs_ignores_trailing_slash (h : Handler) (accountID imageID : string)
        (base : string) (n : Z) :
  Config.BaseURL (Config h) = base +:+ "/" ->
  CountVariants (DB h) accountID = Ok n ->
  Z.of_nat (List.length (buildVariantURLs h accountID imageID)) = n
  /\ buildVariantURLs h accountID imageID
     = buildVariantURLs
         {| DB := DB h; Store := Store h;
            Config := {| Config.ListenAddr := Config.ListenAddr (Config h);
                         Config.DBPath := Config.DBPath (Config h);
                         Config.StoragePath := Config.StoragePath (Config h);
                         Config.ImageAllowance := Config.ImageAllowance (Config h);
                         Config.AuthToken := Config.AuthToken (Config h);
                         Config.BaseURL := base;
                         Config.EnforceSignedURLs := Config.EnforceSignedURLs (Config h) |} |}
         accountID imageID.
Proof.
  intros Hb Hn. unfold buildVariantURLs, ListVariants, CountVariants in *.
  cbn [DB Config Config.BaseURL]. rewrite Hb, TrimRight_slash_app. split; [|reflexivity].
  injection Hn as <-. now rewrite !length_map, merge_sort_Permutation.
Qed.

(** X16.  Once [DeleteVariant] answered 200, a delivery through that
    variant of any image of the account is answered 404. *)
Theorem deleted_variant_is_not_delivered `{TimeLib} `{JsonLib} `{ImagingLib}
        (h : Handler) (r dr : Request) (now : Z) :
  Api.Status (Variants.DeleteVariant h r).1 = 200%Z ->
  URLParam dr "account_id" = ContextAccountID r ->
  URLParam dr "variant_name" = URLParam r "variant_id" ->
  StatusCode
    (DeliverImage (Server.with_store h (Variants.DeleteVariant h r).2) dr now).2
  = 404%Z.
Proof.
  unfold Variants.DeleteVariant, DeleteVariant.
  destruct (variants (DB h) !! _); cbn [fst snd Api.Status Api.NotFound]; [|discriminate].
  intros _ Ha Hv. unfold DeliverImage, Server.with_store. cbn [DB]. rewrite Ha, Hv.
  destruct (GetImage _ _ _); try reflexivity.
  unfold GetVariant. cbn [variants]. now rewrite lookup_delete_eq.
Qed.

End VariantHandlers.

(** ** Signing keys *)
Section KeyFacts.
Context `{TimeLib}.
Import Model Database Handler.

(** The order of [ORDER BY name ASC]. *)
Lemma text_le_total (a b : string) : negb (text_gt a b) = true \/ negb (text_gt b a) = true.
Proof.
  unfold text_gt. rewrite (String.compare_antisym b a).
  destruct (String.compare a b); cbn; auto.
Qed.

Lemma text_le_trans (a b c : string) :
  negb (text_gt a b) = true -> negb (text_gt b c) = true -> negb (text_gt a c) = true.
Proof.
  unfold text_gt.
  destruct (String.compare a b) eqn:Eab; cbn; try discriminate; intros _;
    destruct (String.compare b c) eqn:Ebc; cbn; try discriminate; intros _.
  - apply String_compare_Eq in Eab, Ebc. subst. now rewrite String_compare_refl.
  - apply String_compare_Eq in Eab. subst. now rewrite Ebc.
  - apply String_compare_Eq in Ebc. subst. now rewrite Eab.
  - now rewrite (String_compare_trans _ _ _ Eab Ebc).
Qed.

Lemma text_le_lt (a b : string) :
  negb (text_gt a b) = true -> a <> b -> text_lt a b = true.
Proof.
  unfold text_gt, text_lt. destruct (String.compare a b) eqn:E; cbn; try discriminate.
  - apply String_compare_Eq in E. contradiction.
  - reflexivity.
Qed.

(** X17.  [ListSigningKeys] returns exactly the keys registered for the
    account, each with its secret, each once, in strictly ascending byte
    order of their names. *)
Theorem ListSigningKeys_sorted_by_name (s : SQLiteDB) (accountID : string) :
  exists keys,
    ListSigningKeys s accountID = Ok keys
    /\ StronglySorted (fun k1 k2 => Is_true (text_lt (Name k1) (Name k2))) keys
    /\ forall key,
         key ∈ keys
         <-> exists row,
               signing_keys s !! (accountID, Name key) = Some row
               /\ key = {| Name := Name key; Value := value row;
                           key_AccountID := accountID;
                           CreatedAt := time_Parse (created_at row) |}.
Proof.
  unfold ListSigningKeys. eexists. split; [reflexivity|].
  set (le := fun x y : (string * string) * KeyRow => Is_true (negb (text_gt x.1.2 y.1.2))).
  set (rows := merge_sort le _).
  assert (Helem : forall x, x ∈ rows <-> x.1.1 = accountID /\ signing_keys s !! x.1 = Some x.2)
    by (intros x; apply key_rows_elem).
  assert (Htot : Total le).
  { intros x y. unfold le. rewrite !Is_true_true. apply text_le_total. }
  assert (Htr : Transitive le).
  { intros x y z. unfold le. rewrite !Is_true_true. apply text_le_trans. }
  assert (Hsorted : StronglySorted le rows) by (apply StronglySorted_merge_sort; assumption).
  assert (Hnd : NoDup rows).
  { unfold rows. rewrite merge_sort_Permutation. apply NoDup_filter, NoDup_map_to_list. }
  assert (Hinj : forall x y, x ∈ rows -> y ∈ rows -> x.1.2 = y.1.2 -> x = y).
  { intros [[a i] rx] [[b j] ry] [Hax Hx]%Helem [Hay Hy]%Helem. cbn in *.
    intros <-. subst a b. rewrite Hx in Hy. now injection Hy as <-. }
  split.
  - apply (StronglySorted_fmap _
             (fun x y : (string * string) * KeyRow => Is_true (text_lt x.1.2 y.1.2)));
      [easy|].
    apply (StronglySorted_strengthen le); [|exact Hnd | exact Hsorted].
    intros x y Hx Hy Hne Hle. unfold le in Hle. apply Is_true_true in Hle.
    apply Is_true_true, text_le_lt; [exact Hle|]. intros E. apply Hne. now apply Hinj.
  - intros key. rewrite list_elem_of_fmap. split.
    + intros (x & -> & [Ha Hx]%Helem). destruct x as [[a i] row]. cbn in *. subst a.
      exists row. split; [exact Hx | reflexivity].
    + intros (row & Hrow & Hkey). exists ((accountID, Name key), row). split.
      * exact Hkey.
      * apply Helem. now split.
Qed.

(** X18.  A PUT for a key name that is empty or already registered for
    the account is answered 400 and leaves the store as it was, the
    registered secret included.  A PUT for a fresh name is answered 200
    with the key, whose secret is the UUID drawn during the request; the
    key is registered from then on and every other key stays. *)
Theorem CreateSigningKey_never_replaces (h : Handler) (r : Request) (uuid : string)
        (now : Time) :
  let name := URLParam r "signing_key_name" in
  let key := {| Name := name; Value := uuid; key_AccountID := ContextAccountID r;
                CreatedAt := now |} in
  (name = "" \/ is_Some (signing_keys (DB h) !! (ContextAccountID r, name)) ->
   Api.Status (Keys.CreateSigningKey h r uuid now).1 = 400%Z
   /\ (Keys.CreateSigningKey h r uuid now).2 = DB h)
  /\ (name <> "" -> signing_keys (DB h) !! (ContextAccountID r, name) = None ->
      (Keys.CreateSigningKey h r uuid now).1 = Api.WriteJSON 200 (Api.SuccessResponse key)
      /\ signing_keys (Keys.CreateSigningKey h r uuid now).2 !! (ContextAccountID r, name)
         = Some {| value := uuid; created_at := time_Format now |}
      /\ forall k, k <> (ContextAccountID r, name) ->
           signing_keys (Keys.CreateSigningKey h r uuid now).2 !! k
           = signing_keys (DB h) !! k).
Proof.
  intros name key. unfold Keys.CreateSigningKey, CreateSigningKey. fold name.
  cbn [key_AccountID Name Value CreatedAt]. split.
  - intros [->|[row Hrow]]; [now cbn|].
    destruct (String.eqb name ""); [now cbn|]. rewrite Hrow. now cbn.
  - intros Hne Hfree. apply String.eqb_neq in Hne. rewrite Hne, Hfree. cbn.
    split; [reflexivity|]. split; [apply lookup_insert_eq|].
    intros k Hk. now rewrite lookup_insert_ne by congruence.
Qed.

End KeyFacts.

Section KeyUse.
Context `{TimeLib} `{JsonLib} `{ImagingLib}.
Import Model Database Handler.

(** A request signed with the secret of a registered key verifies. *)
Lemma verifySignature_registered (h : Handler) (r : Request) (now : Z)
      (accountID imageID variantName name : string) (row : KeyRow) (expUnix : Z) :
  signing_keys (DB h) !! (accountID, name) = Some row ->
  Strconv.ParseInt (Get (Query r) "exp") = inr expUnix ->
  (now <= expUnix)%Z ->
  Get (Query r) "sig"
  = Hex.EncodeToString
      (Hmac.Sum (bytes_of (value row))
         (bytes_of (("/cdn/" +:+ accountID +:+ "/" +:+ imageID +:+ "/" +:+ variantName)
                    +:+ Get (Query r) "exp"))) ->
  verifySignature h r now accountID imageID variantName = true.
Proof.
  intros Hrow Hexp Hnow Hsig. unfold verifySignature. rewrite Hexp, Hsig.
  match goal with
  | |- context [String.eqb (Hex.EncodeToString ?b) ""] =>
      destruct (String.eqb_spec (Hex.EncodeToString b) "") as [E|_]
  end.
  { exfalso. revert E. apply hex_encode_nonempty.
    intros E. apply (f_equal (@List.length byte)) in E.
    rewrite Hmac_Sum_length in E. discriminate. }
  destruct (String.eqb_spec (Get (Query r) "exp") "") as [E|_].
  { rewrite E in Hexp. discriminate. }
  cbn [orb].
  assert (Hle : (now >? expUnix)%Z = false) by (rewrite Z.gtb_ltb; apply Z.ltb_ge; lia).
  rewrite Hle, hex_decode_encode.
  destruct (ListSigningKeys_registered _ _ _ _ Hrow) as (keys & key & Hk & Hin & _ & Hv).
  rewrite Hk.
  destruct keys as [|k0 keys]; [now apply not_elem_of_nil in Hin|].
  cbn [List.length Nat.eqb].
  apply existsb_exists. exists key. split; [now apply list_elem_of_In|].
  rewrite Hv. apply Hmac_Equal_refl.
Qed.

(** X19.  A key created through PUT signs URLs at once: after the
    request was answered 200, a delivery request for any image and
    variant of the account whose [sig] is the lowercase hex of
    HMAC-SHA256, keyed by the UUID drawn during the PUT, over the
    delivery path followed by the [exp] text, and whose [exp] is not
    before now, verifies against the store the PUT left. *)
Theorem created_key_signs_urls (h : Handler) (r dr : Request) (uuid : string)
        (created : Time) (now expUnix : Z) (imageID variantName : string) :
  Api.Status (Keys.CreateSigningKey h r uuid created).1 = 200%Z ->
  Strconv.ParseInt (Get (Query dr) "exp") = inr expUnix ->
  (now <= expUnix)%Z ->
  Get (Query dr) "sig"
  = Hex.EncodeToString
      (Hmac.Sum (bytes_of uuid)
         (bytes_of (("/cdn/" +:+ ContextAccountID r +:+ "/" +:+ imageID +:+ "/"
                     +:+ variantName) +:+ Get (Query dr) "exp"))) ->
  verifySignature (Server.with_store h (Keys.CreateSigningKey h r uuid created).2)
                  dr now (ContextAccountID r) imageID variantName
  = true.
Proof.
  intros Hs Hexp Hnow Hsig.
  apply (verifySignature_registered _ _ _ _ _ _ (URLParam r "signing_key_name")
           {| value := uuid; created_at := time_Format created |} expUnix);
    try assumption.
  revert Hs. unfold Keys.CreateSigningKey, CreateSigningKey, Server.with_store.
  cbn [key_AccountID Name Value CreatedAt DB].
  destruct (String.eqb _ ""); [discriminate|].
  destruct (signing_keys (DB h) !! _); [discriminate|].
  intros _. cbn. apply lookup_insert_eq.
Qed.

(** X20.  Creating a key and deleting it again gives back the key table
    as it was, provided the account had a key before: PUT of a fresh
    name followed by DELETE of that name, both answered 200, leaves the
    store exactly as it was found. *)
Theorem create_then_delete_key_restores (h : Handler) (r : Request) (uuid uuid' : string)
        (t t' : Time) (other : string) (row : KeyRow) :
  Api.Status (Keys.CreateSigningKey h r uuid t).1 = 200%Z ->
  signing_keys (DB h) !! (ContextAccountID r, other) = Some row ->
  Handler.DeleteSigningKey
    (Server.with_store h (Keys.CreateSigningKey h r uuid t).2) r uuid' t'
  = ({| StatusCode := 200; ResponseBody := EnvelopeEmpty |}, DB h).
Proof.
  unfold Keys.CreateSigningKey, CreateSigningKey.
  cbn [key_AccountID Name Value CreatedAt].
  destruct (String.eqb _ ""); [discriminate|].
  destruct (signing_keys (DB h) !! (ContextAccountID r, URLParam r "signing_key_name"))
    eqn:Hfree; [discriminate|].
  intros _ Hother. cbn [snd].
  unfold Handler.DeleteSigningKey, Database.DeleteSigningKey, Server.with_store.
  cbn [DB signing_keys images variants image_metadata].
  rewrite lookup_insert_eq, delete_insert_eq, (delete_id _ _ Hfree).
  assert (Hdb : {| images := images (DB h); variants := variants (DB h);
                   signing_keys := signing_keys (DB h);
                   image_metadata := image_metadata (DB h) |} = DB h)
    by now destruct (DB h).
  rewrite Hdb.
  destruct (ListSigningKeys_registered _ _ _ _ Hother) as (keys & key & Hk & Hin & _).
  rewrite Hk. destruct keys as [|k0 keys]; [now apply not_elem_of_nil in Hin|].
  reflexivity.
Qed.

End KeyUse.

(** ** The V2 listing endpoint *)
Section ListingErrors.
Context `{TimeLib} `{JsonLib} `{ImagingLib}.
Import Model Database Handler.

Lemma substring_tail (u v : string) :
  String.substring (String.length u) (String.length v) (u +:+ v) = v.
Proof. now rewrite substring_suffix, substring_whole. Qed.

Lemma HasSuffix_append (u v : string) : GoStrings.HasSuffix (u +:+ v) v = true.
Proof.
  unfold GoStrings.HasSuffix. rewrite append_length.
  replace (String.length u + String.length v - String.length v)%nat
    with (String.length u) by lia.
  rewrite substring_tail, String.eqb_refl, andb_true_r. apply Nat.leb_le. lia.
Qed.

Lemma prefix_append (p s : string) : String.prefix p (p +:+ s) = true.
Proof.
  induction p as [|a p IH]; [now destruct s|].
  rewrite append_cons. cbn [String.prefix].
  destruct (Ascii.ascii_dec a a); [exact IH | congruence].
Qed.

(** The parameter [metadata[key][op]] is taken apart into its key and
    its operator. *)
Lemma parse_filter_param (key op : string) (values : list string)
      (more : list (string * list string)) (acc : list metadataFilter) :
  GoStrings.IndexByte key "]" = None ->
  parseMetadataFilters_from (("metadata[" +:+ key +:+ "][" +:+ op +:+ "]", values) :: more) acc
  = if String.eqb op "eq" || String.eqb op "ne" || String.eqb op "lt"
       || String.eqb op "gt" || String.eqb op "lte" || String.eqb op "gte"
    then match values with
         | v0 :: _ =>
             parseMetadataFilters_from more
               (acc ++ [{| Key := key; Op := op; filter_Value := v0 |}])
         | [] => parseMetadataFilters_from more acc
         end
    else Err ("unsupported metadata filter operator: " +:+ op).
Proof.
  intros Hkey. cbn [parseMetadataFilters_from].
  assert (Hpre : GoStrings.HasPrefix ("metadata[" +:+ key +:+ "][" +:+ op +:+ "]") "metadata["
                 = true).
  { apply prefix_append. }
  assert (Hrest : GoStrings.TrimPrefix ("metadata[" +:+ key +:+ "][" +:+ op +:+ "]") "metadata["
                  = key +:+ String "]" ("[" +:+ op +:+ "]")).
  { unfold GoStrings.TrimPrefix. rewrite Hpre.
    rewrite (append_length "metadata[").
    replace (String.length "metadata[" + String.length (key +:+ "][" +:+ op +:+ "]")
             - String.length "metadata[")%nat
      with (String.length (key +:+ "][" +:+ op +:+ "]")) by lia.
    apply substring_tail. }
  rewrite Hpre, Hrest. cbn [negb].
  rewrite (IndexByte_append key ("[" +:+ op +:+ "]") "]" Hkey). cbv zeta.
  unfold slice.
  replace (String.length key - 0)%nat with (String.length key) by lia.
  rewrite substring_prefix.
  assert (Hop : String.substring (String.length key + 1)
                  (String.length (key +:+ String "]" ("[" +:+ op +:+ "]"))
                   - (String.length key + 1))
                  (key +:+ String "]" ("[" +:+ op +:+ "]"))
                = "[" +:+ op +:+ "]").
  { rewrite (append_assoc_sep key ("[" +:+ op +:+ "]") "]").
    replace (String.length key + 1)%nat with (String.length (key +:+ String "]" ""))
      by (rewrite append_length; cbn; lia).
    rewrite (append_length (key +:+ String "]" "")).
    replace (String.length (key +:+ String "]" "") + String.length ("[" +:+ op +:+ "]")
             - String.length (key +:+ String "]" ""))%nat
      with (String.length ("[" +:+ op +:+ "]")) by lia.
    apply substring_tail. }
  rewrite Hop.
  assert (Hb : GoStrings.HasPrefix ("[" +:+ op +:+ "]") "[" = true).
  { apply prefix_append. }
  assert (Hs : GoStrings.HasSuffix ("[" +:+ op +:+ "]") "]" = true).
  { change ("[" +:+ op +:+ "]") with (("[" +:+ op) +:+ "]"). apply HasSuffix_append. }
  rewrite Hb, Hs. cbn [negb orb].
  assert (Ho : String.substring 1 (String.length ("[" +:+ op +:+ "]") - 1 - 1)
                 ("[" +:+ op +:+ "]") = op).
  { rewrite append_cons, append_nil_l. cbn [String.length String.substring].
    rewrite append_length. cbn [String.length].
    match goal with
    | |- String.substring 0 ?n _ = _ => replace n with (String.length op) by lia
    end.
    apply substring_prefix. }
  rewrite Ho. reflexivity.
Qed.

Lemma parseMetadataFilters_single_total (e : string * list string) :
  parseMetadataFilters [e] <> Panic.
Proof.
  destruct e as [param values].
  unfold parseMetadataFilters. cbn [parseMetadataFilters_from].
  destruct (negb (GoStrings.HasPrefix param "metadata[")); [discriminate|].
  destruct (GoStrings.IndexByte _ _) as [closeBracket|]; [|discriminate].
  cbv zeta.
  destruct (negb _ || negb _); [discriminate|].
  destruct (_ || _ || _ || _ || _ || _); [|discriminate].
  destruct values; discriminate.
Qed.

(** One entry that fails makes the whole loop fail, wherever it stands. *)
Lemma parseMetadataFilters_from_Err (entries : list (string * list string))
      (acc : list metadataFilter) (e : string * list string) (msg : string) :
  e ∈ entries -> parseMetadataFilters [e] = Err msg ->
  exists msg', parseMetadataFilters_from entries acc = Err msg'.
Proof.
  intros Hin He. revert acc. induction entries as [|x more IH]; intros acc.
  - now apply not_elem_of_nil in Hin.
  - rewrite parseMetadataFilters_from_cons.
    destruct (decide (x = e)) as [->|Hne].
    + rewrite He. eauto.
    + apply elem_of_cons in Hin as [E|Hin]; [congruence|].
      destruct (parseMetadataFilters [x]) as [fe|m|] eqn:Hx.
      * now apply IH.
      * eauto.
      * now apply parseMetadataFilters_single_total in Hx.
Qed.

(** X21.  A query that carries a parameter [metadata[key][op]] whose
    operator is none of eq, ne, lt, gt, lte, gte is answered 400,
    whatever else it carries and in whatever order the parameters are
    visited; [le] and [ge], which the store would accept, are among the
    operators refused. *)
Theorem unsupported_operator_is_rejected (h : Handler) (r : Request)
        (entries : list (string * list string)) (key op : string)
        (values : list string) :
  ("metadata[" +:+ key +:+ "][" +:+ op +:+ "]", values) ∈ entries ->
  GoStrings.IndexByte key "]" = None ->
  op <> "eq" -> op <> "ne" -> op <> "lt" -> op <> "gt" -> op <> "lte" -> op <> "gte" ->
  exists msg,
    Handler.ListImagesV2 h r entries
    = {| StatusCode := 400; ResponseBody := EnvelopeError 9400 msg |}.
Proof.
  intros Hin Hkey Ne1 Ne2 Ne3 Ne4 Ne5 Ne6.
  assert (He : parseMetadataFilters [("metadata[" +:+ key +:+ "][" +:+ op +:+ "]", values)]
               = Err ("unsupported metadata filter operator: " +:+ op)).
  { unfold parseMetadataFilters. rewrite (parse_filter_param key op values [] [] Hkey).
    apply String.eqb_neq in Ne1, Ne2, Ne3, Ne4, Ne5, Ne6.
    now rewrite Ne1, Ne2, Ne3, Ne4, Ne5, Ne6. }
  destruct (parseMetadataFilters_from_Err entries [] _ _ Hin He) as [msg Hmsg].
  exists msg. unfold Handler.ListImagesV2, parseMetadataFilters. now rewrite Hmsg.
Qed.

(** X22.  A continuation token that is not empty and holds no [|] is not
    refused as a bad request: with filters that parse, at most five of
    them, the store reports an invalid cursor and the answer is 500 with
    error 9500. *)
Theorem malformed_cursor_is_a_server_error (h : Handler) (r : Request)
        (entries : list (string * list string)) (filters : list metadataFilter) :
  parseMetadataFilters entries = Ok filters ->
  (List.length filters <= 5)%nat ->
  Get (Query r) "continuation_token" <> "" ->
  GoStrings.IndexByte (Get (Query r) "continuation_token") "|" = None ->
  Handler.ListImagesV2 h r entries
  = {| StatusCode := 500; ResponseBody := EnvelopeError 9500 "failed to list images" |}.
Proof.
  intros Hparse Hlen Hne Hbar. unfold Handler.ListImagesV2. rewrite Hparse.
  assert (Hle : (5 <? List.length filters)%nat = false) by (apply Nat.ltb_ge; lia).
  rewrite Hle. apply String.eqb_neq in Hne.
  unfold listImages, Database.ListImagesV2, Database.ListImagesWithFilter, GoStrings.SplitN2.
  destruct filters as [|f rest]; now rewrite Hne, Hbar.
Qed.

Lemma scanImages_no_panic (rows : list Row) :
  (forall txt, json_Unmarshal txt <> Panic) -> scanImages rows <> Panic.
Proof.
  intros Hj. induction rows as [|r rows IH]; cbn [scanImages]; [discriminate|].
  unfold scanImage. destruct (negb _ && negb _).
  - destruct (json_Unmarshal (meta r.2)) eqn:E; try discriminate.
    + destruct (scanImages rows); [discriminate | discriminate | contradiction].
    + now apply Hj in E.
  - destruct (scanImages rows); [discriminate | discriminate | contradiction].
Qed.

Lemma page_of_rows_no_panic (rows : list Row) (perPage : Z) :
  (forall txt, json_Unmarshal txt <> Panic) -> perPage <> 0%Z ->
  page_of_rows rows perPage <> Panic.
Proof.
  intros Hj Hpp. unfold page_of_rows.
  destruct (scanImages rows) as [imgs| |] eqn:E; try discriminate.
  - destruct (Z.eqb_spec (Z.of_nat (List.length imgs)) perPage) as [El|_]; [|discriminate].
    destruct (last imgs) eqn:Elast; [discriminate|].
    apply last_None in Elast. subst imgs. cbn [List.length] in El. lia.
  - now apply scanImages_no_panic in E.
Qed.

(** X23.  The listing indexes the last image of a page only when the
    page is full, so that a call to the store can panic on nothing but
    the page size 0; and the V2 endpoint, which asks for 1 to 100 images,
    never panics, so that the bare 500 of the recoverer is never its
    answer.  (The JSON decoder returns errors; it does not panic.) *)
Theorem ListImagesV2_does_not_panic :
  (forall txt, json_Unmarshal txt <> Panic) ->
  (forall (s : SQLiteDB) (accountID cursor : string) (perPage : Z) (sortOrder : string)
          (f : option metadataFilter),
      perPage <> 0%Z ->
      Client.listPage s accountID perPage sortOrder f cursor <> Panic)
  /\ (forall (h : Handler) (r : Request) (entries : list (string * list string)),
        (1 <= parsePerPage r <= 100)%Z
        /\ Handler.ListImagesV2 h r entries <> recovered).
Proof.
  intros Hj.
  assert (HL : forall s accountID cursor perPage sortOrder f,
             perPage <> 0%Z ->
             Client.listPage s accountID perPage sortOrder f cursor <> Panic).
  { intros s accountID cursor perPage sortOrder f Hpp.
    unfold Client.listPage, Database.ListImagesV2, Database.ListImagesWithFilter.
    destruct f as [flt|]; (destruct (String.eqb cursor "");
      [now apply page_of_rows_no_panic|]);
      (destruct (GoStrings.SplitN2 cursor "|") as [|cu [|ci [|x l]]]; try discriminate);
      now apply page_of_rows_no_panic. }
  split; [exact HL|]. intros h r entries.
  pose proof (parsePerPage_range r) as Hrange. split; [exact Hrange|].
  unfold Handler.ListImagesV2.
  destruct (parseMetadataFilters entries) as [filters|msg|] eqn:Hp; try discriminate.
  - destruct (5 <? List.length filters)%nat; [discriminate|].
    unfold listingResponse.
    destruct (listImages _ _ _ _ _ _) as [[imgs c]| |] eqn:E; try discriminate.
    exfalso. revert E. unfold listImages.
    destruct filters as [|f rest].
    + apply (HL (DB h) _ _ _ _ None). lia.
    + apply (HL (DB h) _ _ _ _ (Some f)). lia.
  - exfalso. revert Hp. unfold parseMetadataFilters. generalize (@nil metadataFilter).
    induction entries as [|e more IH]; intros acc; [discriminate|].
    rewrite parseMetadataFilters_from_cons.
    destruct (parseMetadataFilters [e]) eqn:He; try discriminate; [apply IH|].
    now apply parseMetadataFilters_single_total in He.
Qed.

End ListingErrors.

(** ** Configuration from the environment *)
Section ConfigFacts.
Import Config.

Lemma digit_of_Some (c : ascii) (d : Z) :
  Strconv.digit_of c = Some d ->
  (48 <= char_code c <= 57)%Z /\ d = (char_code c - 48)%Z.
Proof.
  unfold Strconv.digit_of.
  destruct (Z.leb_spec 48 (char_code c)), (Z.leb_spec (char_code c) 57); cbn;
    try discriminate.
  intros [= <-]. lia.
Qed.

Lemma digit_of_None (c : ascii) :
  Strconv.digit_of c = None -> ((char_code c <? 48) || (char_code c >? 57))%Z = true.
Proof.
  unfold Strconv.digit_of.
  destruct (Z.leb_spec 48 (char_code c)), (Z.leb_spec (char_code c) 57); cbn;
    try discriminate; intros _; apply orb_true_iff.
  - right. apply Z.gtb_lt. lia.
  - left. apply Z.ltb_lt. lia.
  - left. apply Z.ltb_lt. lia.
Qed.

(** On digits that stay below [10^18] the loop of [getEnvInt] and the
    digit loop of [strconv] compute the same number. *)
Lemma getEnvInt_loop_digits (v : string) (acc d : Z) :
  Forall (fun c => Strconv.digit_of c <> None) (list_ascii_of_string v) ->
  (0 <= acc)%Z ->
  ((acc + 1) * 10 ^ Z.of_nat (String.length v) <= 10 ^ 18)%Z ->
  exists n,
    Strconv.uint_loop v acc = inr n /\ getEnvInt_loop v acc d = n
    /\ (acc * 10 ^ Z.of_nat (String.length v) <= n
        < (acc + 1) * 10 ^ Z.of_nat (String.length v))%Z.
Proof.
  revert acc. induction v as [|c v IH]; intros acc Hd Hacc Hb.
  - exists acc. cbn. repeat split; lia.
  - cbn [list_ascii_of_string] in Hd. apply Forall_cons in Hd as [Hc Hd].
    destruct (Strconv.digit_of c) as [k|] eqn:Ek; [|contradiction].
    destruct (digit_of_Some c k Ek) as [Hcode ->].
    cbn [String.length] in Hb |- *. rewrite Nat2Z.inj_succ, Z.pow_succ_r in Hb |- * by lia.
    assert (Hp : (0 < 10 ^ Z.of_nat (String.length v))%Z) by (apply Z.pow_pos_nonneg; lia).
    assert (Hsmall : (acc * 10 + (char_code c - 48) < 10 ^ 18)%Z) by nia.
    destruct (IH (acc * 10 + (char_code c - 48))%Z Hd) as (n & Hu & Hg & Hn); [lia | nia |].
    exists n. split; [|split].
    + cbn [Strconv.uint_loop]. rewrite Ek.
      assert (E1 : (acc >=? (2 ^ 64 - 1) / 10 + 1)%Z = false).
      { rewrite Z.geb_leb. apply Z.leb_gt.
        change ((2 ^ 64 - 1) / 10 + 1)%Z with 1844674407370955162%Z.
        change (10 ^ 18)%Z with 1000000000000000000%Z in Hsmall. lia. }
      rewrite E1. cbv zeta.
      assert (E2 : ((acc * 10 + (char_code c - 48)) mod 2 ^ 64
                    = acc * 10 + (char_code c - 48))%Z).
      { apply Z.mod_small. change (10 ^ 18)%Z with 1000000000000000000%Z in Hsmall.
        change (2 ^ 64)%Z with 18446744073709551616%Z. lia. }
      rewrite E2.
      assert (E3 : ((acc * 10 + (char_code c - 48) <? acc * 10)
                    || (acc * 10 + (char_code c - 48) >? 2 ^ 64 - 1))%Z = false).
      { apply orb_false_iff. split; [apply Z.ltb_ge; lia|].
        rewrite Z.gtb_ltb. apply Z.ltb_ge.
        change (10 ^ 18)%Z with 1000000000000000000%Z in Hsmall.
        change (2 ^ 64 - 1)%Z with 18446744073709551615%Z. lia. }
      rewrite E3. exact Hu.
    + cbn [getEnvInt_loop].
      assert (E1 : ((char_code c <? 48) || (char_code c >? 57))%Z = false).
      { apply orb_false_iff. split; [apply Z.ltb_ge; lia|].
        rewrite Z.gtb_ltb. apply Z.ltb_ge. lia. }
      rewrite E1.
      assert (E2 : wrap_int (acc * 10 + (char_code c - 48))
                   = (acc * 10 + (char_code c - 48))%Z).
      { unfold wrap_int. change (10 ^ 18)%Z with 1000000000000000000%Z in Hsmall.
        change (2 ^ 63)%Z with 9223372036854775808%Z.
        change (2 ^ 64)%Z with 18446744073709551616%Z.
        rewrite Z.mod_small by lia. lia. }
      rewrite E2. exact Hg.
    + nia.
Qed.

Lemma getEnvInt_loop_non_digit (v : string) (acc d : Z) :
  Exists (fun c => Strconv.digit_of c = None) (list_ascii_of_string v) ->
  getEnvInt_loop v acc d = d.
Proof.
  revert acc. induction v as [|c v IH]; intros acc Hx; cbn [list_ascii_of_string] in Hx.
  - now apply Exists_nil in Hx.
  - cbn [getEnvInt_loop].
    destruct (Strconv.digit_of c) eqn:Ec.
    + apply Exists_cons in Hx as [Hx|Hx]; [congruence|].
      destruct (_ || _)%Z; [reflexivity | now apply IH].
    + now rewrite (digit_of_None c Ec).
Qed.

(** X24.  [getEnvInt] returns the default when the variable is unset or
    empty and when its text holds any byte that is not a decimal digit: a
    sign, a space or a decimal point make the whole value be ignored.  On
    one to eighteen decimal digits it returns the number they write, the
    one [strconv.Atoi] returns for that text, which is never negative. *)
Theorem getEnvInt_reads_plain_decimals (env : Env) (key : string) (defaultValue : Z) :
  (env key = "" -> getEnvInt env key defaultValue = defaultValue)
  /\ (Exists (fun c => Strconv.digit_of c = None) (list_ascii_of_string (env key)) ->
      getEnvInt env key defaultValue = defaultValue)
  /\ (env key <> "" ->
      Forall (fun c => Strconv.digit_of c <> None) (list_ascii_of_string (env key)) ->
      (String.length (env key) <= 18)%nat ->
      exists n, Strconv.Atoi (env key) = inr n
                /\ getEnvInt env key defaultValue = n
                /\ (0 <= n < 10 ^ 18)%Z).
Proof.
  unfold getEnvInt. split; [|split].
  - now intros ->.
  - intros Hx. destruct (String.eqb (env key) ""); [reflexivity|].
    now apply getEnvInt_loop_non_digit.
  - intros Hne Hd Hlen. apply String.eqb_neq in Hne. rewrite Hne.
    assert (Hp : (10 ^ Z.of_nat (String.length (env key)) <= 10 ^ 18)%Z)
      by (apply Z.pow_le_mono_r; lia).
    destruct (getEnvInt_loop_digits (env key) 0 defaultValue Hd) as (n & Hu & Hg & Hn);
      [lia | lia |].
    exists n. split; [|split; [exact Hg | lia]].
    unfold Strconv.Atoi, Strconv.ParseInt.
    destruct (env key) as [|c v] eqn:Ev; [discriminate|].
    cbn [list_ascii_of_string] in Hd. apply Forall_cons in Hd as [Hc _].
    assert (Hsign : Ascii.eqb c "+" = false /\ Ascii.eqb c "-" = false).
    { destruct (Strconv.digit_of c) as [k|] eqn:Ek; [|contradiction].
      apply digit_of_Some in Ek as [Hcode _].
      split; apply Ascii.eqb_neq; intros ->.
      - change (char_code "+") with 43%Z in Hcode. lia.
      - change (char_code "-") with 45%Z in Hcode. lia. }
    destruct Hsign as [-> ->]. cbn [orb negb andb].
    unfold Strconv.ParseUint. rewrite Hu.
    assert (E : (n >=? 2 ^ 63)%Z = false).
    { rewrite Z.geb_leb. apply Z.leb_gt. change (2 ^ 63)%Z with 9223372036854775808%Z.
      assert (10 ^ 18 = 1000000000000000000)%Z by reflexivity. lia. }
    now rewrite E.
Qed.

End ConfigFacts.

Lemma getEnvInt_reads_plain_decimals_witness :
  let env : Config.Env :=
    fun key => if String.eqb key "DT_IMAGE_ALLOWANCE" then "2500" else "" in
  exists n, Strconv.Atoi "2500" = inr n
            /\ Config.getEnvInt env "DT_IMAGE_ALLOWANCE" 100000 = n
            /\ (0 <= n < 10 ^ 18)%Z.
Proof.
  intros env.
  apply (proj2 (proj2 (getEnvInt_reads_plain_decimals env "DT_IMAGE_ALLOWANCE" 100000))).
  - discriminate.
  - repeat constructor; discriminate.
  - simpl. lia.
Defined.

(** ** Authentication *)
Section AuthFacts.
Import Api.

Lemma prefix_split (p a : string) :
  String.prefix p a = true ->
  a = p +:+ String.substring (String.length p) (String.length a - String.length p) a.
Proof.
  revert a. induction p as [|c p IH]; intros a.
  - intros _. cbn [String.length]. rewrite Nat.sub_0_r, append_nil_l.
    now rewrite substring_whole.
  - destruct a as [|b a]; cbn [String.prefix]; [discriminate|].
    destruct (Ascii.ascii_dec c b) as [<-|]; [|discriminate].
    intros Hp. rewrite append_cons. cbn [String.length String.substring Nat.sub].
    f_equal. now apply IH.
Qed.

(** X25.  [AuthMiddleware] hands a request on exactly in two cases.
    One: the Authorization header starts with [Bearer ] and, if a token
    is configured, is [Bearer ] followed by exactly that token; the other
    headers are then not looked at.  Two: the Authorization header does
    not start with [Bearer ], X-Auth-Key and X-Auth-Email are both
    present, and, if a token is configured, X-Auth-Key is that token.
    Every other request is answered 401 with error 9401. *)
Theorem AuthMiddleware_passes_exactly (token : string) (header : Header) :
  (AuthMiddleware token header = Next
   <-> (GoStrings.HasPrefix (header "Authorization") "Bearer " = true
        /\ (token = "" \/ header "Authorization" = "Bearer " +:+ token))
       \/ (GoStrings.HasPrefix (header "Authorization") "Bearer " = false
           /\ header "X-Auth-Key" <> "" /\ header "X-Auth-Email" <> ""
           /\ (token = "" \/ header "X-Auth-Key" = token)))
  /\ (AuthMiddleware token header <> Next ->
      AuthMiddleware token header
      = Answer (WriteJSON 401 (ErrorResponse 9401 "Authentication required"))).
Proof.
  unfold AuthMiddleware.
  set (a := header "Authorization"). set (k := header "X-Auth-Key").
  set (e := header "X-Auth-Email").
  assert (Hempty : String.eqb a "" = true -> GoStrings.HasPrefix a "Bearer " = false).
  { intros ->%String.eqb_eq. reflexivity. }
  destruct (GoStrings.HasPrefix a "Bearer ") eqn:Hp.
  - destruct (String.eqb a "") eqn:Ha; [specialize (Hempty eq_refl); discriminate|].
    cbn [negb andb].
    pose proof (prefix_split "Bearer " a Hp) as Hsplit.
    change (String.length "Bearer ") with 7%nat in Hsplit.
    destruct (String.eqb_spec token "") as [Et|Et]; cbn [orb].
    + split; [|congruence]. split; [intros _; left; auto | reflexivity].
    + destruct (String.eqb_spec (String.substring 7 (String.length a - 7) a) token)
        as [Eb|Eb].
      * split; [|congruence]. split; [intros _|reflexivity].
        left. split; [reflexivity|]. right. now rewrite <- Eb.
      * split; [|reflexivity]. split; [discriminate|].
        intros [[_ [E|E]]|[E _]]; [contradiction | | discriminate].
        exfalso. apply Eb. rewrite E.
        replace (String.length ("Bearer " +:+ token) - 7)%nat with (String.length token)
          by (rewrite append_length; cbn [String.length]; lia).
        exact (substring_tail "Bearer " token).
  - rewrite andb_false_r.
    destruct (String.eqb_spec k "") as [Ek|Ek]; cbn [negb andb].
    { split; [|reflexivity]. split; [discriminate|].
      intros [[E _]|(_ & E & _)]; [discriminate | contradiction]. }
    destruct (String.eqb_spec e "") as [Ee|Ee]; cbn [negb].
    { split; [|reflexivity]. split; [discriminate|].
      intros [[E _]|(_ & _ & E & _)]; [discriminate | contradiction]. }
    destruct (String.eqb_spec token "") as [Et|Et]; cbn [orb].
    + split; [|congruence]. split; [intros _; right; auto | reflexivity].
    + destruct (String.eqb_spec k token) as [Eb|Eb].
      * split; [|congruence]. split; [intros _; right; auto | reflexivity].
      * split; [|reflexivity]. split; [discriminate|].
        intros [[E _]|(_ & _ & _ & [E|E])]; [discriminate | contradiction | contradiction].
Qed.

End AuthFacts.

(** ** Turning signed URLs on for an image *)
Section ImageHandlers.
Context `{TimeLib} `{JsonLib} `{ImagingLib}.
Import Model Database Handler.

(** What a PATCH answered 200 wrote. *)
Lemma UpdateImage_200 (h : Handler) (r : Request) (body : result Images.updateImageBody) :
  Api.Status (Images.UpdateImage h r body).1 = 200%Z ->
  exists img b old txt,
    GetImage (DB h) (ContextAccountID r) (URLParam r "image_id") = Ok img
    /\ body = Ok b
    /\ images (DB h) !! (ContextAccountID r, URLParam r "image_id") = Some old
    /\ json_Marshal (match Images.body_Metadata b with
                     | Some m => m
                     | None => image_Meta img
                     end) = Ok txt
    /\ (Images.UpdateImage h r body).2
       = {| images :=
              <[(ContextAccountID r, URLParam r "image_id") :=
                  {| filename := filename old;
                     creator := creator old;
                     meta := txt;
                     require_signed_urls :=
                       boolToInt (match Images.body_RequireSignedURLs b with
                                  | Some v => v
                                  | None => negb (require_signed_urls old =? 0)%Z
                                  end);
                     uploaded := uploaded old |}]> (images (DB h));
            variants := variants (DB h);
            signing_keys := signing_keys (DB h);
            image_metadata := image_metadata (DB h) |}.
Proof.
  unfold Images.UpdateImage.
  destruct (GetImage _ _ _) as [img| |] eqn:Hg; cbn [fst Api.Status Api.NotFound];
    try discriminate.
  assert (Hrow : exists old m,
             images (DB h) !! (ContextAccountID r, URLParam r "image_id") = Some old
             /\ img = image_of_row ((ContextAccountID r, URLParam r "image_id"), old) m).
  { revert Hg. unfold GetImage.
    destruct (images (DB h) !! _) as [old|]; [|discriminate].
    unfold scanImage. destruct (negb _ && negb _).
    - destruct (json_Unmarshal _); try discriminate. intros [= <-]. eauto.
    - intros [= <-]. eauto. }
  destruct Hrow as (old & m & Hold & ->).
  destruct body as [b| |]; cbn [fst Api.Status Api.BadRequest]; try discriminate.
  unfold UpdateImage. cbn [image_Meta AccountID ID Filename RequireSignedURLs image_of_row].
  unfold row_account, row_id. cbn [fst snd].
  destruct (json_Marshal _) as [txt| |] eqn:Em; cbn [fst Api.Status]; try discriminate.
  rewrite Hold. cbn [fst snd]. intros _.
  exists (image_of_row ((ContextAccountID r, URLParam r "image_id"), old) m), b, old, txt.
  repeat split; assumption.
Qed.

(** X26.  Signed URLs can be turned on for an image that is already
    stored: after a PATCH with [requireSignedURLs] true was answered 200,
    and with enforcement configured, a delivery request for that image
    that carries no [sig], through a variant that does not waive signed
    URLs, is answered 403 and the blob store is not touched.  The PATCH
    leaves the filename, the creator and the upload time of the image, and
    every other image, as they were.  (What the JSON encoder writes, the
    decoder reads.) *)
Theorem patched_image_requires_signature (h : Handler) (r dr : Request)
        (b : Images.updateImageBody) (now : Z) (variant : Variant) :
  Api.Status (Images.UpdateImage h r (Ok b)).1 = 200%Z ->
  Images.body_RequireSignedURLs b = Some true ->
  Config.EnforceSignedURLs (Config h) = true ->
  URLParam dr "account_id" = ContextAccountID r ->
  URLParam dr "image_id" = URLParam r "image_id" ->
  GetVariant (DB h) (ContextAccountID r) (URLParam dr "variant_name") = Ok variant ->
  NeverRequireSignedURLs variant = false ->
  Get (Query dr) "sig" = "" ->
  (forall m txt, json_Marshal m = Ok txt -> exists m', json_Unmarshal txt = Ok m') ->
  let db' := (Images.UpdateImage h r (Ok b)).2 in
  DeliverImage (Server.with_store h db') dr now
  = ([CallVerifySignature], {| StatusCode := 403; ResponseBody := Text "forbidden" |})
  /\ (exists old new,
        images (DB h) !! (ContextAccountID r, URLParam r "image_id") = Some old
        /\ images db' !! (ContextAccountID r, URLParam r "image_id") = Some new
        /\ filename new = filename old /\ creator new = creator old
        /\ uploaded new = uploaded old)
  /\ (forall k, k <> (ContextAccountID r, URLParam r "image_id") ->
                images db' !! k = images (DB h) !! k).
Proof.
  intros Hs Hflag Henf Ha Hi Hv Hnever Hsig Hjson db'.
  destruct (UpdateImage_200 h r (Ok b) Hs) as (img & b' & old & txt & Hg & [= <-] & Hold & Hm & Hdb).
  subst db'. rewrite Hdb, Hflag. split; [|split].
  - unfold DeliverImage, Server.with_store. cbn [DB Config]. rewrite Ha, Hi.
    unfold GetImage at 1. cbn [images]. rewrite lookup_insert_eq.
    unfold scanImage. cbn [snd meta].
    destruct (Hjson _ txt Hm) as [m Hu]. rewrite Hu.
    assert (Hgv : GetVariant
                    {| images := <[(ContextAccountID r, URLParam r "image_id") :=
                                     {| filename := filename old; creator := creator old;
                                        meta := txt; require_signed_urls := boolToInt true;
                                        uploaded := uploaded old |}]> (images (DB h));
                       variants := variants (DB h);
                       signing_keys := signing_keys (DB h);
                       image_metadata := image_metadata (DB h) |}
                    (ContextAccountID r) (URLParam dr "variant_name") = Ok variant)
      by exact Hv.
    assert (Hno : forall d, verifySignature d dr now (ContextAccountID r)
                              (URLParam r "image_id") (URLParam dr "variant_name") = false).
    { intros d. unfold verifySignature. now rewrite Hsig. }
    destruct (negb (String.eqb txt "") && negb (String.eqb txt "{}"));
      rewrite Hgv; cbn [image_of_row RequireSignedURLs snd require_signed_urls boolToInt];
      rewrite Henf, Hnever, Hno; reflexivity.
  - exists old. eexists. split; [exact Hold|]. cbn [images].
    split; [apply lookup_insert_eq|]. cbn. auto.
  - intros k Hk. cbn [images]. now rewrite lookup_insert_ne by congruence.
Qed.

End ImageHandlers.

(** ** The metadata index *)
Section MetadataIndex.
Context `{TimeLib} `{JsonLib}.
Import Model Database Client.

Lemma SetImageMetadata_lookup (old : gmap (string * string * string) string)
      (accountID imageID : string) (meta : gmap string string) (a i k : string) :
  (kmap (pair (accountID, imageID)) meta
   ∪ filter (fun kv : (string * string * string) * string => kv.1.1 <> (accountID, imageID))
            old) !! (a, i, k)
  = if decide ((a, i) = (accountID, imageID)) then meta !! k
    else old !! (a, i, k).
Proof.
  destruct (decide ((a, i) = (accountID, imageID))) as [E|E].
  - injection E as -> ->.
    rewrite lookup_union, (lookup_kmap (pair (accountID, imageID))).
    rewrite (map_lookup_filter_None_2 _ old).
    + now destruct (meta !! k).
    + right. intros v _ Hne. now apply Hne.
  - rewrite lookup_union_r.
    + destruct (old !! (a, i, k)) as [v|] eqn:Ev.
      * apply map_lookup_filter_Some. split; [exact Ev | exact E].
      * apply map_lookup_filter_None. now left.
    + apply lookup_kmap_None; [apply _|]. intros k' [= -> -> _]. contradiction.
Qed.

(** X27.  [SetImageMetadata] replaces the index rows of one image:
    afterwards the image has exactly one row per key of the map handed
    in, holding the rendered value, rows it had under other keys are
    gone, and the rows of every other image and the image records
    themselves are untouched; doing it again changes nothing.  From
    then on the image can be on a page of a filtered listing of its
    account only if the map has a value under the filter's key that
    satisfies the comparison. *)
Theorem SetImageMetadata_replaces_the_rows (s : SQLiteDB) (accountID imageID : string)
        (meta : gmap string string) :
  exists s',
    SetImageMetadata s accountID imageID meta = Ok s'
    /\ images s' = images s
    /\ (forall k, image_metadata s' !! (accountID, imageID, k) = meta !! k)
    /\ (forall a i k, (a, i) <> (accountID, imageID) ->
                      image_metadata s' !! (a, i, k) = image_metadata s !! (a, i, k))
    /\ SetImageMetadata s' accountID imageID meta = Ok s'
    /\ (forall perPage sortOrder flt cursor imgs c img,
          listPage s' accountID perPage sortOrder (Some flt) cursor = Ok (imgs, c) ->
          img ∈ imgs -> ID img = imageID ->
          exists v, meta !! Handler.Key flt = Some v
                    /\ opSQL (Handler.Op flt) v (Handler.filter_Value flt) = true).
Proof.
  unfold SetImageMetadata. eexists. split; [reflexivity|]. cbn [images image_metadata].
  split; [reflexivity|].
  assert (Hown : forall k,
             (kmap (pair (accountID, imageID)) meta
              ∪ filter (fun kv : (string * string * string) * string =>
                          kv.1.1 <> (accountID, imageID)) (image_metadata s))
             !! (accountID, imageID, k) = meta !! k).
  { intros k. rewrite SetImageMetadata_lookup. now rewrite decide_True. }
  split; [exact Hown|]. split; [|split].
  - intros a i k Hne. rewrite SetImageMetadata_lookup. now rewrite decide_False.
  - do 2 f_equal. apply map_eq. intros [[a i] k].
    rewrite !SetImageMetadata_lookup.
    now destruct (decide ((a, i) = (accountID, imageID))).
  - intros perPage sortOrder flt cursor imgs c img Hp Himg Hid.
    destruct (listPage_elem _ _ _ _ _ _ _ _ _ Hp Himg) as (row & _ & _ & Hm).
    unfold matches, joins_metadata, row_account, row_id in Hm.
    cbn [fst snd image_metadata] in Hm. rewrite Hid, Hown in Hm.
    destruct (meta !! Handler.Key flt) as [v|]; [eauto | discriminate].
Qed.

End MetadataIndex.

(** ** Enforcement of signed URLs is configured by one exact word *)
Section Enforcement.
Context `{TimeLib} `{JsonLib} `{ImagingLib}.
Import Model Database Handler.

(** X30.  Signed URLs are enforced only when DT_ENFORCE_SIGNED_URLS is
    exactly [true].  With the variable unset, empty or anything else,
    [TRUE] and [1] included, the delivery endpoint never consults the
    verifier and never answers 403, whatever the image, the variant and
    the request are. *)
Theorem signed_urls_are_enforced_only_by_true (env : Config.Env) (db : SQLiteDB)
        (store : Storage.Storage) (r : Request) (now : Z) :
  (Config.EnforceSignedURLs (Config.Load env) = true
   <-> env "DT_ENFORCE_SIGNED_URLS" = "true")
  /\ (env "DT_ENFORCE_SIGNED_URLS" <> "true" ->
      (CallVerifySignature
         ∉ (DeliverImage {| DB := db; Store := store; Config := Config.Load env |} r now).1)
      /\ StatusCode
           (DeliverImage {| DB := db; Store := store; Config := Config.Load env |} r now).2
         <> 403%Z).
Proof.
  assert (Hload : Config.EnforceSignedURLs (Config.Load env)
                  = String.eqb (env "DT_ENFORCE_SIGNED_URLS") "true").
  { unfold Config.Load, Config.getEnv. cbn [Config.EnforceSignedURLs].
    destruct (String.eqb_spec (env "DT_ENFORCE_SIGNED_URLS") "") as [->|_]; reflexivity. }
  split.
  - rewrite Hload. apply String.eqb_eq.
  - intros Hne. apply String.eqb_neq in Hne. rewrite <- Hload in Hne.
    unfold DeliverImage. cbn [DB Config]. rewrite Hne. cbn [andb].
    destruct (GetImage _ _ _) as [img| |]; cbn [fst snd StatusCode];
      try (split; [apply not_elem_of_nil | discriminate]).
    destruct (GetVariant _ _ _) as [variant| |]; cbn [fst snd StatusCode];
      try (split; [apply not_elem_of_nil | discriminate]).
    apply deliverBlob_calls.
Qed.

End Enforcement.

(** ** The V1 listing: pages by offset *)
Section OffsetPages.
Context `{TimeLib} `{JsonLib}.
Import Model Database.

Lemma wrap_int_small (z : Z) : (- 2 ^ 63 <= z < 2 ^ 63)%Z -> wrap_int z = z.
Proof.
  intros Hz. unfold wrap_int.
  change (2 ^ 63)%Z with 9223372036854775808%Z in *.
  change (2 ^ 64)%Z with 18446744073709551616%Z.
  rewrite Z.mod_small by lia. lia.
Qed.

Lemma scanImages_of_Forall2 (rows : list Row) (imgs : list Image) :
  Forall2 (fun r img => scanImage r = Ok img) rows imgs -> scanImages rows = Ok imgs.
Proof.
  induction 1 as [|r img rows imgs Hr _ IH]; [reflexivity|].
  cbn [scanImages]. now rewrite Hr, IH.
Qed.

(** Cutting a list into [n] consecutive pieces of length [k]. *)
Lemma concat_pieces {A} (l : list A) (k n : nat) :
  concat ((fun i => take k (drop (i * k) l)) <$> seq 0 n) = take (n * k) l.
Proof.
  induction n as [|n IH]; [reflexivity|].
  rewrite seq_S, fmap_app, concat_app, IH. cbn [fmap list_fmap concat Nat.add].
  rewrite app_nil_r, take_take_drop. f_equal. lia.
Qed.

(** One page of [ListImages], when every row of the account decodes and
    the offset fits an [int]. *)
Lemma ListImages_page (s : SQLiteDB) (rows : list Row) (accountID : string)
      (perPage : Z) (all : list Image) (i : nat) :
  scanImages rows = Ok all -> (0 < perPage)%Z -> (Z.of_nat i * perPage < 2 ^ 63)%Z ->
  exists total,
    CountImages s accountID = Ok total
    /\ ListImages s rows accountID (Z.of_nat i + 1) perPage
       = Ok (take (Z.to_nat perPage) (drop (i * Z.to_nat perPage) all), total).
Proof.
  intros Hall Hpp Hfit. unfold ListImages, CountImages. eexists. split; [reflexivity|].
  replace (Z.of_nat i + 1 - 1)%Z with (Z.of_nat i) by lia.
  rewrite wrap_int_small by (change (2 ^ 63)%Z with 9223372036854775808%Z in *; nia).
  unfold sql_limit, sql_offset.
  destruct (Z.ltb_spec perPage 0); [lia|].
  destruct (Z.ltb_spec (Z.of_nat i * perPage) 0); [nia|].
  replace (Z.to_nat (Z.of_nat i * perPage)) with (i * Z.to_nat perPage)%nat by nia.
  apply scanImages_Forall2 in Hall.
  now rewrite (scanImages_of_Forall2 _ _
                 (Forall2_take _ _ _ _ (Forall2_drop _ _ _ _ Hall))).
Qed.

(** The rows of an account by (uploaded, id) are one result of the
    query ordered by upload time alone. *)
Lemma ordered_images_by_uploaded (s : SQLiteDB) (accountID : string) :
  ordered_by_uploaded s accountID
    (ordered_images s (fun r => text_eq (row_account r) accountID) ASC).
Proof.
  split.
  - unfold ordered_images. apply merge_sort_Permutation.
  - apply (StronglySorted_strengthen (row_le ASC));
      [|apply ordered_images_NoDup | apply ordered_images_sorted].
    intros x y _ _ _. unfold row_le, key_leb, key_compare, row_key, text_gt. cbn.
    now destruct (String.compare (uploaded x.2) (uploaded y.2)).
Qed.

(** X28.  Paging through the V1 listing by offset.  Let every row of the
    account decode, the page size be positive and [n] pages fit an
    [int].  Then pages 1 to [n] are consecutive pieces of the ordered
    result, each with the total count of the account, and once [n] pages
    reach past the last row they hold, put end to end, every image of the
    account exactly once; a page past the end is empty. *)
Theorem ListImages_pages_cover (s : SQLiteDB) (rows : list Row) (accountID : string)
        (perPage : Z) (all : list Image) (n : nat) :
  ordered_by_uploaded s accountID rows ->
  scanImages rows = Ok all ->
  (0 < perPage)%Z ->
  (Z.of_nat n * perPage < 2 ^ 63)%Z ->
  exists pages : list (list Image),
    List.length pages = n
    /\ (forall (i : nat) imgs,
          pages !! i = Some imgs ->
          exists total,
            CountImages s accountID = Ok total
            /\ ListImages s rows accountID (Z.of_nat i + 1) perPage = Ok (imgs, total))
    /\ ((Z.of_nat (List.length rows) <= Z.of_nat n * perPage)%Z ->
        concat pages = all
        /\ NoDup (ID <$> concat pages)
        /\ (forall id, id ∈ ID <$> concat pages <-> is_Some (images s !! (accountID, id)))
        /\ exists total,
             ListImages s rows accountID (Z.of_nat n + 1) perPage = Ok ([], total)).
Proof.
  intros [Hperm _] Hall Hpp Hfit.
  set (k := Z.to_nat perPage).
  exists ((fun i => take k (drop (i * k) all)) <$> seq 0 n).
  split; [now rewrite length_fmap, length_seq|]. split.
  - intros i imgs Hi. apply list_lookup_fmap_Some in Hi as (j & -> & Hj).
    apply lookup_seq in Hj as [-> Hlt]. cbn [Nat.add].
    destruct (ListImages_page s rows accountID perPage all i Hall Hpp) as (total & Hc & Hl);
      [nia | eauto].
  - intros Hlen.
    pose proof (scanImages_Forall2 _ _ Hall) as HF.
    pose proof (Forall2_length _ _ _ HF) as Hsame.
    assert (Hcat : concat ((fun i => take k (drop (i * k) all)) <$> seq 0 n) = all).
    { rewrite concat_pieces. apply take_ge. unfold k. nia. }
    rewrite Hcat.
    assert (Hids : ID <$> all = row_id <$> rows).
    { clear -HF. induction HF as [|r img rows imgs Hs _ IH]; [reflexivity|].
      cbn. rewrite IH. f_equal. now apply scanImage_Ok_ID in Hs. }
    assert (Hrow : forall r, r ∈ rows <-> row_account r = accountID /\ images s !! r.1 = Some r.2).
    { intros r. rewrite Hperm, list_elem_of_filter. destruct r as [key row].
      rewrite elem_of_map_to_list. unfold text_eq. rewrite Is_true_true, String.eqb_eq.
      reflexivity. }
    split; [reflexivity|]. rewrite Hids. split; [|split].
    + apply NoDup_fmap_2_strong.
      * intros [[a i] x] [[b j] y] [Hax Hx]%Hrow [Hay Hy]%Hrow.
        unfold row_account, row_id in *. cbn in *. intros <-. subst a b.
        rewrite Hx in Hy. now injection Hy as <-.
      * rewrite Hperm. apply NoDup_filter, NoDup_map_to_list.
    + intros id. rewrite list_elem_of_fmap. split.
      * intros ([[a i] row] & -> & [Ha Hr]%Hrow). unfold row_account, row_id in *.
        cbn in *. subst a. eauto.
      * intros [row Hr]. exists ((accountID, id), row). split; [reflexivity|].
        apply Hrow. now split.
    + destruct (ListImages_page s rows accountID perPage all n Hall Hpp Hfit)
        as (total & _ & Hl).
      exists total. rewrite Hl. do 2 f_equal.
      rewrite drop_ge; [apply take_nil|]. unfold k. nia.
Qed.

End OffsetPages.

Section OffsetPagesHandler.
Context `{TimeLib} `{JsonLib}.
Import Model Database Handler.

Lemma parsePage_range (r : Request) : (1 <= Images.parsePage r)%Z.
Proof.
  unfold Images.parsePage.
  destruct (String.eqb _ ""); [lia|].
  destruct (Strconv.Atoi _) as [e|p]; [lia|].
  destruct (Z.gtb_spec p 0); lia.
Qed.

Lemma parsePerPage_v1_range (r : Request) : (1 <= Images.parsePerPage r <= 10000)%Z.
Proof.
  unfold Images.parsePerPage.
  destruct (String.eqb _ ""); [lia|].
  destruct (Strconv.Atoi _) as [e|pp]; [lia|].
  destruct (Z.gtb_spec pp 0); [|lia].
  destruct (Z.gtb_spec pp 10000); lia.
Qed.

(** X29.  What the V1 listing reports about a page it answers with 200:
    the page number is at least 1 and the page size lies in 1..10000
    whatever the query says; [count] is the number of images of the page
    and is at most the page size; [total_count] is the number of images
    of the account; and [total_pages] is that number divided by the page
    size, rounded up. *)
Theorem ListImages_result_info (h : Handler) (r : Request) (rows : list Row) :
  Api.Status (Images.ListImages h r rows) = 200%Z ->
  (Z.of_nat (size (images (DB h))) < 2 ^ 62)%Z ->
  exists imgs info,
    Images.ListImages h r rows = Api.WritePaginated 200 imgs info
    /\ (1 <= Api.Page info)%Z
    /\ (1 <= Api.PerPage info <= 10000)%Z
    /\ Api.Count info = Z.of_nat (List.length imgs)
    /\ (Api.Count info <= Api.PerPage info)%Z
    /\ CountImages (DB h) (ContextAccountID r) = Ok (Api.TotalCount info)
    /\ ((Api.TotalPages info - 1) * Api.PerPage info < Api.TotalCount info
        <= Api.TotalPages info * Api.PerPage info)%Z.
Proof.
  intros Hs Hsize. revert Hs. unfold Images.ListImages, ListImages.
  pose proof (parsePage_range r) as Hpage.
  pose proof (parsePerPage_v1_range r) as Hpp.
  set (page := Images.parsePage r) in *. set (perPage := Images.parsePerPage r) in *.
  unfold CountImages.
  set (total := Z.of_nat (List.length (filter _ (map_to_list (images (DB h)))))).
  assert (Htotal : (0 <= total < 2 ^ 62)%Z).
  { unfold total. split; [lia|].
    pose proof (length_filter (fun x : Row => Is_true (text_eq (row_account x)
                                                        (ContextAccountID r)))
                  (map_to_list (images (DB h)))) as Hle.
    rewrite length_map_to_list in Hle. lia. }
  destruct (scanImages _) as [imgs| |] eqn:Hscan; cbn [Api.Status]; try discriminate.
  intros _. eexists. eexists. split; [reflexivity|].
  cbn [Api.Page Api.PerPage Api.Count Api.TotalCount Api.TotalPages].
  split; [exact Hpage|]. split; [exact Hpp|]. split; [reflexivity|].
  split; [|split; [reflexivity|]].
  - rewrite length_map.
    apply scanImages_Forall2, Forall2_length in Hscan. rewrite <- Hscan.
    unfold sql_limit. destruct (Z.ltb_spec perPage 0); [lia|]. rewrite length_take. lia.
  - destruct (Z.gtb_spec perPage 0); [|lia].
    change (2 ^ 62)%Z with 4611686018427387904%Z in Htotal.
    rewrite (wrap_int_small (total + perPage))
      by (change (2 ^ 63)%Z with 9223372036854775808%Z; lia).
    rewrite (wrap_int_small (total + perPage - 1))
      by (change (2 ^ 63)%Z with 9223372036854775808%Z; lia).
    rewrite Z.quot_div_nonneg by lia.
    pose proof (Z.div_mod (total + perPage - 1) perPage ltac:(lia)) as Hdm.
    pose proof (Z.mod_pos_bound (total + perPage - 1) perPage ltac:(lia)) as Hmod.
    nia.
Qed.

End OffsetPagesHandler.

(** ** The further properties on the sample store *)
Section FurtherWitnesses.
Import Model Database Handler Reference Fixtures Client.

Lemma CreateImage_then_GetImage_witness :
  exists s',
    CreateImage db draft_image = Ok s'
    /\ GetImage s' "acct" "img-n"
       = Ok {| ID := "img-n"; AccountID := "acct"; Filename := "cat.png";
               Creator := "1b9d6bcd-bbfd-4b2d-9b5d-ab8dfbbd4bed";
               image_Meta := None; RequireSignedURLs := true;
               Uploaded := {| year := 2024; month := 3; day := 7; hour := 15; minute := 4;
                              second := 5; nsec := 0 |};
               Variants := []; Draft := false |}
    /\ (exists n : nat,
          CountImages db "acct" = Ok (Z.of_nat n)
          /\ CountImages s' "acct" = Ok (Z.of_nat (S n)))
    /\ GetImage s' "acct" "img-a" = GetImage db "acct" "img-a".
Proof.
  exists (store_after (CreateImage db draft_image)).
  assert (Hc : CreateImage db draft_image = Ok (store_after (CreateImage db draft_image)))
    by reflexivity.
  split; [exact Hc|].
  destruct (CreateImage_then_GetImage db _ draft_image "null" None Hc eq_refl eq_refl)
    as (Hg & Hn & Hf).
  split; [exact Hg|]. split; [exact Hn | apply Hf; discriminate].
Defined.

Lemma DeleteImage_removes_one_witness :
  exists s',
    DeleteImage db "acct" "img-b" = Ok s'
    /\ GetImage s' "acct" "img-b" = Err "scan image: sql: no rows in result set"
    /\ DeleteImage s' "acct" "img-b" = Err "image not found"
    /\ (exists n : nat,
          CountImages db "acct" = Ok (Z.of_nat (S n))
          /\ CountImages s' "acct" = Ok (Z.of_nat n))
    /\ GetImage s' "acct" "img-a" = GetImage db "acct" "img-a"
    /\ image_metadata s' = image_metadata db.
Proof.
  exists (store_after (DeleteImage db "acct" "img-b")).
  assert (Hd : DeleteImage db "acct" "img-b" = Ok (store_after (DeleteImage db "acct" "img-b")))
    by reflexivity.
  split; [exact Hd|].
  destruct (DeleteImage_removes_one db _ "acct" "img-b" Hd) as (Hg & Hd' & Hn & Hf & Hm).
  split; [exact Hg|]. split; [exact Hd'|]. split; [exact Hn|].
  split; [apply Hf; discriminate | exact Hm].
Defined.

Lemma UpdateImage_keeps_upload_time_witness :
  exists s',
    UpdateImage db renamed_image = Ok s'
    /\ GetImage s' "acct" "img-b"
       = Ok {| ID := "img-b"; AccountID := "acct"; Filename := "renamed.gif"; Creator := "";
               image_Meta := None; RequireSignedURLs := true;
               Uploaded := {| year := 2024; month := 3; day := 1; hour := 10; minute := 0;
                              second := 0; nsec := 0 |};
               Variants := []; Draft := false |}.
Proof.
  pose proof (UpdateImage_keeps_upload_time db renamed_image "null" None eq_refl eq_refl)
    as Hu.
  change (images db !! (AccountID renamed_image, ID renamed_image))
    with (Some (image_row "2024-03-01T10:00:00Z" 0)) in Hu.
  destruct Hu as (s' & Hs & Hg & _). exists s'. split; [exact Hs | exact Hg].
Defined.

Lemma listing_page_is_sound_witness :
  listPage db "acct" 2 "asc" (Some size_large) "" = Ok ([img_e], "")
  /\ AccountID img_e = "acct"
  /\ GetImage db "acct" "img-e" = Ok img_e
  /\ (exists v, image_metadata db !! ("acct", "img-e", "size") = Some v
                /\ opSQL "eq" v "large" = true)
  /\ NoDup (ID <$> [img_e])
  /\ (Z.of_nat (List.length [img_e]) <= 2)%Z.
Proof.
  assert (Hp : listPage db "acct" 2 "asc" (Some size_large) "" = Ok ([img_e], ""))
    by reflexivity.
  destruct (listing_page_is_sound db "acct" 2 "asc" (Some size_large) "" [img_e] "" Hp)
    as (Hall & Hnd & Hlen).
  destruct (Hall img_e (list_elem_of_here _ _)) as (Ha & Hg & Hm).
  split; [exact Hp|]. split; [exact Ha|]. split; [exact Hg|]. split; [exact Hm|].
  split; [exact Hnd | apply Hlen; lia].
Defined.

Lemma deleted_image_is_not_listed_witness :
  let s' := store_after (DeleteImage db "acct" "img-e") in
  DeleteImage db "acct" "img-e" = Ok s'
  /\ listPage s' "acct" 5 "asc" (Some color_red) "" = Ok ([img_a; img_c], "")
  /\ "img-e" ∉ ID <$> [img_a; img_c].
Proof.
  intros s'.
  assert (Hd : DeleteImage db "acct" "img-e" = Ok s') by reflexivity.
  assert (Hp : listPage s' "acct" 5 "asc" (Some color_red) "" = Ok ([img_a; img_c], ""))
    by reflexivity.
  split; [exact Hd|]. split; [exact Hp|].
  exact (deleted_image_is_not_listed db s' "acct" "img-e" 5 "asc" (Some color_red) ""
           [img_a; img_c] "" Hd Hp).
Defined.

Lemma CreateVariant_then_GetVariant_witness :
  exists s',
    CreateVariant db hero = Ok s'
    /\ GetVariant s' "acct" "hero" = Ok hero
    /\ (exists n : nat,
          CountVariants db "acct" = Ok (Z.of_nat n)
          /\ CountVariants s' "acct" = Ok (Z.of_nat (S n)))
    /\ GetVariant s' "acct" "thumb" = GetVariant db "acct" "thumb"
    /\ (exists e, CreateVariant s' hero = Err e /\ GoStrings.Contains e "UNIQUE" = true).
Proof.
  exists (store_after (CreateVariant db hero)).
  assert (Hc : CreateVariant db hero = Ok (store_after (CreateVariant db hero)))
    by reflexivity.
  split; [exact Hc|].
  destruct (CreateVariant_then_GetVariant db _ hero Hc) as (Hg & Hn & Hf & He).
  split; [exact Hg|]. split; [exact Hn|]. split; [apply Hf; discriminate | exact He].
Defined.

Lemma CreateVariant_keeps_limit_witness :
  CountVariants db "acct" = Ok 2%Z
  /\ exists n',
       CountVariants
         (Variants.CreateVariant (handler true) (api_request "" "")
            (Ok {| Variants.create_ID := "hero";
                   Variants.create_Options := Options hero;
                   Variants.create_NeverRequireSignedURLs := false |})).2 "acct"
       = Ok n'
       /\ (n' <= 100)%Z.
Proof.
  assert (Hn : CountVariants db "acct" = Ok 2%Z) by reflexivity.
  split; [exact Hn|].
  apply (CreateVariant_keeps_limit (handler true) (api_request "" "") _ "acct" 2 Hn). lia.
Defined.

Lemma db_valid_fits : Variants.valid_fits db.
Proof.
  intros k row Hrow. unfold db in Hrow. cbn [variants] in Hrow.
  apply elem_of_list_to_map_2 in Hrow.
  repeat (apply elem_of_cons in Hrow as [Hrow|Hrow]; [injection Hrow as _ ->; reflexivity|]).
  now apply not_elem_of_nil in Hrow.
Qed.

Lemma variant_handlers_keep_fits_valid_witness :
  Variants.valid_fits
    (Variants.CreateVariant (handler true) (api_request "" "")
       (Ok {| Variants.create_ID := "hero";
              Variants.create_Options := Options hero;
              Variants.create_NeverRequireSignedURLs := false |})).2
  /\ Variants.valid_fits
       (Variants.UpdateVariant (handler true) (api_request "variant_id" "thumb")
          (Ok {| Variants.update_Options :=
                   Some {| Fit := "pad"; Width := 0; Height := 64; Metadata := "" |};
                 Variants.update_NeverRequireSignedURLs := None |})).2
  /\ Variants.valid_fits
       (Variants.DeleteVariant (handler true) (api_request "variant_id" "thumb")).2.
Proof.
  destruct (variant_handlers_keep_fits_valid (handler true) (api_request "variant_id" "thumb")
              (Ok {| Variants.create_ID := "hero";
                     Variants.create_Options := Options hero;
                     Variants.create_NeverRequireSignedURLs := false |})
              (Ok {| Variants.update_Options :=
                       Some {| Fit := "pad"; Width := 0; Height := 64; Metadata := "" |};
                     Variants.update_NeverRequireSignedURLs := None |})
              db_valid_fits) as (Hc & Hu & Hd).
  split; [exact Hc|]. split; [exact Hu | exact Hd].
Defined.

Lemma UpdateVariant_keeps_what_is_omitted_witness :
  let body : result Variants.updateVariantRequest :=
    Ok {| Variants.update_Options :=
            Some {| Fit := ""; Width := 0; Height := 64; Metadata := "" |};
          Variants.update_NeverRequireSignedURLs := None |} in
  let answer := Variants.UpdateVariant (handler true) (api_request "variant_id" "thumb") body in
  Api.Status answer.1 = 200%Z
  /\ exists updated,
       GetVariant answer.2 "acct" "thumb" = Ok updated
       /\ Width (Options updated) <> 0%Z
       /\ Fit (Options updated) <> ""
       /\ NeverRequireSignedURLs updated = false.
Proof.
  intros body answer.
  assert (Hs : Api.Status answer.1 = 200%Z) by reflexivity.
  split; [exact Hs|].
  destruct (UpdateVariant_keeps_what_is_omitted (handler true)
              (api_request "variant_id" "thumb") body Hs)
    as (existing & req & updated & Hg & Hb & _ & Hg' & _ & Hw & _ & Hf & _ & _ & Hn).
  assert (He : existing = thumb_variant).
  { assert (Ht : GetVariant db "acct" "thumb" = Ok thumb_variant) by reflexivity.
    change (GetVariant db "acct" "thumb" = Ok existing) in Hg.
    rewrite Ht in Hg. now injection Hg. }
  injection Hb as <-. subst existing.
  exists updated. split; [exact Hg'|].
  split; [apply Hw; discriminate|]. split; [apply Hf; discriminate|].
  now rewrite Hn.
Defined.

Lemma buildVariantURLs_ignores_trailing_slash_witness :
  Z.of_nat (List.length (buildVariantURLs handler_slash "acct" "img-a")) = 2%Z
  /\ buildVariantURLs handler_slash "acct" "img-a"
     = ["http://localhost:8080/cdn/acct/img-a/public";
        "http://localhost:8080/cdn/acct/img-a/thumb"].
Proof.
  destruct (buildVariantURLs_ignores_trailing_slash handler_slash "acct" "img-a"
              "http://localhost:8080" 2 eq_refl eq_refl) as [Hl He].
  split; [exact Hl|]. rewrite He. vm_compute. reflexivity.
Defined.

Lemma deleted_variant_is_not_delivered_witness :
  Api.Status (Variants.DeleteVariant (handler true) (api_request "variant_id" "public")).1
  = 200%Z
  /\ StatusCode
       (DeliverImage
          (Server.with_store (handler true)
             (Variants.DeleteVariant (handler true) (api_request "variant_id" "public")).2)
          (delivery "public" []) 1700000000).2
     = 404%Z.
Proof.
  assert (Hs : Api.Status
                 (Variants.DeleteVariant (handler true) (api_request "variant_id" "public")).1
               = 200%Z) by reflexivity.
  split; [exact Hs|].
  apply (deleted_variant_is_not_delivered (handler true) (api_request "variant_id" "public")
           (delivery "public" []) 1700000000 Hs); reflexivity.
Defined.

Lemma CreateSigningKey_never_replaces_witness :
  Api.Status
    (Keys.CreateSigningKey (handler true) (key_deletion "default")
       "7c9e6679-7425-40de-944b-e07fc1f90ae7" (time_Parse "2024-03-10T09:00:00Z")).1
  = 400%Z
  /\ (Keys.CreateSigningKey (handler true) (key_deletion "default")
        "7c9e6679-7425-40de-944b-e07fc1f90ae7" (time_Parse "2024-03-10T09:00:00Z")).2
     = db.
Proof.
  apply (proj1 (CreateSigningKey_never_replaces (handler true) (key_deletion "default")
                  "7c9e6679-7425-40de-944b-e07fc1f90ae7"
                  (time_Parse "2024-03-10T09:00:00Z"))).
  right. eexists. reflexivity.
Defined.

Lemma created_key_signs_urls_witness :
  let put := Keys.CreateSigningKey (handler true) (key_deletion "fresh")
               "7c9e6679-7425-40de-944b-e07fc1f90ae7"
               (time_Parse "2024-03-10T09:00:00Z") in
  Api.Status put.1 = 200%Z
  /\ verifySignature (Server.with_store (handler true) put.2)
       (delivery "thumb"
          [("exp", ["1900000000"]);
           ("sig", ["4739af5b6d7185d7050833d926e7215afecce485c2028cef800e62885dbea6bb"])])
       1700000000 "acct" "img-a" "thumb"
     = true.
Proof.
  intros put.
  assert (Hs : Api.Status put.1 = 200%Z) by reflexivity.
  split; [exact Hs|].
  apply (created_key_signs_urls (handler true) (key_deletion "fresh") _
           "7c9e6679-7425-40de-944b-e07fc1f90ae7" (time_Parse "2024-03-10T09:00:00Z")
           1700000000 1900000000 "img-a" "thumb" Hs).
  - vm_compute. reflexivity.
  - lia.
  - vm_compute. reflexivity.
Defined.

Lemma create_then_delete_key_restores_witness :
  let put := Keys.CreateSigningKey (handler true) (key_deletion "fresh")
               "7c9e6679-7425-40de-944b-e07fc1f90ae7"
               (time_Parse "2024-03-10T09:00:00Z") in
  Api.Status put.1 = 200%Z
  /\ Handler.DeleteSigningKey (Server.with_store (handler true) put.2)
       (key_deletion "fresh") "0b6a4c55-9a3e-4d1f-8e8b-7a212f1c9d7e"
       (time_Parse "2024-03-11T09:00:00Z")
     = ({| StatusCode := 200; ResponseBody := EnvelopeEmpty |}, db).
Proof.
  intros put.
  assert (Hs : Api.Status put.1 = 200%Z) by reflexivity.
  split; [exact Hs|].
  apply (create_then_delete_key_restores (handler true) (key_deletion "fresh")
           "7c9e6679-7425-40de-944b-e07fc1f90ae7" "0b6a4c55-9a3e-4d1f-8e8b-7a212f1c9d7e"
           (time_Parse "2024-03-10T09:00:00Z") (time_Parse "2024-03-11T09:00:00Z")
           "default"
           {| value := "2f1c9d7e-0b6a-4c55-9a3e-6d1f0e8b7a21";
              created_at := "2024-01-01T00:00:00Z" |} Hs).
  reflexivity.
Defined.

Lemma unsupported_operator_is_rejected_witness :
  exists msg,
    Handler.ListImagesV2 (handler true)
      (listing [("per_page", ["10"]); ("metadata[color][like]", ["red"])])
      [("per_page", ["10"]); ("metadata[color][like]", ["red"])]
    = {| StatusCode := 400; ResponseBody := EnvelopeError 9400 msg |}.
Proof.
  apply (unsupported_operator_is_rejected (handler true) _ _ "color" "like" ["red"]);
    try discriminate.
  - apply list_elem_of_further, list_elem_of_here.
  - reflexivity.
Defined.

Lemma malformed_cursor_is_a_server_error_witness :
  Handler.ListImagesV2 (handler true) (listing [("continuation_token", ["garbage"])])
    [("continuation_token", ["garbage"])]
  = {| StatusCode := 500; ResponseBody := EnvelopeError 9500 "failed to list images" |}.
Proof.
  apply (malformed_cursor_is_a_server_error (handler true) _ _ []).
  - reflexivity.
  - simpl. lia.
  - vm_compute. discriminate.
  - vm_compute. reflexivity.
Defined.

Lemma ListImagesV2_does_not_panic_witness :
  listPage db "acct" 2 "asc" None "" <> Panic
  /\ Handler.ListImagesV2 (handler true) (listing []) [] <> recovered.
Proof.
  assert (Hj : forall txt, json_Unmarshal txt <> Panic).
  { intros txt. cbn. destruct (String.eqb txt "null"); discriminate. }
  destruct (ListImagesV2_does_not_panic Hj) as [Hl Hh]. split.
  - apply Hl. lia.
  - apply (Hh (handler true) (listing []) []).
Defined.

Lemma AuthMiddleware_passes_exactly_witness :
  Api.AuthMiddleware "s3cret" (bearer "s3cret") = Api.Next
  /\ Api.AuthMiddleware "s3cret" (bearer "guess")
     = Api.Answer (Api.WriteJSON 401 (Api.ErrorResponse 9401 "Authentication required")).
Proof.
  split.
  - apply (proj1 (AuthMiddleware_passes_exactly "s3cret" (bearer "s3cret"))).
    left. split; [reflexivity | right; reflexivity].
  - apply (proj2 (AuthMiddleware_passes_exactly "s3cret" (bearer "guess"))).
    intros Hn. apply (proj1 (AuthMiddleware_passes_exactly "s3cret" (bearer "guess"))) in Hn.
    destruct Hn as [[_ [E|E]]|[E _]]; discriminate.
Defined.

Lemma patched_image_requires_signature_witness :
  let patch := Images.UpdateImage (handler true) (api_request "image_id" "img-b")
                 (Ok {| Images.body_Metadata := None;
                        Images.body_RequireSignedURLs := Some true |}) in
  Api.Status patch.1 = 200%Z
  /\ DeliverImage (handler true) (delivery_of "img-b" "thumb" []) 1700000000
     = ([CallRetrieve],
        {| StatusCode := 404; ResponseBody := Text "image not found" |})
  /\ DeliverImage (Server.with_store (handler true) patch.2)
       (delivery_of "img-b" "thumb" []) 1700000000
     = ([CallVerifySignature], {| StatusCode := 403; ResponseBody := Text "forbidden" |}).
Proof.
  intros patch.
  assert (Hs : Api.Status patch.1 = 200%Z) by reflexivity.
  split; [exact Hs|]. split; [reflexivity|].
  apply (proj1 (patched_image_requires_signature (handler true)
                  (api_request "image_id" "img-b") (delivery_of "img-b" "thumb" [])
                  {| Images.body_Metadata := None;
                     Images.body_RequireSignedURLs := Some true |}
                  1700000000 thumb_variant Hs eq_refl eq_refl eq_refl eq_refl eq_refl
                  eq_refl eq_refl
                  (fun m txt _ => match String.eqb txt "null" as b
                                    return exists m', (if b then Ok None else Ok (Some txt))
                                                      = Ok m'
                                  with
                                  | true => ex_intro _ None eq_refl
                                  | false => ex_intro _ (Some txt) eq_refl
                                  end))).
Defined.

Lemma ListImages_pages_cover_witness :
  exists pages : list (list Image),
    List.length pages = 3%nat
    /\ concat pages = [img_d; img_a; img_b; img_c; img_e]
    /\ NoDup (ID <$> concat pages)
    /\ exists total, ListImages db acct_rows "acct" 4 2 = Ok ([], total).
Proof.
  assert (Hall : scanImages acct_rows = Ok [img_d; img_a; img_b; img_c; img_e])
    by reflexivity.
  destruct (ListImages_pages_cover db acct_rows "acct" 2 _ 3
              (ordered_images_by_uploaded db "acct") Hall)
    as (pages & Hl & _ & Hc); [lia | vm_compute; reflexivity |].
  destruct Hc as (Hcat & Hnd & _ & Hlast); [vm_compute; discriminate|].
  exists pages. split; [exact Hl|]. split; [exact Hcat|]. split; [exact Hnd | exact Hlast].
Defined.

Lemma ListImages_result_info_witness :
  let r := listing [("per_page", ["2"]); ("page", ["2"])] in
  Api.Status (Images.ListImages (handler true) r acct_rows) = 200%Z
  /\ exists imgs info,
       Images.ListImages (handler true) r acct_rows = Api.WritePaginated 200 imgs info
       /\ (1 <= Api.Page info)%Z
       /\ (1 <= Api.PerPage info <= 10000)%Z
       /\ Api.Count info = Z.of_nat (List.length imgs)
       /\ (Api.Count info <= Api.PerPage info)%Z
       /\ CountImages db "acct" = Ok (Api.TotalCount info)
       /\ ((Api.TotalPages info - 1) * Api.PerPage info < Api.TotalCount info
           <= Api.TotalPages info * Api.PerPage info)%Z.
Proof.
  intros r.
  assert (Hs : Api.Status (Images.ListImages (handler true) r acct_rows) = 200%Z)
    by reflexivity.
  split; [exact Hs|].
  apply (ListImages_result_info (handler true) r acct_rows Hs).
  vm_compute. reflexivity.
Defined.

Lemma signed_urls_are_enforced_only_by_true_witness :
  let env : Config.Env :=
    fun key => if String.eqb key "DT_ENFORCE_SIGNED_URLS" then "TRUE" else "" in
  let h := {| DB := db; Store := store; Config := Config.Load env |} in
  RequireSignedURLs img_a = true
  /\ (CallVerifySignature ∉ (DeliverImage h (delivery "thumb" []) 1700000000).1)
  /\ StatusCode (DeliverImage h (delivery "thumb" []) 1700000000).2 <> 403%Z.
Proof.
  intros env h. split; [reflexivity|].
  apply (proj2 (signed_urls_are_enforced_only_by_true env db store (delivery "thumb" [])
                  1700000000)).
  discriminate.
Defined.

End FurtherWitnesses.
